(** * Expense tracker backend: routes, middleware and their properties

    A shallow embedding of the Express backend of the expense tracker
    (routes/transactions.js, routes/categories.js, routes/auth.js,
    middleware/auth.js, config/database.js).  Route handlers are written in a
    small state-and-exception monad over a world made of the database tables,
    the connection pool and a fault schedule for the database driver, so that
    [try]/[catch]/[finally] and early [return res.status(..)] read as in the
    JavaScript source. *)

From Stdlib Require Import ZArith List String Ascii Bool Lia.
From Stdlib Require Import Permutation Sorted.
From Stdlib Require Import Floats.PrimFloat Numbers.Cyclic.Int63.Uint63.
Import ListNotations.

Open Scope string_scope.
Open Scope list_scope.
Open Scope Z_scope.

(** Decimal float literals stand for the nearest double, as in JavaScript. *)
Set Warnings "-inexact-float".

(** A calendar date without a time component, as a DATE column holds it. *)
Record Date : Type := mkDate {
  d_year : Z;
  d_month : Z;
  d_day : Z
}.

(* ------------------------------------------------------------------------- *)
(** ** JavaScript values and coercions used by the handlers *)

Module JS.

(** A JavaScript number as far as the handlers inspect it: an integer or NaN.
    Monetary amounts are the only non-integral numbers of the program and are
    IEEE-754 doubles, see [parseFloat]. *)
Inductive number : Type :=
| NaN : number
| Num : Z -> number.

(** ToBoolean on a number: [0] and [NaN] are falsy. *)
Definition truthy (n : number) : bool :=
  match n with
  | NaN => false
  | Num z => negb (z =? 0)
  end.

(** ToBoolean on a string: only the empty string is falsy. *)
Definition truthy_string (s : string) : bool :=
  negb (s =? "")%string.

(** [a || b] on optional strings ([None] is [undefined]/[null]). *)
Definition or_else (a b : option string) : option string :=
  match a with
  | Some s => if truthy_string s then Some s else b
  | None => b
  end.

(** Value of a character as a digit in the given radix. *)
Definition digit (radix : Z) (c : ascii) : option Z :=
  let n := Z.of_nat (nat_of_ascii c) in
  let v :=
    if (48 <=? n) && (n <=? 57) then Some (n - 48)
    else if (97 <=? n) && (n <=? 122) then Some (n - 87)
    else if (65 <=? n) && (n <=? 90) then Some (n - 55)
    else None in
  match v with
  | Some d => if d <? radix then Some d else None
  | None => None
  end.

(** Longest prefix of digits; the accumulator is [None] until a digit is read.
    Returns the value read and the unread rest. *)
Fixpoint digits (radix : Z) (s : string) (acc : option Z) : option Z * string :=
  match s with
  | EmptyString => (acc, s)
  | String c r =>
      match digit radix c with
      | Some d =>
          digits radix r
            (Some (radix * match acc with Some a => a | None => 0 end + d))
      | None => (acc, s)
      end
  end.

Definition is_space (c : ascii) : bool :=
  let n := nat_of_ascii c in
  (Nat.eqb n 32 || (Nat.leb 9 n && Nat.leb n 13))%bool.

Fixpoint skip_spaces (s : string) : string :=
  match s with
  | String c r => if is_space c then skip_spaces r else s
  | EmptyString => s
  end.

Definition sign_and_rest (s : string) : Z * string :=
  match s with
  | String c r =>
      if (c =? "-")%char then (-1, r)
      else if (c =? "+")%char then (1, r)
      else (1, s)
  | EmptyString => (1, s)
  end.

(** The radix chosen by [parseInt] and the text after a [0x] or [0X] prefix. *)
Definition radix_and_rest (s : string) : Z * string :=
  match s with
  | String c (String x t) =>
      if ((c =? "0")%char && ((x =? "x")%char || (x =? "X")%char))%bool
      then (16, t)
      else (10, s)
  | _ => (10, s)
  end.

(** [parseInt(s)] without a radix argument: leading white space, a sign, an
    optional [0x] prefix, then the longest prefix of digits; NaN when there is
    no digit.  The result is the integer read: this is the JavaScript number
    for magnitudes up to 2^53, above which JavaScript rounds to a double;
    statements about the number returned are made within that bound. *)
Definition parseInt (s : string) : number :=
  let (sg, r) := sign_and_rest (skip_spaces s) in
  let (radix, r') := radix_and_rest r in
  match fst (digits radix r' None) with
  | Some v => Num (sg * v)
  | None => NaN
  end.

(** [parseInt] applied to a possibly missing query parameter: [undefined] is
    first converted to the string ["undefined"]. *)
Definition parseInt_opt (s : option string) : number :=
  parseInt (match s with Some x => x | None => "undefined" end).

(** A signed decimal integer literal, the whole string. *)
Definition int_literal (s : string) : option Z :=
  let (sg, r) := sign_and_rest s in
  match digits 10 r None with
  | (Some v, EmptyString) => Some (sg * v)
  | _ => None
  end.

(** ToNumber on a string, as applied by [<] and [>] when a route segment is
    compared with a number.  It agrees with ECMAScript on the empty string, on
    every signed decimal integer literal and on every string that is no numeric
    literal at all (those give NaN).  The other numeric literal forms
    (fraction, exponent, radix prefix, [Infinity], surrounding white space) are
    outside the modelled fragment: statements about route segments below
    quantify over integer literals, and the examples use plain words. *)
Definition to_number (s : string) : number :=
  if (s =? "")%string then Num 0
  else match int_literal s with
       | Some z => Num z
       | None => NaN
       end.

(** [a < b] and [a > b] with a number on the right: false when [a] is NaN. *)
Definition lt (a : number) (b : Z) : bool :=
  match a with
  | NaN => false
  | Num z => z <? b
  end.

Definition gt (a : number) (b : Z) : bool :=
  match a with
  | NaN => false
  | Num z => z >? b
  end.

(** [a - b] and [a * b] on numbers: NaN propagates. *)
Definition sub (a b : number) : number :=
  match a, b with
  | Num x, Num y => Num (x - y)
  | _, _ => NaN
  end.

Definition mul (a b : number) : number :=
  match a, b with
  | Num x, Num y => Num (x * y)
  | _, _ => NaN
  end.

(** [parseFloat] of a DECIMAL(_,2) value as the driver hands it over (a decimal
    string such as ["12.34"]), given in cents: the double nearest to
    [cents / 100], obtained by one correctly rounded division (exact for
    magnitudes below 2^53 cents). *)
Definition parseFloat (cents : Z) : float :=
  if cents <? 0
  then PrimFloat.opp
         (PrimFloat.div (PrimFloat.of_uint63 (Uint63.of_Z (- cents)))
                        (PrimFloat.of_uint63 100%uint63))
  else PrimFloat.div (PrimFloat.of_uint63 (Uint63.of_Z cents))
                     (PrimFloat.of_uint63 100%uint63).

(** [['INCOME', 'EXPENSE'].includes(type)]. *)
Definition includes (l : list string) (s : string) : bool :=
  existsb (String.eqb s) l.

(** The calendar of [Date]: proleptic Gregorian, year 0 a leap year. *)
Definition leap_year (y : Z) : bool :=
  (y mod 4 =? 0) && (negb (y mod 100 =? 0) || (y mod 400 =? 0)).

Definition days_in_month (y m : Z) : Z :=
  if m =? 2 then (if leap_year y then 29 else 28)
  else if (m =? 4) || (m =? 6) || (m =? 9) || (m =? 11) then 30
  else 31.

(** The day before a calendar date. *)
Definition yesterday (d : Date) : Date :=
  if 1 <? d_day d then mkDate (d_year d) (d_month d) (d_day d - 1)
  else if 1 <? d_month d
       then mkDate (d_year d) (d_month d - 1)
                   (days_in_month (d_year d) (d_month d - 1))
       else mkDate (d_year d - 1) 12 31.

(** A [Date] object that stands at midnight, local time of the process, of a
    calendar date.  These are the only [Date] objects the handlers pass on:
    the values of the DATE column as the driver hands them over. *)
Inductive DateObject : Type :=
| LocalMidnight (local : Date).

(** [new Date(year, monthIndex, day)] for a month index in 0-11 and a day of
    that month: midnight in local time; a year in 0-99 stands for 1900-1999. *)
Definition new_Date_components (year monthIndex day : Z) : DateObject :=
  LocalMidnight
    (mkDate (if (0 <=? year) && (year <=? 99) then 1900 + year else year)
            (monthIndex + 1) day).

(** The UTC calendar date and minute of the day at which a [Date] object
    stands, in a process whose zone is [offset] minutes east of UTC at that
    instant; zone offsets are shorter than a day. *)
Definition utc (offset : Z) (o : DateObject) : Date * Z :=
  match o with
  | LocalMidnight d =>
      if offset <=? 0 then (d, - offset) else (yesterday d, 1440 - offset)
  end.

Definition digit_char (n : Z) : ascii :=
  ascii_of_nat (48 + Z.to_nat (n mod 10)).

(** The last [width] decimal digits of [n], zero padded. *)
Fixpoint pad (width : nat) (n : Z) : string :=
  match width with
  | O => ""
  | S k => pad k (n / 10) ++ String (digit_char n) ""
  end.

(** [toISOString()], which [JSON.stringify] (and so [res.json]) applies to a
    [Date] object: the UTC date and time, [YYYY-MM-DDTHH:mm:ss.sssZ], with a
    signed six-digit year outside 0-9999. *)
Definition toISOString (offset : Z) (o : DateObject) : string :=
  let (d, minutes) := utc offset o in
  let y := d_year d in
  (if (0 <=? y) && (y <=? 9999) then pad 4 y
   else (if y <? 0 then "-" else "+") ++ pad 6 (Z.abs y)) ++
  "-" ++ pad 2 (d_month d) ++ "-" ++ pad 2 (d_day d) ++
  "T" ++ pad 2 (minutes / 60) ++ ":" ++ pad 2 (minutes mod 60) ++ ":00.000Z".

End JS.

(* ------------------------------------------------------------------------- *)
(** ** The persisted schema (config/database.js) *)

Definition date_compare (a b : Date) : comparison :=
  match d_year a ?= d_year b with
  | Eq => match d_month a ?= d_month b with
          | Eq => d_day a ?= d_day b
          | o => o
          end
  | o => o
  end.

Definition date_leb (a b : Date) : bool :=
  match date_compare a b with
  | Gt => false
  | _ => true
  end.

(** users(id, username, email, password, full_name). *)
Record UserRow : Type := mkUser {
  u_id : Z;
  u_username : string;
  u_email : string;
  u_password : string;
  u_full_name : string
}.

(** categories(id, name, description, type, color, user_id, is_default,
    created_at, updated_at); [description], [color] and [user_id] are
    nullable. *)
Record CategoryRow : Type := mkCategory {
  c_id : Z;
  c_name : string;
  c_description : option string;
  c_type : string;
  c_color : option string;
  c_user_id : option Z;
  c_is_default : bool;
  c_created_at : Z;
  c_updated_at : Z
}.

(** transactions(id, amount, description, transaction_date, type, category_id,
    user_id, notes, created_at, updated_at); [amount] is DECIMAL(10,2), held
    in cents, and [notes] is nullable. *)
Record TransactionRow : Type := mkTransaction {
  t_id : Z;
  t_amount : Z;
  t_description : string;
  t_transaction_date : Date;
  t_type : string;
  t_category_id : Z;
  t_user_id : Z;
  t_notes : option string;
  t_created_at : Z;
  t_updated_at : Z
}.

(** The database: the three tables, their AUTO_INCREMENT counters and the
    server clock read by NOW() and CURRENT_TIMESTAMP. *)
Record Db : Type := mkDb {
  users : list UserRow;
  categories : list CategoryRow;
  transactions : list TransactionRow;
  next_user_id : Z;
  next_category_id : Z;
  next_transaction_id : Z;
  now : Z
}.

Definition set_users (d : Db) (l : list UserRow) (n : Z) : Db :=
  mkDb l (categories d) (transactions d) n (next_category_id d)
       (next_transaction_id d) (now d).

Definition set_categories (d : Db) (l : list CategoryRow) (n : Z) : Db :=
  mkDb (users d) l (transactions d) (next_user_id d) n
       (next_transaction_id d) (now d).

Definition set_transactions (d : Db) (l : list TransactionRow) (n : Z) : Db :=
  mkDb (users d) (categories d) l (next_user_id d) (next_category_id d) n
       (now d).

(* ------------------------------------------------------------------------- *)
(** ** The world a request runs in, and the handler monad *)

(** [held] counts the connections checked out of the pool and not yet released.
    [faults] is the fault schedule of the driver: each call of
    [pool.getConnection()] or [connection.execute()] consumes one entry and
    rejects when it is [true]; an exhausted schedule means no further fault.
    [today] is the application clock read by [new Date()]. *)
Record World : Type := mkWorld {
  db : Db;
  held : nat;
  faults : list bool;
  today : Date
}.

Record Error : Type := mkError {
  e_name : string;
  e_message : string
}.

Inductive Outcome (A : Type) : Type :=
| Returned : A -> Outcome A
| Thrown : Error -> Outcome A.

Arguments Returned {A} _.
Arguments Thrown {A} _.

Definition M (A : Type) : Type := World -> Outcome A * World.

Definition ret {A : Type} (a : A) : M A := fun w => (Returned a, w).

Definition bind {A B : Type} (m : M A) (k : A -> M B) : M B :=
  fun w =>
    match m w with
    | (Returned a, w') => k a w'
    | (Thrown e, w') => (Thrown e, w')
    end.

Definition throw {A : Type} (e : Error) : M A := fun w => (Thrown e, w).

(** [try { m } catch (error) { h error }]. *)
Definition try_catch {A : Type} (m : M A) (h : Error -> M A) : M A :=
  fun w =>
    match m w with
    | (Returned a, w') => (Returned a, w')
    | (Thrown e, w') => h e w'
    end.

(** [try { m } finally { f }]: [f] runs on every exit of [m]; the outcome is
    that of [m] unless [f] itself throws. *)
Definition try_finally {A : Type} (m : M A) (f : M unit) : M A :=
  fun w =>
    match m w with
    | (o, w') =>
        match f w' with
        | (Returned _, w'') => (o, w'')
        | (Thrown e, w'') => (Thrown e, w'')
        end
    end.

Declare Scope monad_scope.
Delimit Scope monad_scope with monad.
Notation "x <- m ;; k" := (bind m (fun x => k))
  (at level 61, m at next level, right associativity) : monad_scope.
Notation "m ;;; k" := (bind m (fun _ => k))
  (at level 61, right associativity) : monad_scope.
Open Scope monad_scope.

Definition driver_error : Error :=
  mkError "Error" "database driver failure".

(** [await pool.getConnection()] on a pool that has a connection to give.
    The limit of the pool (ten connections, requests beyond it waiting in an
    unbounded queue) is not represented: a request that arrives while ten
    connections are held gets no answer until one is released, and what is
    stated below about the answer of a request is about a request the pool
    serves. *)
Definition getConnection : M unit :=
  fun w =>
    match faults w with
    | true :: r => (Thrown driver_error, mkWorld (db w) (held w) r (today w))
    | false :: r => (Returned tt, mkWorld (db w) (S (held w)) r (today w))
    | [] => (Returned tt, mkWorld (db w) (S (held w)) [] (today w))
    end.

(** [connection.release()]. *)
Definition release : M unit :=
  fun w => (Returned tt, mkWorld (db w) (Nat.pred (held w)) (faults w) (today w)).

(** A prepared statement with its parameters bound: it reads the database and
    either yields a result and the database after it, or is rejected by the
    server. *)
Definition Statement (A : Type) : Type := Db -> Outcome (A * Db).

(** [await connection.execute(sql, params)]. *)
Definition execute {A : Type} (q : Statement A) : M A :=
  fun w =>
    let run (r : list bool) : Outcome A * World :=
      match q (db w) with
      | Returned (a, d) => (Returned a, mkWorld d (held w) r (today w))
      | Thrown e => (Thrown e, mkWorld (db w) (held w) r (today w))
      end in
    match faults w with
    | true :: r => (Thrown driver_error, mkWorld (db w) (held w) r (today w))
    | false :: r => run r
    | [] => run []
    end.

(** A SELECT: the database is left as it is. *)
Definition select {A : Type} (f : Db -> A) : Statement A :=
  fun d => Returned (f d, d).

(* ------------------------------------------------------------------------- *)
(** ** SQL evaluation shared by the statements *)

Module Sql.

(** Conversion of a string parameter compared with an integer expression
    ([YEAR(d) = ?] with the route segment bound as a string): the value of the
    longest leading signed run of decimal digits, 0 when there is none.  Exact
    on integer literals and on strings that start with no digit. *)
Definition number_of_string (s : string) : Z :=
  let (sg, r) := JS.sign_and_rest s in
  match fst (JS.digits 10 r None) with
  | Some v => sg * v
  | None => 0
  end.

(** [col = ?] on a nullable column: NULL is equal to nothing. *)
Definition eq_nullable (a : option Z) (b : Z) : bool :=
  match a with
  | Some x => x =? b
  | None => false
  end.

(** SUM over the selected rows: NULL when no row is selected. *)
Definition sum (l : list Z) : option Z :=
  match l with
  | [] => None
  | _ => Some (fold_left Z.add l 0)
  end.

Definition coalesce (a : option Z) (b : Z) : Z :=
  match a with
  | Some x => x
  | None => b
  end.

Section OrderBy.

Context {A : Type} (leb : A -> A -> bool).

Fixpoint insert (x : A) (l : list A) : list A :=
  match l with
  | [] => [x]
  | y :: r => if leb x y then x :: l else y :: insert x r
  end.

(** ORDER BY as a stable insertion sort: rows that compare equal keep their
    table order, one of the orders the server may return. *)
Fixpoint order_by (l : list A) : list A :=
  match l with
  | [] => []
  | x :: r => insert x (order_by r)
  end.

End OrderBy.

(** [LIMIT limit OFFSET offset] on an ordered result. *)
Definition limit_offset {A : Type} (limit offset : Z) (l : list A) : list A :=
  firstn (Z.to_nat limit) (skipn (Z.to_nat offset) l).

Definition syntax_error : Error :=
  mkError "Error" "You have an error in your SQL syntax".

(** The dates a DATE column stores (strict SQL mode, the server default): a
    month 1-12 and a day of that month; the server counts year 0 as a common
    year. *)
Definition leap_year (y : Z) : bool :=
  (y mod 4 =? 0) &&
  (negb (y mod 100 =? 0) || ((y mod 400 =? 0) && negb (y =? 0))).

Definition valid_date (d : Date) : bool :=
  (0 <=? d_year d) && (d_year d <=? 9999) &&
  (1 <=? d_month d) && (d_month d <=? 12) &&
  (1 <=? d_day d) &&
  (d_day d <=?
     (if d_month d =? 2 then (if leap_year (d_year d) then 29 else 28)
      else if (d_month d =? 4) || (d_month d =? 6) || (d_month d =? 9) ||
              (d_month d =? 11) then 30
      else 31)).

(** The values, in cents, a DECIMAL(10,2) column stores: up to eight digits
    before the decimal point. *)
Definition decimal_10_2 (cents : Z) : bool :=
  (-9999999999 <=? cents) && (cents <=? 9999999999).

Definition out_of_range_error : Error :=
  mkError "Error" "Out of range value for column".

Definition incorrect_date_error : Error :=
  mkError "Error" "Incorrect date value".

End Sql.

(** The typecast of mysql2 for a DATE column (no [dateStrings], time zone
    [local], the defaults config/database.js leaves in place):
    [new Date(y, m - 1, d)]. *)
Module Mysql2.

Definition date_column (d : Date) : JS.DateObject :=
  JS.new_Date_components (d_year d) (d_month d - 1) (d_day d).

End Mysql2.

(* ------------------------------------------------------------------------- *)
(** ** Responses *)

Module Json.

Record CategoryRef : Type := mkCategoryRef {
  ref_id : Z;
  ref_name : string;
  ref_type : string;
  ref_color : option string
}.

(** The object built by [formatTransactionResponse]; [transactionDate] is the
    [Date] object of the row, which [res.json] prints with [toISOString]. *)
Record Transaction : Type := mkTransaction {
  id : Z;
  amount : float;
  description : string;
  transactionDate : JS.DateObject;
  type : string;
  notes : option string;
  createdAt : Z;
  updatedAt : Z;
  category : CategoryRef
}.

End Json.

Inductive Body : Type :=
| BError (error : string)
| BValidation (details : list string)
| BMessage (message : string)
| BTransaction (t : Json.Transaction)
| BTransactions (l : list Json.Transaction)
| BSummary (income expense balance : float) (year month : JS.number)
| BCategory (c : CategoryRow)
| BCategories (l : list CategoryRow)
| BSession (token username email fullName : string)
| BUndefined.

Record Response : Type := mkResponse {
  status : Z;
  body : Body
}.

(** [res.status(code).json(b)] and [res.json(b)]. *)
Definition res_status (code : Z) (b : Body) : M Response :=
  ret (mkResponse code b).

Definition res_json (b : Body) : M Response :=
  ret (mkResponse 200 b).

(** [catch (error) { res.status(500).json({ error: error.message }) }]. *)
Definition catch_500 (error : Error) : M Response :=
  res_status 500 (BError (e_message error)).

Definition type_error : Error :=
  mkError "TypeError" "Cannot read properties of undefined".

(** validator.js [isISO8601] (non-strict) on a date-only value: a four-digit
    year, a month 01-12 and a day 01-31. *)
Definition isISO8601 (d : Date) : bool :=
  (0 <=? d_year d) && (d_year d <=? 9999) &&
  (1 <=? d_month d) && (d_month d <=? 12) &&
  (1 <=? d_day d) && (d_day d <=? 31).

(** validator.js [isLength({ min, max })]. *)
Definition isLength (lo hi : nat) (s : string) : bool :=
  (Nat.leb lo (String.length s) && Nat.leb (String.length s) hi)%bool.

(** The messages of the rules that fail, in the order of the rules. *)
Definition check (ok : bool) (message : string) : list string :=
  if ok then [] else [message].

(* ------------------------------------------------------------------------- *)
(** ** routes/transactions.js *)

Module Transactions.

(** The request body of POST / and PUT /:id.  [b_amount] is in cents (request
    amounts carry at most the two decimals the column keeps),
    [b_transactionDate] a date-only value, [b_notes] is [None] when the field
    is absent.  Route ids are numerals and are given as integers. *)
Record ReqBody : Type := mkReqBody {
  b_amount : Z;
  b_description : string;
  b_transactionDate : Date;
  b_type : string;
  b_categoryId : Z;
  b_notes : option string
}.

Definition transactionValidation (b : ReqBody) : list string :=
  check (1 <=? b_amount b) "Amount must be greater than 0" ++
  check (isLength 2 255 (b_description b))
        "Description must be between 2 and 255 characters" ++
  check (isISO8601 (b_transactionDate b))
        "Transaction date must be a valid date" ++
  check (JS.includes ["INCOME"; "EXPENSE"] (b_type b))
        "Transaction type must be either INCOME or EXPENSE" ++
  check (1 <=? b_categoryId b)
        "Category ID must be a valid positive integer" ++
  check (match b_notes b with
         | Some n => isLength 0 500 n
         | None => true
         end)
        "Notes cannot exceed 500 characters".

(** A row of [SELECT t.*, c.name as category_name, c.type as category_type,
    c.color as category_color FROM transactions t JOIN categories c
    ON t.category_id = c.id]. *)
Record JoinedRow : Type := mkJoined {
  row : TransactionRow;
  category_name : string;
  category_type : string;
  category_color : option string
}.

Definition formatTransactionResponse (transaction : JoinedRow) : Json.Transaction :=
  Json.mkTransaction
    (t_id (row transaction))
    (JS.parseFloat (t_amount (row transaction)))
    (t_description (row transaction))
    (Mysql2.date_column (t_transaction_date (row transaction)))
    (t_type (row transaction))
    (t_notes (row transaction))
    (t_created_at (row transaction))
    (t_updated_at (row transaction))
    (Json.mkCategoryRef
       (t_category_id (row transaction))
       (category_name transaction)
       (category_type transaction)
       (category_color transaction)).

(** The inner join: one joined row per category row whose id the transaction
    references. *)
Definition join_categories (d : Db) (t : TransactionRow) : list JoinedRow :=
  map (fun c => mkJoined t (c_name c) (c_type c) (c_color c))
      (filter (fun c => t_category_id t =? c_id c) (categories d)).

Definition joined_where (p : TransactionRow -> bool) (d : Db) : list JoinedRow :=
  flat_map (join_categories d) (filter p (transactions d)).

(** [ORDER BY t.transaction_date DESC, t.created_at DESC]: [a] may stand
    before [b]. *)
Definition newest_first (a b : JoinedRow) : bool :=
  match date_compare (t_transaction_date (row a)) (t_transaction_date (row b)) with
  | Gt => true
  | Lt => false
  | Eq => t_created_at (row b) <=? t_created_at (row a)
  end.

(** SELECT .. JOIN .. WHERE p ORDER BY t.transaction_date DESC,
    t.created_at DESC. *)
Definition select_ordered (p : TransactionRow -> bool) : Statement (list JoinedRow) :=
  select (fun d => Sql.order_by newest_first (joined_where p d)).

(** The same statement followed by [LIMIT ? OFFSET ?]; the server rejects a
    limit or offset that is negative or not a number. *)
Definition select_ordered_limit (p : TransactionRow -> bool)
  (limit offset : JS.number) : Statement (list JoinedRow) :=
  fun d =>
    match limit, offset with
    | JS.Num l, JS.Num o =>
        if (l <? 0) || (o <? 0) then Thrown Sql.syntax_error
        else Returned
               (Sql.limit_offset l o
                  (Sql.order_by newest_first (joined_where p d)), d)
    | _, _ => Thrown Sql.syntax_error
    end.

Definition owned_by (user_id : Z) (t : TransactionRow) : bool :=
  t_user_id t =? user_id.

(** WHERE user_id = ? AND type = ? AND YEAR(transaction_date) = ?
    AND MONTH(transaction_date) = ?. *)
Definition in_month_of_type (user_id : Z) (type : string) (year month : Z)
  (t : TransactionRow) : bool :=
  (t_user_id t =? user_id) && (t_type t =? type)%string &&
  (d_year (t_transaction_date t) =? year) &&
  (d_month (t_transaction_date t) =? month).

(** SELECT COALESCE(SUM(amount), 0) as total FROM transactions WHERE .. *)
Definition select_total (user_id : Z) (type : string) (year month : Z)
  : Statement Z :=
  select (fun d =>
    Sql.coalesce
      (Sql.sum (map t_amount
                  (filter (in_month_of_type user_id type year month)
                          (transactions d))))
      0).

(** GET /date-range?startDate&endDate *)
Definition get_date_range (user_id : Z) (startDate endDate : Date) : M Response :=
  try_catch
    (let errors :=
       check (isISO8601 startDate) "Start date must be a valid date" ++
       check (isISO8601 endDate) "End date must be a valid date" in
     match errors with
     | _ :: _ => res_status 400 (BValidation errors)
     | [] =>
         getConnection ;;;
         try_finally
           (transactions <- execute (select_ordered (fun t =>
               owned_by user_id t &&
               date_leb startDate (t_transaction_date t) &&
               date_leb (t_transaction_date t) endDate)) ;;
            res_json (BTransactions (map formatTransactionResponse transactions)))
           release
     end)
    catch_500.

(** GET /type/:type *)
Definition get_type (user_id : Z) (type : string) : M Response :=
  try_catch
    (if negb (JS.includes ["INCOME"; "EXPENSE"] type)
     then res_status 400 (BError "Invalid transaction type")
     else
       getConnection ;;;
       try_finally
         (transactions <- execute (select_ordered (fun t =>
             owned_by user_id t && (t_type t =? type)%string)) ;;
          res_json (BTransactions (map formatTransactionResponse transactions)))
         release)
    catch_500.

(** The guard [!year || !month || month < 1 || month > 12] on the two route
    segments. *)
Definition invalid_year_or_month (year month : string) : bool :=
  negb (JS.truthy_string year) || negb (JS.truthy_string month) ||
  JS.lt (JS.to_number month) 1 || JS.gt (JS.to_number month) 12.

(** GET /monthly/:year/:month *)
Definition get_monthly (user_id : Z) (year month : string) : M Response :=
  try_catch
    (if invalid_year_or_month year month
     then res_status 400 (BError "Invalid year or month")
     else
       getConnection ;;;
       try_finally
         (transactions <- execute (select_ordered (fun t =>
             owned_by user_id t &&
             (d_year (t_transaction_date t) =? Sql.number_of_string year) &&
             (d_month (t_transaction_date t) =? Sql.number_of_string month))) ;;
          res_json (BTransactions (map formatTransactionResponse transactions)))
         release)
    catch_500.

(** [new Date()]. *)
Definition new_Date : M Date := fun w => (Returned (today w), w).

(** GET /summary *)
Definition get_summary (user_id : Z) : M Response :=
  try_catch
    (now <- new_Date ;;
     let year := d_year now in
     let month := d_month now in
     getConnection ;;;
     try_finally
       (incomeResult <- execute (select_total user_id "INCOME" year month) ;;
        expenseResult <- execute (select_total user_id "EXPENSE" year month) ;;
        let income := JS.parseFloat incomeResult in
        let expense := JS.parseFloat expenseResult in
        let balance := PrimFloat.sub income expense in
        res_json (BSummary income expense balance (JS.Num year) (JS.Num month)))
       release)
    catch_500.

(** GET /summary/:year/:month *)
Definition get_summary_year_month (user_id : Z) (year month : string) : M Response :=
  try_catch
    (if invalid_year_or_month year month
     then res_status 400 (BError "Invalid year or month")
     else
       getConnection ;;;
       try_finally
         (incomeResult <- execute (select_total user_id "INCOME"
             (Sql.number_of_string year) (Sql.number_of_string month)) ;;
          expenseResult <- execute (select_total user_id "EXPENSE"
             (Sql.number_of_string year) (Sql.number_of_string month)) ;;
          let income := JS.parseFloat incomeResult in
          let expense := JS.parseFloat expenseResult in
          let balance := PrimFloat.sub income expense in
          res_json (BSummary income expense balance
                      (JS.parseInt year) (JS.parseInt month)))
         release)
    catch_500.

(** GET /?page&size *)
Definition get_all (user_id : Z) (query_page query_size : option string) : M Response :=
  try_catch
    (let page := JS.parseInt_opt query_page in
     let size := JS.parseInt_opt query_size in
     getConnection ;;;
     try_finally
       (transactions <-
          (if JS.truthy page && JS.truthy size
           then
             let offset := JS.mul (JS.sub page (JS.Num 1)) size in
             execute (select_ordered_limit (owned_by user_id) size offset)
           else execute (select_ordered (owned_by user_id))) ;;
        res_json (BTransactions (map formatTransactionResponse transactions)))
       release)
    catch_500.

(** SELECT * FROM categories WHERE id = ? AND (user_id = ? OR is_default = TRUE) *)
Definition select_visible_category (categoryId user_id : Z)
  : Statement (list CategoryRow) :=
  select (fun d =>
    filter (fun c => (c_id c =? categoryId) &&
                     (Sql.eq_nullable (c_user_id c) user_id || c_is_default c))
           (categories d)).

Definition foreign_key_error : Error :=
  mkError "Error" "a foreign key constraint fails".

(** INSERT INTO transactions (amount, description, transaction_date, type,
    category_id, user_id, notes) VALUES (?, ?, ?, ?, ?, ?, ?); yields
    [result.insertId].  The values are checked against the DECIMAL(10,2) and
    DATE columns, then the two foreign keys of the table. *)
Definition insert_transaction (amount : Z) (description : string) (date : Date)
  (type : string) (categoryId user_id : Z) (notes : option string) : Statement Z :=
  fun d =>
    if negb (Sql.decimal_10_2 amount) then Thrown Sql.out_of_range_error
    else if negb (Sql.valid_date date) then Thrown Sql.incorrect_date_error
    else
    if existsb (fun c => c_id c =? categoryId) (categories d) &&
       existsb (fun u => u_id u =? user_id) (users d)
    then
      let insertId := next_transaction_id d in
      Returned
        (insertId,
         set_transactions d
           (transactions d ++
              [mkTransaction insertId amount description date type categoryId
                             user_id notes (now d) (now d)])
           (insertId + 1))
    else Thrown foreign_key_error.

(** SELECT .. JOIN .. WHERE t.id = ? *)
Definition select_by_id (id : Z) : Statement (list JoinedRow) :=
  select (joined_where (fun t => t_id t =? id)).

(** SELECT .. JOIN .. WHERE t.id = ? AND t.user_id = ? *)
Definition select_by_id_and_user (id user_id : Z) : Statement (list JoinedRow) :=
  select (joined_where (fun t => (t_id t =? id) && (t_user_id t =? user_id))).

(** SELECT * FROM transactions WHERE id = ? AND user_id = ? *)
Definition select_existing (id user_id : Z) : Statement (list TransactionRow) :=
  select (fun d =>
    filter (fun t => (t_id t =? id) && (t_user_id t =? user_id)) (transactions d)).

(** UPDATE transactions SET amount = ?, description = ?, transaction_date = ?,
    type = ?, category_id = ?, notes = ?, updated_at = NOW()
    WHERE id = ? AND user_id = ?; the new values are checked, against the
    columns and then the foreign key, when a row is updated. *)
Definition update_transaction (amount : Z) (description : string) (date : Date)
  (type : string) (categoryId : Z) (notes : option string) (id user_id : Z)
  : Statement unit :=
  fun d =>
    let hit :=
      existsb (fun t => (t_id t =? id) && (t_user_id t =? user_id))
              (transactions d) in
    if hit && negb (Sql.decimal_10_2 amount) then Thrown Sql.out_of_range_error
    else if hit && negb (Sql.valid_date date) then Thrown Sql.incorrect_date_error
    else
    if existsb (fun t => (t_id t =? id) && (t_user_id t =? user_id)) (transactions d) &&
       negb (existsb (fun c => c_id c =? categoryId) (categories d))
    then Thrown foreign_key_error
    else
      Returned
        (tt,
         set_transactions d
           (map (fun t =>
                   if (t_id t =? id) && (t_user_id t =? user_id)
                   then mkTransaction (t_id t) amount description date type
                          categoryId (t_user_id t) notes (t_created_at t) (now d)
                   else t)
                (transactions d))
           (next_transaction_id d)).

(** DELETE FROM transactions WHERE id = ? AND user_id = ?; yields
    [result.affectedRows]. *)
Definition delete_transaction (id user_id : Z) : Statement nat :=
  fun d =>
    let hit t := (t_id t =? id) && (t_user_id t =? user_id) in
    Returned
      (List.length (filter hit (transactions d)),
       set_transactions d (filter (fun t => negb (hit t)) (transactions d))
         (next_transaction_id d)).

(** POST / *)
Definition post (user_id : Z) (b : ReqBody) : M Response :=
  try_catch
    (match transactionValidation b with
     | _ :: _ => res_status 400 (BValidation (transactionValidation b))
     | [] =>
         getConnection ;;;
         try_finally
           (categories <- execute (select_visible_category (b_categoryId b) user_id) ;;
            if Nat.eqb (List.length categories) 0
            then res_status 400 (BError "Invalid category")
            else
              insertId <- execute (insert_transaction
                (b_amount b) (b_description b) (b_transactionDate b) (b_type b)
                (b_categoryId b) user_id (JS.or_else (b_notes b) None)) ;;
              transactions <- execute (select_by_id insertId) ;;
              match transactions with
              | t :: _ => res_status 201 (BTransaction (formatTransactionResponse t))
              | [] => throw type_error
              end)
           release
     end)
    catch_500.

(** GET /:id *)
Definition get_id (user_id : Z) (id : Z) : M Response :=
  try_catch
    (getConnection ;;;
     try_finally
       (transactions <- execute (select_by_id_and_user id user_id) ;;
        match transactions with
        | [] => res_status 404 (BError "Transaction not found")
        | t :: _ => res_json (BTransaction (formatTransactionResponse t))
        end)
       release)
    catch_500.

(** PUT /:id *)
Definition put_id (user_id : Z) (id : Z) (b : ReqBody) : M Response :=
  try_catch
    (match transactionValidation b with
     | _ :: _ => res_status 400 (BValidation (transactionValidation b))
     | [] =>
         getConnection ;;;
         try_finally
           (existingTransactions <- execute (select_existing id user_id) ;;
            if Nat.eqb (List.length existingTransactions) 0
            then res_status 404 (BError "Transaction not found")
            else
              categories <- execute (select_visible_category (b_categoryId b) user_id) ;;
              if Nat.eqb (List.length categories) 0
              then res_status 400 (BError "Invalid category")
              else
                execute (update_transaction
                  (b_amount b) (b_description b) (b_transactionDate b) (b_type b)
                  (b_categoryId b) (JS.or_else (b_notes b) None) id user_id) ;;;
                transactions <- execute (select_by_id id) ;;
                match transactions with
                | t :: _ => res_json (BTransaction (formatTransactionResponse t))
                | [] => throw type_error
                end)
           release
     end)
    catch_500.

(** DELETE /:id *)
Definition delete_id (user_id : Z) (id : Z) : M Response :=
  try_catch
    (getConnection ;;;
     try_finally
       (affectedRows <- execute (delete_transaction id user_id) ;;
        if Nat.eqb affectedRows 0
        then res_status 404 (BError "Transaction not found")
        else res_json (BMessage "Transaction deleted successfully"))
       release)
    catch_500.

End Transactions.

(* ------------------------------------------------------------------------- *)
(** ** routes/categories.js *)

Module Categories.

(** The request body of POST / and PUT /:id; an absent optional field is
    [None]. *)
Record ReqBody : Type := mkReqBody {
  b_name : string;
  b_description : option string;
  b_color : option string;
  b_type : string
}.

Definition is_hex (c : ascii) : bool :=
  match JS.digit 16 c with
  | Some _ => true
  | None => false
  end.

(** [/^#[0-9A-F]{6}$/i] *)
Definition matches_hex_color (s : string) : bool :=
  match s with
  | String "#" r =>
      (Nat.eqb (String.length r) 6 && forallb is_hex (list_ascii_of_string r))%bool
  | _ => false
  end.

Definition categoryValidation (b : ReqBody) : list string :=
  check (isLength 2 100 (b_name b))
        "Category name must be between 2 and 100 characters" ++
  check (match b_description b with
         | Some s => isLength 0 255 s
         | None => true
         end)
        "Description cannot exceed 255 characters" ++
  check (JS.includes ["INCOME"; "EXPENSE"] (b_type b))
        "Category type must be either INCOME or EXPENSE" ++
  check (match b_color b with
         | Some s => matches_hex_color s
         | None => true
         end)
        "Color must be a valid hex color code".

(** WHERE user_id = ? OR is_default = TRUE *)
Definition visible_to (user_id : Z) (c : CategoryRow) : bool :=
  Sql.eq_nullable (c_user_id c) user_id || c_is_default c.

(** ORDER BY name, in the binary collation. *)
Definition by_name (a b : CategoryRow) : bool :=
  match String.compare (c_name a) (c_name b) with
  | Gt => false
  | _ => true
  end.

(** SELECT * FROM categories WHERE user_id = ? OR is_default = TRUE
    ORDER BY name *)
Definition select_visible (user_id : Z) : Statement (list CategoryRow) :=
  select (fun d => Sql.order_by by_name (filter (visible_to user_id) (categories d))).

(** SELECT * FROM categories WHERE (user_id = ? OR is_default = TRUE)
    AND type = ? ORDER BY name *)
Definition select_visible_of_type (user_id : Z) (type : string)
  : Statement (list CategoryRow) :=
  select (fun d =>
    Sql.order_by by_name
      (filter (fun c => visible_to user_id c && (c_type c =? type)%string)
              (categories d))).

(** SELECT * FROM categories WHERE id = ? *)
Definition select_by_id (id : Z) : Statement (list CategoryRow) :=
  select (fun d => filter (fun c => c_id c =? id) (categories d)).

(** INSERT INTO categories (name, description, color, type, user_id,
    is_default, created_at, updated_at)
    VALUES (?, ?, ?, ?, ?, FALSE, NOW(), NOW()); yields [result.insertId]. *)
Definition insert_category (name : string) (description color : option string)
  (type : string) (user_id : Z) : Statement Z :=
  fun d =>
    if existsb (fun u => u_id u =? user_id) (users d)
    then
      let insertId := next_category_id d in
      Returned
        (insertId,
         set_categories d
           (categories d ++
              [mkCategory insertId name description type color (Some user_id)
                          false (now d) (now d)])
           (insertId + 1))
    else Thrown Transactions.foreign_key_error.

(** UPDATE categories SET name = ?, description = ?, color = ?, type = ?,
    updated_at = NOW() WHERE id = ? *)
Definition update_category (name : string) (description color : option string)
  (type : string) (id : Z) : Statement unit :=
  fun d =>
    Returned
      (tt,
       set_categories d
         (map (fun c =>
                 if c_id c =? id
                 then mkCategory (c_id c) name description type color
                        (c_user_id c) (c_is_default c) (c_created_at c) (now d)
                 else c)
              (categories d))
         (next_category_id d)).

(** SELECT COUNT( * ) as count FROM transactions WHERE category_id = ? *)
Definition count_transactions (id : Z) : Statement nat :=
  select (fun d =>
    List.length (filter (fun t => t_category_id t =? id) (transactions d))).

(** DELETE FROM categories WHERE id = ?; the foreign key of transactions is
    ON DELETE RESTRICT. *)
Definition delete_category (id : Z) : Statement unit :=
  fun d =>
    if existsb (fun c => c_id c =? id) (categories d) &&
       existsb (fun t => t_category_id t =? id) (transactions d)
    then Thrown Transactions.foreign_key_error
    else
      Returned
        (tt,
         set_categories d
           (filter (fun c => negb (c_id c =? id)) (categories d))
           (next_category_id d)).

(** [category.is_default || category.user_id !== req.user.id] *)
Definition default_or_foreign (category : CategoryRow) (user_id : Z) : bool :=
  c_is_default category ||
  match c_user_id category with
  | Some owner => negb (owner =? user_id)
  | None => true
  end.

(** [res.json(rows[0])] *)
Definition first_row (rows : list CategoryRow) : Body :=
  match rows with
  | c :: _ => BCategory c
  | [] => BUndefined
  end.

(** GET / *)
Definition get_all (user_id : Z) : M Response :=
  try_catch
    (getConnection ;;;
     try_finally
       (categories <- execute (select_visible user_id) ;;
        res_json (BCategories categories))
       release)
    catch_500.

(** GET /type/:type *)
Definition get_type (user_id : Z) (type : string) : M Response :=
  try_catch
    (if negb (JS.includes ["INCOME"; "EXPENSE"] type)
     then res_status 400 (BError "Invalid category type")
     else
       getConnection ;;;
       try_finally
         (categories <- execute (select_visible_of_type user_id type) ;;
          res_json (BCategories categories))
         release)
    catch_500.

(** POST / *)
Definition post (user_id : Z) (b : ReqBody) : M Response :=
  try_catch
    (match categoryValidation b with
     | _ :: _ => res_status 400 (BValidation (categoryValidation b))
     | [] =>
         getConnection ;;;
         try_finally
           (insertId <- execute (insert_category
              (b_name b) (JS.or_else (b_description b) None)
              (JS.or_else (b_color b) (Some "#FF6B6B")) (b_type b) user_id) ;;
            categories <- execute (select_by_id insertId) ;;
            res_status 201 (first_row categories))
           release
     end)
    catch_500.

(** PUT /:id *)
Definition put_id (user_id : Z) (id : Z) (b : ReqBody) : M Response :=
  try_catch
    (match categoryValidation b with
     | _ :: _ => res_status 400 (BValidation (categoryValidation b))
     | [] =>
         getConnection ;;;
         try_finally
           (categories <- execute (select_by_id id) ;;
            match categories with
            | [] => res_status 404 (BError "Category not found")
            | category :: _ =>
                if default_or_foreign category user_id
                then res_status 403 (BError "Cannot modify this category")
                else
                  execute (update_category
                    (b_name b) (JS.or_else (b_description b) None)
                    (JS.or_else (b_color b) (c_color category)) (b_type b) id) ;;;
                  updatedCategories <- execute (select_by_id id) ;;
                  res_json (first_row updatedCategories)
            end)
           release
     end)
    catch_500.

(** DELETE /:id *)
Definition delete_id (user_id : Z) (id : Z) : M Response :=
  try_catch
    (getConnection ;;;
     try_finally
       (categories <- execute (select_by_id id) ;;
        match categories with
        | [] => res_status 404 (BError "Category not found")
        | category :: _ =>
            if default_or_foreign category user_id
            then res_status 403 (BError "Cannot delete this category")
            else
              count <- execute (count_transactions id) ;;
              if Nat.ltb 0 count
              then res_status 400
                     (BError "Cannot delete category that is being used in transactions")
              else
                execute (delete_category id) ;;;
                res_json (BMessage "Category deleted successfully")
        end)
       release)
    catch_500.

End Categories.

(* ------------------------------------------------------------------------- *)
(** ** routes/auth.js and middleware/auth.js *)

Module Auth.

(** [s.split(' ')] *)
Fixpoint split_space (s : string) : list string :=
  match s with
  | EmptyString => [EmptyString]
  | String c r =>
      if (c =? " ")%char then EmptyString :: split_space r
      else match split_space r with
           | h :: t => String c h :: t
           | [] => [String c EmptyString]
           end
  end.

(** [authHeader && authHeader.split(' ')[1]]; [None] is [undefined]. *)
Definition bearer_token (authHeader : option string) : option string :=
  match authHeader with
  | Some h => if JS.truthy_string h then nth_error (split_space h) 1 else Some h
  | None => None
  end.

Definition lift {A : Type} (o : Outcome A) : M A := fun w => (o, w).

(** SELECT id, username, email, full_name FROM users WHERE id = ? *)
Definition select_user_by_id (id : Z) : Statement (list UserRow) :=
  select (fun d => filter (fun u => u_id u =? id) (users d)).

(** SELECT id, username, email, password, full_name FROM users
    WHERE username = ? *)
Definition select_user_by_username (username : string) : Statement (list UserRow) :=
  select (fun d => filter (fun u => (u_username u =? username)%string) (users d)).

(** SELECT id FROM users WHERE username = ? OR email = ? *)
Definition select_user_by_username_or_email (username email : string)
  : Statement (list UserRow) :=
  select (fun d =>
    filter (fun u => (u_username u =? username)%string || (u_email u =? email)%string)
           (users d)).

Definition duplicate_entry : Error :=
  mkError "Error" "Duplicate entry".

(** INSERT INTO users (username, email, password, full_name)
    VALUES (?, ?, ?, ?); both [username] and [email] are UNIQUE. *)
Definition insert_user (username email password full_name : string) : Statement Z :=
  fun d =>
    if existsb (fun u => (u_username u =? username)%string || (u_email u =? email)%string)
               (users d)
    then Thrown duplicate_entry
    else
      let insertId := next_user_id d in
      Returned
        (insertId,
         set_users d (users d ++ [mkUser insertId username email password full_name])
                   (insertId + 1)).

Record RegisterBody : Type := mkRegisterBody {
  r_username : string;
  r_email : string;
  r_password : string;
  r_fullName : string
}.

Record LoginBody : Type := mkLoginBody {
  l_username : string;
  l_password : string
}.

(** [/^[a-zA-Z0-9_]+$/] *)
Definition word_char (c : ascii) : bool :=
  match JS.digit 36 c with
  | Some _ => true
  | None => (c =? "_")%char
  end.

Definition matches_word (s : string) : bool :=
  (negb (s =? "")%string && forallb word_char (list_ascii_of_string s))%bool.

Definition loginValidation (b : LoginBody) : list string :=
  check (JS.truthy_string (l_username b)) "Username is required" ++
  check (JS.truthy_string (l_password b)) "Password is required".

Section Libraries.

(** The libraries the handlers call: bcryptjs ([hash] with its salt rounds,
    [compare]), jsonwebtoken ([sign] of the payload [{id, username, email}]
    under the configured secret and expiry, and [verify], which yields the
    decoded [id] or throws [JsonWebTokenError] or [TokenExpiredError]) and
    validator.js ([isEmail], [normalizeEmail]). *)
Variable bcrypt_hash : string -> Z -> string.
Variable bcrypt_compare : string -> string -> bool.
Variable jwt_sign : Z -> string -> string -> string.
Variable jwt_verify : string -> Outcome Z.
Variable isEmail : string -> bool.
Variable normalizeEmail : string -> string.

Definition registerValidation (b : RegisterBody) : list string :=
  check (isLength 3 50 (r_username b))
        "Username must be between 3 and 50 characters" ++
  check (matches_word (r_username b))
        "Username can only contain letters, numbers, and underscores" ++
  check (isEmail (r_email b)) "Please provide a valid email address" ++
  check (Nat.leb 6 (String.length (r_password b)))
        "Password must be at least 6 characters" ++
  check (JS.truthy_string (r_fullName b)) "Full name is required" ++
  check (isLength 0 255 (r_fullName b))
        "Full name cannot exceed 255 characters".

Definition generateToken (user : UserRow) : string :=
  jwt_sign (u_id user) (u_username user) (u_email user).

Definition catch_internal (error : Error) : M Response :=
  res_status 500 (BError "Internal server error").

(** POST /register *)
Definition register (b : RegisterBody) : M Response :=
  try_catch
    (match registerValidation b with
     | _ :: _ => res_status 400 (BValidation (registerValidation b))
     | [] =>
         let email := normalizeEmail (r_email b) in
         getConnection ;;;
         try_finally
           (existingUsers <- execute
              (select_user_by_username_or_email (r_username b) email) ;;
            if Nat.ltb 0 (List.length existingUsers)
            then res_status 400 (BError "Username or email already exists")
            else
              let saltRounds := 12 in
              let hashedPassword := bcrypt_hash (r_password b) saltRounds in
              execute (insert_user (r_username b) email hashedPassword (r_fullName b)) ;;;
              res_status 201 (BMessage "User registered successfully!"))
           release
     end)
    catch_internal.

(** POST /login *)
Definition login (b : LoginBody) : M Response :=
  try_catch
    (match loginValidation b with
     | _ :: _ => res_status 400 (BValidation (loginValidation b))
     | [] =>
         getConnection ;;;
         try_finally
           (users <- execute (select_user_by_username (l_username b)) ;;
            match users with
            | [] => res_status 401 (BError "Invalid username or password!")
            | user :: _ =>
                let isPasswordValid := bcrypt_compare (l_password b) (u_password user) in
                if negb isPasswordValid
                then res_status 401 (BError "Invalid username or password!")
                else
                  let token := generateToken user in
                  res_json (BSession token (u_username user) (u_email user)
                                     (u_full_name user))
            end)
           release
     end)
    catch_internal.

(** GET /validate *)
Definition validate (authorization : option string) : M Response :=
  try_catch
    (match bearer_token authorization with
     | Some token =>
         if negb (JS.truthy_string token)
         then res_status 401 (BError "Access token required")
         else
           decoded_id <- lift (jwt_verify token) ;;
           getConnection ;;;
           try_finally
             (users <- execute (select_user_by_id decoded_id) ;;
              match users with
              | [] => res_status 401 (BError "User not found")
              | user :: _ =>
                  res_json (BSession token (u_username user) (u_email user)
                                     (u_full_name user))
              end)
             release
     | None => res_status 401 (BError "Access token required")
     end)
    (fun error =>
       if (e_name error =? "JsonWebTokenError")%string ||
          (e_name error =? "TokenExpiredError")%string
       then res_status 403 (BError "Invalid token")
       else res_status 500 (BError "Internal server error")).

(** middleware/auth.js: [req.user = users[0]; next()] is the call of [next]
    on the row found. *)
Definition authenticateToken (authorization : option string)
  (next : UserRow -> M Response) : M Response :=
  try_catch
    (match bearer_token authorization with
     | Some token =>
         if negb (JS.truthy_string token)
         then res_status 401 (BError "Access token required")
         else
           decoded_id <- lift (jwt_verify token) ;;
           getConnection ;;;
           users <- execute (select_user_by_id decoded_id) ;;
           release ;;;
           match users with
           | [] => res_status 401 (BError "User not found")
           | user :: _ => next user
           end
     | None => res_status 401 (BError "Access token required")
     end)
    (fun error =>
       if (e_name error =? "JsonWebTokenError")%string
       then res_status 403 (BError "Invalid token")
       else if (e_name error =? "TokenExpiredError")%string
       then res_status 403 (BError "Token expired")
       else res_status 500 (BError "Internal server error")).

End Libraries.

End Auth.

(* ------------------------------------------------------------------------- *)
(** ** config/database.js: the seed of the category table *)

Module Database.

Record Seed : Type := mkSeed {
  name : string;
  description : string;
  type : string;
  color : string
}.

Definition defaultCategories : list Seed :=
  [ mkSeed "Salary" "Monthly salary" "INCOME" "#4CAF50";
    mkSeed "Freelance" "Freelance work income" "INCOME" "#8BC34A";
    mkSeed "Investment" "Investment returns" "INCOME" "#CDDC39";
    mkSeed "Other Income" "Other sources of income" "INCOME" "#FFC107";
    mkSeed "Food & Dining" "Food and restaurant expenses" "EXPENSE" "#FF5722";
    mkSeed "Transportation" "Transport and fuel expenses" "EXPENSE" "#FF9800";
    mkSeed "Shopping" "Shopping and retail expenses" "EXPENSE" "#E91E63";
    mkSeed "Entertainment" "Entertainment and leisure" "EXPENSE" "#9C27B0";
    mkSeed "Bills & Utilities" "Monthly bills and utilities" "EXPENSE" "#3F51B5";
    mkSeed "Healthcare" "Medical and healthcare expenses" "EXPENSE" "#2196F3";
    mkSeed "Education" "Education and learning expenses" "EXPENSE" "#00BCD4";
    mkSeed "Other Expenses" "Other miscellaneous expenses" "EXPENSE" "#607D8B" ].

(** SELECT COUNT( * ) as count FROM categories WHERE is_default = TRUE *)
Definition count_defaults : Statement nat :=
  select (fun d => List.length (filter c_is_default (categories d))).

(** INSERT INTO categories (name, description, type, color, user_id,
    is_default) VALUES (?, ?, ?, ?, NULL, TRUE) *)
Definition insert_default (category : Seed) : Statement unit :=
  fun d =>
    Returned
      (tt,
       set_categories d
         (categories d ++
            [mkCategory (next_category_id d) (name category)
                        (Some (description category)) (type category)
                        (Some (color category)) None true (now d) (now d)])
         (next_category_id d + 1)).

(** [for (const category of defaultCategories) { await connection.execute(..) }] *)
Fixpoint insert_each (l : list Seed) : M unit :=
  match l with
  | [] => ret tt
  | category :: rest => execute (insert_default category) ;;; insert_each rest
  end.

(** [initializeDatabase], the tables being there ([CREATE TABLE IF NOT
    EXISTS] changes nothing then); a failure ends the process, which is the
    thrown outcome here. *)
Definition initializeDatabase : M unit :=
  getConnection ;;;
  count <- execute count_defaults ;;
  (if Nat.eqb count 0 then insert_each defaultCategories else ret tt) ;;;
  release.

(** The tables right after they are created. *)
Definition created : Db := mkDb [] [] [] 1 1 1 0.

End Database.

(* ------------------------------------------------------------------------- *)
(** ** server.js: the protected routes behind the authentication middleware *)

Module App.

Inductive Route : Type :=
| TransactionsDateRange (startDate endDate : Date)
| TransactionsType (type : string)
| TransactionsMonthly (year month : string)
| TransactionsSummary
| TransactionsSummaryMonth (year month : string)
| TransactionsList (page size : option string)
| TransactionsCreate (b : Transactions.ReqBody)
| TransactionsGet (id : Z)
| TransactionsUpdate (id : Z) (b : Transactions.ReqBody)
| TransactionsDelete (id : Z)
| CategoriesList
| CategoriesType (type : string)
| CategoriesCreate (b : Categories.ReqBody)
| CategoriesUpdate (id : Z) (b : Categories.ReqBody)
| CategoriesDelete (id : Z).

(** [transactionRoutes] and [categoryRoutes] for the user of [req.user]. *)
Definition router (user_id : Z) (r : Route) : M Response :=
  match r with
  | TransactionsDateRange s e => Transactions.get_date_range user_id s e
  | TransactionsType t => Transactions.get_type user_id t
  | TransactionsMonthly y m => Transactions.get_monthly user_id y m
  | TransactionsSummary => Transactions.get_summary user_id
  | TransactionsSummaryMonth y m => Transactions.get_summary_year_month user_id y m
  | TransactionsList p s => Transactions.get_all user_id p s
  | TransactionsCreate b => Transactions.post user_id b
  | TransactionsGet i => Transactions.get_id user_id i
  | TransactionsUpdate i b => Transactions.put_id user_id i b
  | TransactionsDelete i => Transactions.delete_id user_id i
  | CategoriesList => Categories.get_all user_id
  | CategoriesType t => Categories.get_type user_id t
  | CategoriesCreate b => Categories.post user_id b
  | CategoriesUpdate i b => Categories.put_id user_id i b
  | CategoriesDelete i => Categories.delete_id user_id i
  end.

(** [app.use('/api/transactions', authenticateToken, transactionRoutes)] and
    [app.use('/api/categories', authenticateToken, categoryRoutes)]. *)
Definition protected (jwt_verify : string -> Outcome Z)
  (authorization : option string) (r : Route) : M Response :=
  Auth.authenticateToken jwt_verify authorization
    (fun user => router (u_id user) r).

End App.

(* ------------------------------------------------------------------------- *)
(** ** Notions used to state the properties *)

(** The sum of the amounts (in cents) of a list of transactions. *)
Definition total (l : list TransactionRow) : Z :=
  fold_right (fun t acc => t_amount t + acc) 0 l.

(** The transactions of [user_id] of the given type dated in year [y], month
    [m]. *)
Definition of_month (user_id : Z) (type : string) (y m : Z)
  (l : list TransactionRow) : list TransactionRow :=
  filter (fun t => (t_user_id t =? user_id) && (t_type t =? type)%string &&
                   (d_year (t_transaction_date t) =? y) &&
                   (d_month (t_transaction_date t) =? m)) l.

(** Calendar order on dates. *)
Definition date_before (a b : Date) : Prop :=
  d_year a < d_year b \/
  (d_year a = d_year b /\
   (d_month a < d_month b \/ (d_month a = d_month b /\ d_day a < d_day b))).

(** [a] may precede [b] in a list ordered by transaction date descending, then
    creation time descending. *)
Definition date_desc_created_desc (a b : TransactionRow) : Prop :=
  date_before (t_transaction_date b) (t_transaction_date a) \/
  (t_transaction_date a = t_transaction_date b /\ t_created_at b <= t_created_at a).

(** The elements at the 1-based ranks [lo] to [hi], both included. *)
Definition ranks {A : Type} (lo hi : Z) (l : list A) : list A :=
  firstn (Z.to_nat (hi - lo + 1)) (skipn (Z.to_nat (lo - 1)) l).

(** The constraints of the schema: primary keys are unique and below the
    AUTO_INCREMENT counters, and every transaction references a category
    (FOREIGN KEY (category_id) REFERENCES categories(id)). *)
Record consistent (d : Db) : Prop := mkConsistent {
  category_ids_unique : NoDup (map c_id (categories d));
  transaction_ids_unique : NoDup (map t_id (transactions d));
  category_ids_used :
    forall c, In c (categories d) -> c_id c < next_category_id d;
  transaction_ids_used :
    forall t, In t (transactions d) -> t_id t < next_transaction_id d;
  category_referenced :
    forall t, In t (transactions d) ->
      exists c, In c (categories d) /\ c_id c = t_category_id t
}.

(** A category the user may use: owned or default. *)
Definition usable (user_id : Z) (c : CategoryRow) : Prop :=
  c_user_id c = Some user_id \/ c_is_default c = true.

(** The database after every transaction referencing category [id] has been
    removed. *)
Definition without_references (id : Z) (d : Db) : Db :=
  set_transactions d
    (filter (fun t => negb (t_category_id t =? id)) (transactions d))
    (next_transaction_id d).

(** The integers of a list are pairwise different. *)
Fixpoint distinct (l : list Z) : bool :=
  match l with
  | [] => true
  | x :: r => negb (existsb (Z.eqb x) r) && distinct r
  end.

(** A monadic computation that leaves the pool as it found it. *)
Definition pool_neutral {A : Type} (m : M A) : Prop :=
  forall w, held (snd (m w)) = held w.

(** A property of the database that a computation, or a statement when it is
    accepted, carries from the database it starts in to the one it ends in. *)
Definition maintains {A : Type} (I : Db -> Prop) (m : M A) : Prop :=
  forall w, I (db w) -> I (db (snd (m w))).

Definition statement_maintains {A : Type} (I : Db -> Prop) (q : Statement A)
  : Prop :=
  forall d a d', I d -> q d = Returned (a, d') -> I d'.

(** The row [c] is in the category table. *)
Definition stored (c : CategoryRow) (d : Db) : Prop := In c (categories d).

(** The row [c] is in a category table whose ids are unique. *)
Definition stored_once (c : CategoryRow) (d : Db) : Prop :=
  NoDup (map c_id (categories d)) /\ In c (categories d).

(** From a database satisfying [P] the computation ends in one satisfying
    [Q], however it ends. *)
Definition triple {A : Type} (P : Db -> Prop) (m : M A) (Q : Db -> Prop) : Prop :=
  forall w, P (db w) -> Q (db (snd (m w))).

(** The status codes the protected routes answer with. *)
Definition route_statuses : list Z := [200; 201; 400; 403; 404; 500].

(** A computation that, when it returns a response, returns one with a listed
    status; and one that returns such a response however the driver behaves. *)
Definition answers_within (codes : list Z) (m : M Response) : Prop :=
  forall w, match fst (m w) with
            | Returned r => In (status r) codes
            | Thrown _ => True
            end.

Definition always_answers (codes : list Z) (m : M Response) : Prop :=
  forall w, exists r, fst (m w) = Returned r /\ In (status r) codes.

(** A computation whose responses, when it returns one, all satisfy [P]. *)
Definition responds (P : Response -> Prop) (m : M Response) : Prop :=
  forall w, match fst (m w) with
            | Returned r => P r
            | Thrown _ => True
            end.

(** The response carries no list of transactions. *)
Definition no_listing (r : Response) : Prop :=
  forall l, body r <> BTransactions l.

(** The rows an accepted listing statement yields all satisfy its WHERE
    clause. *)
Definition selects_where (p : TransactionRow -> bool)
  (q : Statement (list Transactions.JoinedRow)) : Prop :=
  forall d rows d', q d = Returned (rows, d') ->
    forall j, In j rows ->
      In (Transactions.row j) (transactions d) /\ p (Transactions.row j) = true.

(** The transactions that do not belong to [user_id], in table order. *)
Definition of_others (user_id : Z) (l : list TransactionRow) : list TransactionRow :=
  filter (fun t => negb (t_user_id t =? user_id)) l.

(* ------------------------------------------------------------------------- *)
(** ** Example data *)

(** A small ledger: one user, a default and an owned category, one salary and
    two expenses in March 2024 and one expense in April. *)
Definition march : Date := mkDate 2024 3 15.

Definition salary : CategoryRow :=
  mkCategory 1 "Salary" (Some "Monthly salary") "INCOME" (Some "#4CAF50")
             None true 0 0.

Definition food : CategoryRow :=
  mkCategory 2 "Food" (Some "Eating out") "EXPENSE" (Some "#FF5722")
             (Some 1) false 5 5.

Definition ana : UserRow :=
  mkUser 1 "ana" "ana@example.org" "hash:secret" "Ana".

Definition groceries (notes : option string) : Transactions.ReqBody :=
  Transactions.mkReqBody 4200 "Groceries" (mkDate 2024 4 3) "EXPENSE" 2 notes.

(** Bodies that pass validation and that the columns of the table refuse: the
    thirtieth of February, and an amount of 100000000.00. *)
Definition february_30 : Transactions.ReqBody :=
  Transactions.mkReqBody 4200 "Groceries" (mkDate 2024 2 30) "EXPENSE" 2 None.

(** A body dated in the year 50. *)
Definition year_fifty : Transactions.ReqBody :=
  Transactions.mkReqBody 4200 "Groceries" (mkDate 50 6 15) "EXPENSE" 2 None.

Definition hundred_million : Transactions.ReqBody :=
  Transactions.mkReqBody 10000000000 "Groceries" (mkDate 2024 4 3) "EXPENSE" 2
                         None.

Definition ledger : Db :=
  mkDb [ana]
       [salary; food]
       [mkTransaction 1 250000 "March salary" march "INCOME" 1 1 None 10 10;
        mkTransaction 2 1250 "Lunch" march "EXPENSE" 2 1 (Some "team") 11 11;
        mkTransaction 3 830 "Coffee" (mkDate 2024 3 20) "EXPENSE" 2 1 None 12 12;
        mkTransaction 4 990 "Dinner" (mkDate 2024 4 2) "EXPENSE" 2 1 None 13 13]
       2 3 5 100.

(** An income of 0.30 and an expense of 0.10 in March 2024. *)
Definition dimes : Db :=
  mkDb [ana]
       [salary; food]
       [mkTransaction 1 30 "Refund" march "INCOME" 1 1 None 10 10;
        mkTransaction 2 10 "Stamp" march "EXPENSE" 2 1 None 11 11]
       2 3 3 100.

Definition quiet (d : Db) : World := mkWorld d 0 [] (mkDate 2024 4 3).

(** The database after [initializeDatabase] has run on the created tables. *)
Definition seeded : Db :=
  Eval vm_compute in
    db (snd (Database.initializeDatabase (quiet Database.created))).

(** The same world with a driver that serves the next call and fails the one
    after it. *)
Definition flaky (d : Db) : World := mkWorld d 0 [false; true] (mkDate 2024 4 3).

(** Stand-ins for the libraries in the examples: a password matches the hash
    ["hash:" ++ password], and the token ["token-1"] is the valid token of
    user 1. *)
Definition toy_compare (password hash : string) : bool :=
  (hash =? "hash:" ++ password)%string.

Definition toy_hash (password : string) (rounds : Z) : string :=
  ("hash:" ++ password)%string.

Definition toy_sign (id : Z) (username email : string) : string :=
  ("token-" ++ username)%string.

Definition toy_verify (token : string) : Outcome Z :=
  if (token =? "token-1")%string then Returned 1
  else Thrown (mkError "JsonWebTokenError" "invalid token").

(** Twenty-five transactions of one user, one for each of the first days of
    January 2024, entered in date order. *)
Definition january : Db :=
  mkDb [ana] [salary; food]
       (map (fun n => mkTransaction (Z.of_nat n) 100 "Daily"
                        (mkDate 2024 1 (Z.of_nat n)) "EXPENSE" 2 1 None
                        (Z.of_nat n) (Z.of_nat n))
            (seq 1 25))
       2 3 26 100.

(* ------------------------------------------------------------------------- *)
(** ** Coercions of route segments *)

Ltac bool_hyps :=
  repeat match goal with
    | H : (_ && _)%bool = true |- _ => apply andb_true_iff in H; destruct H
    | H : (_ || _)%bool = true |- _ => apply orb_true_iff in H; destruct H
    | H : (_ && _)%bool = false |- _ => apply andb_false_iff in H; destruct H
    | H : (_ || _)%bool = false |- _ => apply orb_false_iff in H; destruct H
    | H : negb _ = true |- _ => apply negb_true_iff in H
    | H : negb _ = false |- _ => apply negb_false_iff in H
    | H : (_ <=? _) = true |- _ => apply Z.leb_le in H
    | H : (_ <=? _) = false |- _ => apply Z.leb_gt in H
    | H : (_ <? _) = true |- _ => apply Z.ltb_lt in H
    | H : (_ <? _) = false |- _ => apply Z.ltb_ge in H
    | H : (_ =? _) = true |- _ => apply Z.eqb_eq in H
    | H : (_ =? _) = false |- _ => apply Z.eqb_neq in H
    | H : Nat.eqb _ _ = true |- _ => apply Nat.eqb_eq in H
    | H : Nat.leb _ _ = true |- _ => apply Nat.leb_le in H
    end.

Lemma digit_of_space (c : ascii) :
  JS.is_space c = true -> JS.digit 10 c = None.
Proof.
  unfold JS.is_space, JS.digit. intros H.
  set (n := nat_of_ascii c) in *.
  assert (Hn : (n = 32 \/ 9 <= n <= 13)%nat) by (bool_hyps; lia).
  destruct ((48 <=? Z.of_nat n) && (Z.of_nat n <=? 57)) eqn:E1.
  { bool_hyps; lia. }
  destruct ((97 <=? Z.of_nat n) && (Z.of_nat n <=? 122)) eqn:E2.
  { bool_hyps; lia. }
  destruct ((65 <=? Z.of_nat n) && (Z.of_nat n <=? 90)) eqn:E3.
  { bool_hyps; lia. }
  reflexivity.
Qed.

Lemma int_literal_not_empty (s : string) (z : Z) :
  JS.int_literal s = Some z -> (s =? "")%string = false.
Proof.
  destruct s; [discriminate | reflexivity].
Qed.

Lemma int_literal_to_number (s : string) (z : Z) :
  JS.int_literal s = Some z -> JS.to_number s = JS.Num z.
Proof.
  intros H. unfold JS.to_number.
  rewrite (int_literal_not_empty _ _ H), H. reflexivity.
Qed.

Lemma int_literal_number_of_string (s : string) (z : Z) :
  JS.int_literal s = Some z -> Sql.number_of_string s = z.
Proof.
  unfold JS.int_literal, Sql.number_of_string.
  destruct (JS.sign_and_rest s) as [sg r].
  destruct (JS.digits 10 r None) as [[v|] rest]; simpl; [|discriminate].
  destruct rest; [|discriminate]. congruence.
Qed.

Lemma skip_spaces_int_literal (s : string) (z : Z) :
  JS.int_literal s = Some z -> JS.skip_spaces s = s.
Proof.
  destruct s as [|c r]; [reflexivity|]. simpl.
  destruct (JS.is_space c) eqn:E; [|reflexivity].
  intros H. exfalso. revert H. unfold JS.int_literal, JS.sign_and_rest.
  destruct (Ascii.eqb_spec c "-"); [subst; discriminate E|].
  destruct (Ascii.eqb_spec c "+"); [subst; discriminate E|].
  simpl. rewrite (digit_of_space c E). discriminate.
Qed.

Lemma radix_of_int_literal (r : string) (v : Z) :
  JS.digits 10 r None = (Some v, EmptyString) ->
  JS.radix_and_rest r = (10, r).
Proof.
  destruct r as [|c [|x t]]; try reflexivity. unfold JS.radix_and_rest.
  destruct (Ascii.eqb_spec c "0"); [subst c|reflexivity]. simpl.
  destruct (Ascii.eqb_spec x "x"); [subst x; discriminate|].
  destruct (Ascii.eqb_spec x "X"); [subst x; discriminate|].
  reflexivity.
Qed.

Lemma int_literal_parseInt (s : string) (z : Z) :
  JS.int_literal s = Some z -> JS.parseInt s = JS.Num z.
Proof.
  intros H. unfold JS.parseInt. rewrite (skip_spaces_int_literal _ _ H).
  revert H. unfold JS.int_literal.
  destruct (JS.sign_and_rest s) as [sg r].
  destruct (JS.digits 10 r None) as [[v|] rest] eqn:E; [|discriminate].
  destruct rest; [|discriminate]. intros H.
  rewrite (radix_of_int_literal _ _ E), E. simpl. congruence.
Qed.

(* ------------------------------------------------------------------------- *)
(** ** The monthly summary *)

Lemma fold_left_add_total (l : list TransactionRow) (a : Z) :
  fold_left Z.add (map t_amount l) a = a + total l.
Proof.
  revert a. induction l as [|t l IH]; intros a; simpl.
  - lia.
  - rewrite IH. lia.
Qed.

(** COALESCE(SUM(amount), 0) over the selected rows is the sum of their
    amounts, 0 when no row is selected. *)
Lemma coalesce_sum_total (l : list TransactionRow) :
  Sql.coalesce (Sql.sum (map t_amount l)) 0 = total l.
Proof.
  destruct l as [|t l]; [reflexivity|].
  change (fold_left Z.add (map t_amount (t :: l)) 0 = total (t :: l)).
  rewrite fold_left_add_total. lia.
Qed.

Lemma of_month_as_where (user_id : Z) (type : string) (y m : Z)
  (l : list TransactionRow) :
  filter (Transactions.in_month_of_type user_id type y m) l =
  of_month user_id type y m l.
Proof. reflexivity. Qed.

(** The guard of the month routes lets an integer literal in 1-12 through. *)
Lemma month_in_range_accepted (year month : string) (y m : Z) :
  JS.int_literal year = Some y ->
  JS.int_literal month = Some m ->
  1 <= m <= 12 ->
  Transactions.invalid_year_or_month year month = false.
Proof.
  intros Hy Hm Hr. unfold Transactions.invalid_year_or_month, JS.truthy_string.
  rewrite (int_literal_not_empty _ _ Hy), (int_literal_not_empty _ _ Hm).
  rewrite (int_literal_to_number _ _ Hm). simpl.
  destruct (Z.ltb_spec m 1); [lia|].
  destruct (Z.gtb_spec m 12); [lia|]. reflexivity.
Qed.

(** The guard rejects an integer literal outside 1-12. *)
Lemma month_out_of_range_rejected (year month : string) (m : Z) :
  JS.int_literal month = Some m ->
  m < 1 \/ 12 < m ->
  Transactions.invalid_year_or_month year month = true.
Proof.
  intros Hm Hr. unfold Transactions.invalid_year_or_month.
  rewrite (int_literal_to_number _ _ Hm). simpl.
  destruct (Z.ltb_spec m 1); [now rewrite !orb_true_r|].
  destruct (Z.gtb_spec m 12); [now rewrite !orb_true_r|]. lia.
Qed.

(** No transaction of the user in a month: both sums are empty. *)
Lemma of_month_none (user_id : Z) (type : string) (y m : Z)
  (l : list TransactionRow) :
  (forall t, In t l -> t_user_id t = user_id ->
             d_year (t_transaction_date t) = y ->
             d_month (t_transaction_date t) = m -> False) ->
  of_month user_id type y m l = [].
Proof.
  intros H. unfold of_month. induction l as [|t l IH]; [reflexivity|]. simpl.
  destruct ((t_user_id t =? user_id) && (t_type t =? type)%string &&
            (d_year (t_transaction_date t) =? y) &&
            (d_month (t_transaction_date t) =? m)) eqn:E.
  - exfalso. bool_hyps. apply (H t); auto. now left.
  - apply IH. intros t' Hin. apply H. now right.
Qed.

(** C1 (amended). For a user, a year and a month in 1-12 given as integer
    literals, the summary route answers 200 and leaves the world as it was.
    Income and expense are the JSON numbers of the exact sums of the amounts
    of the user's INCOME and EXPENSE transactions dated in that year and
    month: the double nearest to the sum, which for a sum of up to 2^53 cents
    is the correctly rounded quotient of the cents by 100.  The balance is the
    double-precision difference of these two numbers, not the exact difference
    of the sums.  When the user has no transaction in that month the three
    numbers are 0.  The month is echoed as given, and so is a year of a
    magnitude up to 2^53. *)
Theorem summary_year_month_exact
  (w : World) (user_id : Z) (year month : string) (y m : Z) :
  faults w = [] ->
  JS.int_literal year = Some y ->
  JS.int_literal month = Some m ->
  1 <= m <= 12 ->
  let sum_income :=
    total (of_month user_id "INCOME" y m (transactions (db w))) in
  let sum_expense :=
    total (of_month user_id "EXPENSE" y m (transactions (db w))) in
  exists (income expense : float) (echo_year : JS.number),
    Transactions.get_summary_year_month user_id year month w =
      (Returned (mkResponse 200
         (BSummary income expense (PrimFloat.sub income expense)
                   echo_year (JS.Num m))), w) /\
    income = JS.parseFloat sum_income /\
    expense = JS.parseFloat sum_expense /\
    (0 <= sum_income < 2 ^ 53 ->
     income =
       PrimFloat.div (PrimFloat.of_uint63 (Uint63.of_Z sum_income)) 100%float) /\
    (0 <= sum_expense < 2 ^ 53 ->
     expense =
       PrimFloat.div (PrimFloat.of_uint63 (Uint63.of_Z sum_expense)) 100%float) /\
    (Z.abs y <= 2 ^ 53 -> echo_year = JS.Num y) /\
    ((forall t, In t (transactions (db w)) -> t_user_id t = user_id ->
                d_year (t_transaction_date t) = y ->
                d_month (t_transaction_date t) = m -> False) ->
     income = 0%float /\ expense = 0%float /\
     PrimFloat.sub income expense = 0%float).
Proof.
  intros Hf Hy Hm Hr sum_income sum_expense.
  exists (JS.parseFloat sum_income), (JS.parseFloat sum_expense), (JS.Num y).
  split; [|split; [reflexivity|split; [reflexivity|split; [|split; [|split]]]]].
  - unfold Transactions.get_summary_year_month.
    rewrite (month_in_range_accepted _ _ _ _ Hy Hm Hr).
    rewrite (int_literal_number_of_string _ _ Hy),
            (int_literal_number_of_string _ _ Hm),
            (int_literal_parseInt _ _ Hy), (int_literal_parseInt _ _ Hm).
    destruct w as [d h f t]. simpl in Hf. subst f.
    unfold try_catch, bind, try_finally, getConnection, execute, release,
      res_json, ret, Transactions.select_total, select.
    cbn [faults db held today fst snd Nat.pred].
    rewrite !of_month_as_where, !coalesce_sum_total. reflexivity.
  - intros Hsum. unfold JS.parseFloat.
    destruct (Z.ltb_spec sum_income 0); [lia|reflexivity].
  - intros Hsum. unfold JS.parseFloat.
    destruct (Z.ltb_spec sum_expense 0); [lia|reflexivity].
  - intros _. reflexivity.
  - intros Hnone. subst sum_income sum_expense.
    rewrite !(of_month_none _ _ _ _ _ Hnone). repeat split.
Qed.

Lemma summary_year_month_exact_witness :
  1 <= 3 <= 12 /\
  Transactions.get_summary_year_month 1 "2024" "3" (quiet ledger) =
    (Returned (mkResponse 200
       (BSummary 2500%float 20.8%float
                 2479.2%float (JS.Num 2024) (JS.Num 3))),
     quiet ledger).
Proof.
  split; [lia|].
  destruct (summary_year_month_exact (quiet ledger) 1 "2024" "3" 2024 3)
    as [income [expense [echo [H [Hi [He [_ [_ [Hecho _]]]]]]]]];
    [reflexivity | reflexivity | reflexivity | lia |].
  rewrite H, Hi, He, Hecho by (vm_compute; discriminate). reflexivity.
Defined.

(** C1 as stated fails on the balance: with an income of 0.30 and an expense
    of 0.10 the route answers a balance of 0.19999999999999998, which is not
    the number 0.2 of the exact difference of the two sums. *)
Lemma balance_is_a_double_difference :
  Transactions.get_summary_year_month 1 "2024" "3" (quiet dimes) =
    (Returned (mkResponse 200
       (BSummary 0.3%float 0.1%float
                 0.19999999999999998%float (JS.Num 2024) (JS.Num 3))),
     quiet dimes) /\
  total (of_month 1 "INCOME" 2024 3 (transactions dimes)) -
  total (of_month 1 "EXPENSE" 2024 3 (transactions dimes)) = 20 /\
  JS.parseFloat 20 = 0.2%float /\
  0.19999999999999998%float <> 0.2%float.
Proof.
  split; [reflexivity|]. split; [reflexivity|]. split; [reflexivity|].
  intros H. discriminate H.
Qed.

(** An integer month outside 1-12 is answered 400 by both month routes and
    nothing is read from the database. *)
Lemma month_routes_reject_integers_out_of_range
  (w : World) (user_id : Z) (year month : string) (m : Z) :
  JS.int_literal month = Some m ->
  m < 1 \/ 12 < m ->
  Transactions.get_monthly user_id year month w =
    (Returned (mkResponse 400 (BError "Invalid year or month")), w) /\
  Transactions.get_summary_year_month user_id year month w =
    (Returned (mkResponse 400 (BError "Invalid year or month")), w).
Proof.
  intros Hm Hr.
  unfold Transactions.get_monthly, Transactions.get_summary_year_month.
  rewrite (month_out_of_range_rejected year month m Hm Hr).
  split; reflexivity.
Qed.

(** C8. The month segment [abc] is not in 1-12, yet neither month route
    answers 400: both comparisons of the guard are false on NaN, the statement
    runs, and the routes answer 200 with an empty list and with sums of 0. *)
Theorem month_word_passes_the_guard :
  fst (Transactions.get_monthly 1 "2024" "abc" (quiet ledger)) =
    Returned (mkResponse 200 (BTransactions [])) /\
  fst (Transactions.get_summary_year_month 1 "2024" "abc" (quiet ledger)) =
    Returned (mkResponse 200
      (BSummary 0%float 0%float 0%float (JS.Num 2024) JS.NaN)).
Proof.
  split; reflexivity.
Qed.

(* ------------------------------------------------------------------------- *)
(** ** Rows selected by primary key *)

Section ByKey.

Context {A : Type} (key : A -> Z).

Lemma filter_key_absent (k : Z) (l : list A) :
  ~ In k (map key l) -> filter (fun y => key y =? k) l = [].
Proof.
  induction l as [|a l IH]; [reflexivity|]. simpl. intros H.
  destruct (Z.eqb_spec (key a) k) as [E|E].
  - exfalso. apply H. now left.
  - apply IH. intros Hin. apply H. now right.
Qed.

(** Under a primary key, the rows with the key of a stored row are that row
    alone. *)
Lemma filter_key_unique (x : A) (l : list A) :
  NoDup (map key l) -> In x l -> filter (fun y => key y =? key x) l = [x].
Proof.
  induction l as [|a l IH]; [intros _ []|]. simpl.
  intros Hnd Hin. inversion Hnd as [|k ks Hout Hrest]; subst.
  destruct Hin as [->|Hin].
  - rewrite Z.eqb_refl. f_equal. now apply filter_key_absent.
  - destruct (Z.eqb_spec (key a) (key x)) as [E|E].
    + exfalso. apply Hout. rewrite E. now apply in_map.
    + now apply IH.
Qed.

End ByKey.

Ltac run_handler :=
  unfold try_catch, bind, try_finally, getConnection, execute, release,
    res_json, res_status, ret, throw, select, catch_500;
  cbn [faults db held today fst snd Nat.pred].

(* ------------------------------------------------------------------------- *)
(** ** Deleting a category *)

Lemma count_positive (id : Z) (l : list TransactionRow) :
  (exists t, In t l /\ t_category_id t = id) ->
  Nat.ltb 0 (List.length (filter (fun t => t_category_id t =? id) l)) = true.
Proof.
  intros [t [Hin Hid]]. apply Nat.ltb_lt.
  assert (Hf : In t (filter (fun t => t_category_id t =? id) l)).
  { apply filter_In. split; [exact Hin|]. now apply Z.eqb_eq. }
  destruct (filter (fun t => t_category_id t =? id) l); [destruct Hf|simpl; lia].
Qed.

Lemma unreferenced_filter (id : Z) (l : list TransactionRow) :
  (forall t, In t l -> t_category_id t <> id) ->
  filter (fun t => t_category_id t =? id) l = [].
Proof.
  intros H. induction l as [|t l IH]; [reflexivity|]. simpl.
  destruct (Z.eqb_spec (t_category_id t) id) as [E|E].
  - exfalso. apply (H t); [now left|exact E].
  - apply IH. intros t' Hin. apply H. now right.
Qed.

Lemma unreferenced_existsb (id : Z) (l : list TransactionRow) :
  (forall t, In t l -> t_category_id t <> id) ->
  existsb (fun t => t_category_id t =? id) l = false.
Proof.
  intros H. induction l as [|t l IH]; [reflexivity|]. simpl.
  destruct (Z.eqb_spec (t_category_id t) id) as [E|E].
  - exfalso. apply (H t); [now left|exact E].
  - apply IH. intros t' Hin. apply H. now right.
Qed.

Lemma owner_may_change (c : CategoryRow) (user_id : Z) :
  c_user_id c = Some user_id -> c_is_default c = false ->
  Categories.default_or_foreign c user_id = false.
Proof.
  intros Ho Hd. unfold Categories.default_or_foreign.
  rewrite Ho, Hd, Z.eqb_refl. reflexivity.
Qed.

(** C2. For a category owned by the user: while some transaction (of any
    user) references it, DELETE answers 400 and leaves the whole world, the
    category row and every transaction included, as it was; in any later
    world with the same categories where no transaction references it any
    more, the same DELETE answers 200 and removes exactly the rows with that
    id, the category among them, leaving the transactions as they are. *)
Theorem delete_category_blocked_while_referenced
  (w : World) (user_id : Z) (c : CategoryRow) :
  faults w = [] ->
  NoDup (map c_id (categories (db w))) ->
  In c (categories (db w)) ->
  c_user_id c = Some user_id ->
  c_is_default c = false ->
  (exists t, In t (transactions (db w)) /\ t_category_id t = c_id c) ->
  Categories.delete_id user_id (c_id c) w =
    (Returned (mkResponse 400
       (BError "Cannot delete category that is being used in transactions")), w)
  /\
  (forall w2 : World,
     faults w2 = [] ->
     categories (db w2) = categories (db w) ->
     (forall t, In t (transactions (db w2)) -> t_category_id t <> c_id c) ->
     exists w3,
       Categories.delete_id user_id (c_id c) w2 =
         (Returned (mkResponse 200 (BMessage "Category deleted successfully")), w3)
       /\ categories (db w3) =
            filter (fun x => negb (c_id x =? c_id c)) (categories (db w))
       /\ ~ In c (categories (db w3))
       /\ transactions (db w3) = transactions (db w2)
       /\ held w3 = held w2).
Proof.
  intros Hf Hnd Hin Ho Hd Href. split.
  - destruct w as [d h f t]. simpl in *. subst f.
    unfold Categories.delete_id, Categories.select_by_id,
      Categories.count_transactions.
    run_handler.
    rewrite (filter_key_unique c_id c _ Hnd Hin).
    rewrite (owner_may_change c user_id Ho Hd).
    cbn [faults db held today fst snd Nat.pred].
    rewrite (count_positive _ _ Href). reflexivity.
  - intros w2 Hf2 Hcat Hnone.
    destruct w2 as [d2 h2 f2 t2]. simpl in *. subst f2.
    unfold Categories.delete_id, Categories.select_by_id,
      Categories.count_transactions, Categories.delete_category.
    run_handler.
    rewrite Hcat, (filter_key_unique c_id c _ Hnd Hin).
    rewrite (owner_may_change c user_id Ho Hd).
    cbn [faults db held today fst snd Nat.pred].
    rewrite (unreferenced_filter _ _ Hnone).
    cbn [List.length Nat.ltb Nat.leb faults db held today fst snd Nat.pred].
    rewrite Hcat, (unreferenced_existsb _ _ Hnone), andb_false_r.
    eexists. split; [reflexivity|]. cbn.
    repeat split.
    intros Hc. apply filter_In in Hc as [_ Hc].
    rewrite Z.eqb_refl in Hc. discriminate.
Qed.

Lemma ledger_category_ids : NoDup (map c_id (categories ledger)).
Proof.
  repeat constructor; simpl; intuition discriminate.
Qed.

Lemma delete_category_blocked_while_referenced_witness :
  Categories.delete_id 1 2 (quiet ledger) =
    (Returned (mkResponse 400
       (BError "Cannot delete category that is being used in transactions")),
     quiet ledger)
  /\
  fst (Categories.delete_id 1 2 (quiet (without_references 2 ledger))) =
    Returned (mkResponse 200 (BMessage "Category deleted successfully")).
Proof.
  destruct (delete_category_blocked_while_referenced (quiet ledger) 1 food)
    as [Hblocked Hafter].
  - reflexivity.
  - exact ledger_category_ids.
  - simpl. auto.
  - reflexivity.
  - reflexivity.
  - exists (mkTransaction 2 1250 "Lunch" march "EXPENSE" 2 1 (Some "team") 11 11).
    split; [simpl; auto | reflexivity].
  - split; [exact Hblocked|].
    destruct (Hafter (quiet (without_references 2 ledger))) as [w3 [E _]].
    + reflexivity.
    + reflexivity.
    + simpl. intros t [<-|[]]. discriminate.
    + change (c_id food) with 2 in E. rewrite E. reflexivity.
Defined.

(* ------------------------------------------------------------------------- *)
(** ** ORDER BY *)

Section OrderByFacts.

Context {A : Type} (leb : A -> A -> bool).

Lemma insert_perm (x : A) (l : list A) :
  Permutation (Sql.insert leb x l) (x :: l).
Proof.
  induction l as [|y l IH]; simpl.
  - apply Permutation_refl.
  - destruct (leb x y).
    + apply Permutation_refl.
    + apply perm_trans with (y :: x :: l).
      * now apply perm_skip.
      * apply perm_swap.
Qed.

Lemma order_by_perm (l : list A) : Permutation (Sql.order_by leb l) l.
Proof.
  induction l as [|x l IH]; simpl.
  - apply perm_nil.
  - apply perm_trans with (x :: Sql.order_by leb l).
    + apply insert_perm.
    + now apply perm_skip.
Qed.

Lemma order_by_In (x : A) (l : list A) :
  In x (Sql.order_by leb l) <-> In x l.
Proof.
  split; apply Permutation_in.
  - apply order_by_perm.
  - apply Permutation_sym, order_by_perm.
Qed.

Hypothesis leb_total : forall a b, leb a b = false -> leb b a = true.

Let precedes (a b : A) : Prop := leb a b = true.

Lemma insert_HdRel (a x : A) (l : list A) :
  leb a x = true -> HdRel precedes a l -> HdRel precedes a (Sql.insert leb x l).
Proof.
  intros Hax Hl. destruct l as [|y l]; simpl.
  - now constructor.
  - destruct (leb x y); constructor; [exact Hax|].
    now inversion Hl.
Qed.

Lemma insert_sorted (x : A) (l : list A) :
  Sorted precedes l -> Sorted precedes (Sql.insert leb x l).
Proof.
  induction 1 as [|y l Hs IH Hhd]; simpl.
  - repeat constructor.
  - destruct (leb x y) eqn:E.
    + constructor; [now constructor|]. now constructor.
    + constructor; [exact IH|].
      apply insert_HdRel; [now apply leb_total | exact Hhd].
Qed.

Lemma order_by_sorted (l : list A) : Sorted precedes (Sql.order_by leb l).
Proof.
  induction l as [|x l IH]; simpl.
  - constructor.
  - now apply insert_sorted.
Qed.

End OrderByFacts.

(* ------------------------------------------------------------------------- *)
(** ** Default categories *)

Lemma default_is_visible (user_id : Z) (c : CategoryRow) :
  c_is_default c = true -> Categories.visible_to user_id c = true.
Proof.
  intros H. unfold Categories.visible_to. rewrite H. apply orb_true_r.
Qed.

Lemma default_may_not_change (c : CategoryRow) (user_id : Z) :
  c_is_default c = true -> Categories.default_or_foreign c user_id = true.
Proof.
  intros H. unfold Categories.default_or_foreign. now rewrite H.
Qed.

(* ------------------------------------------------------------------------- *)
(** ** Updating a category *)

Lemma filter_key_after_update {A : Type} (key : A -> Z) (f : A -> A)
  (x : A) (l : list A) :
  (forall y, key (f y) = key y) ->
  NoDup (map key l) -> In x l ->
  filter (fun y => key y =? key x) (map f l) = [f x].
Proof.
  intros Hkey Hnd Hin. rewrite <- (Hkey x).
  apply filter_key_unique.
  - rewrite map_map. erewrite map_ext; [exact Hnd|]. exact Hkey.
  - now apply in_map.
Qed.

(** C10. For a category owned by the user with a stored description, a valid
    PUT that omits [description] answers 200 with the updated row, which is
    the only row of that id afterwards and has a null description; when
    [color] is omitted as well, the row keeps the color it had.  Name and type
    are those of the request. *)
Theorem category_update_omitted_description_is_nulled
  (w : World) (user_id : Z) (c : CategoryRow) (b : Categories.ReqBody) :
  faults w = [] ->
  NoDup (map c_id (categories (db w))) ->
  In c (categories (db w)) ->
  c_user_id c = Some user_id ->
  c_is_default c = false ->
  c_description c <> None ->
  Categories.categoryValidation b = [] ->
  Categories.b_description b = None ->
  exists c' w',
    Categories.put_id user_id (c_id c) b w =
      (Returned (mkResponse 200 (BCategory c')), w') /\
    filter (fun x => c_id x =? c_id c) (categories (db w')) = [c'] /\
    c_description c' = None /\
    (Categories.b_color b = None -> c_color c' = c_color c) /\
    c_name c' = Categories.b_name b /\
    c_type c' = Categories.b_type b.
Proof.
  intros Hf Hnd Hin Ho Hd Hdesc Hb Hnone.
  destruct w as [d h f t]. cbn [faults db] in *. subst f.
  unfold Categories.put_id, Categories.select_by_id, Categories.update_category.
  rewrite Hb, Hnone. run_handler.
  rewrite (filter_key_unique c_id c _ Hnd Hin).
  rewrite (owner_may_change c user_id Ho Hd).
  cbn [faults db held today fst snd Nat.pred categories set_categories].
  rewrite (filter_key_after_update c_id _ c _); [| |exact Hnd|exact Hin].
  - rewrite Z.eqb_refl. cbn [Categories.first_row].
    eexists. eexists. split; [reflexivity|].
    cbn [db categories set_categories].
    rewrite (filter_key_after_update c_id _ c _); [| |exact Hnd|exact Hin].
    + rewrite Z.eqb_refl. split; [reflexivity|]. cbn.
      repeat split. intros Hcol. now rewrite Hcol.
    + intros y. now destruct (c_id y =? c_id c).
  - intros y. now destruct (c_id y =? c_id c).
Qed.

Lemma category_update_omitted_description_is_nulled_witness :
  c_description food = Some "Eating out" /\
  exists c' w',
    Categories.put_id 1 2 (Categories.mkReqBody "Meals" None None "EXPENSE")
                      (quiet ledger) =
      (Returned (mkResponse 200 (BCategory c')), w') /\
    c_description c' = None /\
    c_color c' = Some "#FF5722".
Proof.
  split; [reflexivity|].
  destruct (category_update_omitted_description_is_nulled (quiet ledger) 1 food
              (Categories.mkReqBody "Meals" None None "EXPENSE"))
    as [c' [w' [E [_ [Hdesc [Hcolor _]]]]]].
  - reflexivity.
  - exact ledger_category_ids.
  - simpl. auto.
  - reflexivity.
  - reflexivity.
  - discriminate.
  - reflexivity.
  - reflexivity.
  - exists c', w'. repeat split; [exact E | exact Hdesc | now apply Hcolor].
Defined.

(* ------------------------------------------------------------------------- *)
(** ** The category of a transaction must be usable by its owner *)

Lemma filter_none {A : Type} (p : A -> bool) (l : list A) :
  (forall x, In x l -> p x = false) -> filter p l = [].
Proof.
  intros H. induction l as [|a l IH]; [reflexivity|]. simpl.
  rewrite (H a (or_introl eq_refl)). apply IH. intros x Hx. apply H. now right.
Qed.

Lemma unusable_not_selected (user_id id : Z) (l : list CategoryRow) :
  (forall c, In c l -> c_id c = id -> ~ usable user_id c) ->
  filter (fun c => (c_id c =? id) &&
                   (Sql.eq_nullable (c_user_id c) user_id || c_is_default c)) l = [].
Proof.
  intros H. apply filter_none. intros c Hin.
  destruct (Z.eqb_spec (c_id c) id) as [E|E]; [|reflexivity]. simpl.
  specialize (H c Hin E). unfold usable in H.
  destruct (c_is_default c); [exfalso; apply H; now right|].
  rewrite orb_false_r. unfold Sql.eq_nullable.
  destruct (c_user_id c) as [o|]; [|reflexivity].
  destruct (Z.eqb_spec o user_id) as [->|]; [|reflexivity].
  exfalso. apply H. now left.
Qed.

Lemma owned_selected (user_id id : Z) (l : list TransactionRow) :
  (exists t, In t l /\ t_id t = id /\ t_user_id t = user_id) ->
  Nat.eqb (List.length
    (filter (fun t => (t_id t =? id) && (t_user_id t =? user_id)) l)) 0 = false.
Proof.
  intros [t [Hin [Hid Hu]]].
  assert (Hf : In t (filter (fun t => (t_id t =? id) && (t_user_id t =? user_id)) l)).
  { apply filter_In. split; [exact Hin|].
    apply andb_true_iff. split; now apply Z.eqb_eq. }
  destruct (filter _ l); [destruct Hf|reflexivity].
Qed.

Lemma not_owned_not_selected (user_id id : Z) (l : list TransactionRow) :
  (forall t, In t l -> t_id t = id -> t_user_id t <> user_id) ->
  filter (fun t => (t_id t =? id) && (t_user_id t =? user_id)) l = [].
Proof.
  intros H. apply filter_none. intros t Hin.
  destruct (Z.eqb_spec (t_id t) id) as [E|E]; [|reflexivity]. simpl.
  apply Z.eqb_neq. now apply H.
Qed.

(** C4 (amended). When [categoryId] references no category that the user owns
    or that is default (no such id, or another user's category), POST answers
    400; PUT answers 400 when the body fails validation or the addressed
    transaction exists and is owned by the user, and 404 when the body is valid
    and the user owns no transaction of that id (the existence check comes
    before the category check).  In every case the world is left as it was: no
    transaction row is inserted or modified. *)
Theorem unusable_category_rejected
  (w : World) (user_id : Z) (b : Transactions.ReqBody) :
  faults w = [] ->
  (forall c, In c (categories (db w)) ->
             c_id c = Transactions.b_categoryId b -> ~ usable user_id c) ->
  (exists e, Transactions.post user_id b w = (Returned (mkResponse 400 e), w))
  /\
  (forall id,
     Transactions.transactionValidation b <> [] \/
     (exists t, In t (transactions (db w)) /\ t_id t = id /\ t_user_id t = user_id) ->
     exists e, Transactions.put_id user_id id b w = (Returned (mkResponse 400 e), w))
  /\
  (forall id,
     Transactions.transactionValidation b = [] ->
     (forall t, In t (transactions (db w)) -> t_id t = id -> t_user_id t <> user_id) ->
     Transactions.put_id user_id id b w =
       (Returned (mkResponse 404 (BError "Transaction not found")), w)).
Proof.
  intros Hf Hcat.
  destruct w as [d h f t]. cbn [faults db] in *. subst f.
  repeat split.
  - unfold Transactions.post, Transactions.select_visible_category.
    destruct (Transactions.transactionValidation b); [|eexists; reflexivity].
    run_handler. rewrite (unusable_not_selected _ _ _ Hcat).
    eexists. reflexivity.
  - intros id Hcase.
    unfold Transactions.put_id, Transactions.select_existing,
      Transactions.select_visible_category.
    destruct (Transactions.transactionValidation b) eqn:Hv; [|eexists; reflexivity].
    destruct Hcase as [Hbad|Hown]; [now destruct Hbad|].
    run_handler. rewrite (owned_selected _ _ _ Hown).
    cbn [faults db held today fst snd Nat.pred].
    rewrite (unusable_not_selected _ _ _ Hcat).
    eexists. reflexivity.
  - intros id Hv Hnone.
    unfold Transactions.put_id, Transactions.select_existing.
    rewrite Hv. run_handler.
    rewrite (not_owned_not_selected _ _ _ Hnone). reflexivity.
Qed.

Lemma unusable_category_rejected_witness :
  Transactions.post 1 (Transactions.mkReqBody 500 "Taxi" march "EXPENSE" 42 None)
                    (quiet ledger) =
    (Returned (mkResponse 400 (BError "Invalid category")), quiet ledger).
Proof.
  destruct (unusable_category_rejected (quiet ledger) 1
              (Transactions.mkReqBody 500 "Taxi" march "EXPENSE" 42 None))
    as [[e He] _].
  - reflexivity.
  - simpl. intros c [<-|[<-|[]]]; discriminate.
  - rewrite He. vm_compute in He. congruence.
Defined.

(** C4 as stated fails: a PUT with a valid body and a [categoryId] that exists
    nowhere, addressed to a transaction that does not exist, is answered 404,
    not 400. *)
Lemma update_of_missing_transaction_answers_404 :
  Transactions.select_visible_category 42 1 ledger = Returned ([], ledger) /\
  fst (Transactions.put_id 1 99
         (Transactions.mkReqBody 500 "Taxi" march "EXPENSE" 42 None)
         (quiet ledger)) =
    Returned (mkResponse 404 (BError "Transaction not found")).
Proof.
  split; reflexivity.
Qed.

(* ------------------------------------------------------------------------- *)
(** ** Creating a transaction and reading it back *)

Lemma join_one (d : Db) (t : TransactionRow) (c : CategoryRow) :
  NoDup (map c_id (categories d)) ->
  In c (categories d) ->
  c_id c = t_category_id t ->
  Transactions.join_categories d t =
    [Transactions.mkJoined t (c_name c) (c_type c) (c_color c)].
Proof.
  intros Hnd Hin Hid. unfold Transactions.join_categories.
  rewrite (filter_ext _ (fun x => c_id x =? c_id c)).
  - now rewrite (filter_key_unique c_id c _ Hnd Hin).
  - intros x. rewrite Hid. apply Z.eqb_sym.
Qed.

Lemma fresh_id_not_selected (n : Z) (q : TransactionRow -> bool)
  (l : list TransactionRow) :
  (forall t, In t l -> t_id t < n) ->
  filter (fun t => (t_id t =? n) && q t) l = [].
Proof.
  intros H. apply filter_none. intros t Hin.
  destruct (Z.eqb_spec (t_id t) n) as [E|E]; [|reflexivity].
  specialize (H t Hin). lia.
Qed.

Lemma usable_selected (user_id : Z) (c : CategoryRow) (l : list CategoryRow) :
  In c l -> usable user_id c ->
  Nat.eqb (List.length
    (filter (fun x => (c_id x =? c_id c) &&
                      (Sql.eq_nullable (c_user_id x) user_id || c_is_default x)) l))
    0 = false.
Proof.
  intros Hin Hu.
  assert (Hf : In c (filter (fun x => (c_id x =? c_id c) &&
                 (Sql.eq_nullable (c_user_id x) user_id || c_is_default x)) l)).
  { apply filter_In. split; [exact Hin|]. rewrite Z.eqb_refl. simpl.
    destruct Hu as [Ho|Hd].
    - rewrite Ho. simpl. now rewrite Z.eqb_refl.
    - rewrite Hd. apply orb_true_r. }
  destruct (filter _ l); [destruct Hf|reflexivity].
Qed.

Lemma existsb_id {A : Type} (key : A -> Z) (x : A) (l : list A) :
  In x l -> existsb (fun y => key y =? key x) l = true.
Proof.
  intros Hin. apply existsb_exists. exists x. split; [exact Hin|apply Z.eqb_refl].
Qed.

(** [parseFloat] of a non-negative amount is one IEEE division. *)
Lemma parseFloat_quotient (cents : Z) :
  0 <= cents ->
  JS.parseFloat cents =
    PrimFloat.div (PrimFloat.of_uint63 (Uint63.of_Z cents)) 100%float.
Proof.
  intros H. unfold JS.parseFloat.
  destruct (Z.ltb_spec cents 0); [lia|reflexivity].
Qed.

(** The [Date] object of a stored day, from year 100 on, stands in UTC on that
    day at or west of UTC and on the day before east of UTC. *)
Lemma date_column_in_utc (d : Date) (offset : Z) :
  100 <= d_year d ->
  (-1440 < offset <= 0 -> fst (JS.utc offset (Mysql2.date_column d)) = d) /\
  (0 < offset < 1440 ->
   fst (JS.utc offset (Mysql2.date_column d)) = JS.yesterday d).
Proof.
  intros Hyear.
  unfold Mysql2.date_column, JS.new_Date_components, JS.utc.
  destruct (Z.leb_spec (d_year d) 99); [lia|]. rewrite andb_false_r.
  replace (d_month d - 1 + 1) with (d_month d) by lia.
  destruct d as [yy mm dd]. cbn [d_year d_month d_day].
  split; intros Ho; destruct (Z.leb_spec offset 0); try reflexivity; lia.
Qed.

Lemma valid_amount_positive (b : Transactions.ReqBody) :
  Transactions.transactionValidation b = [] -> 1 <= Transactions.b_amount b.
Proof.
  unfold Transactions.transactionValidation. intros H.
  destruct (1 <=? Transactions.b_amount b) eqn:E; [now apply Z.leb_le|].
  discriminate H.
Qed.

(** C7 (amended). For a body that passes validation and that the columns of
    the table accept (an amount within DECIMAL(10,2), a day that exists), a
    category the user may use and an existing user, POST answers 201 with the
    created transaction, and GET /:id with the returned id answers 200 with
    the very same object.  Its amount is the double nearest to the amount of
    the request, the correctly rounded quotient of its cents by 100;
    description and type are those of the request; the category fields are
    those of the referenced category; notes are those of the request when it
    carries a non-empty string and null when it carries none or the empty
    string.  The transaction date is the [Date] object the driver builds for
    the stored day, midnight of the requested day in the zone of the server
    (from year 100 on), which JSON shows in UTC: on the requested day when the
    zone is at or west of UTC, on the day before when it is east of UTC. *)
Theorem create_then_get_round_trip
  (w : World) (user_id : Z) (b : Transactions.ReqBody) (c : CategoryRow)
  (u : UserRow) :
  faults w = [] ->
  consistent (db w) ->
  Transactions.transactionValidation b = [] ->
  Sql.decimal_10_2 (Transactions.b_amount b) = true ->
  Sql.valid_date (Transactions.b_transactionDate b) = true ->
  In c (categories (db w)) ->
  c_id c = Transactions.b_categoryId b ->
  usable user_id c ->
  In u (users (db w)) ->
  u_id u = user_id ->
  exists created w',
    Transactions.post user_id b w =
      (Returned (mkResponse 201 (BTransaction created)), w') /\
    Transactions.get_id user_id (Json.id created) w' =
      (Returned (mkResponse 200 (BTransaction created)), w') /\
    Json.amount created =
      PrimFloat.div
        (PrimFloat.of_uint63 (Uint63.of_Z (Transactions.b_amount b)))
        100%float /\
    Json.description created = Transactions.b_description b /\
    Json.transactionDate created =
      Mysql2.date_column (Transactions.b_transactionDate b) /\
    (100 <= d_year (Transactions.b_transactionDate b) ->
     forall offset,
       (-1440 < offset <= 0 ->
        fst (JS.utc offset (Json.transactionDate created)) =
          Transactions.b_transactionDate b) /\
       (0 < offset < 1440 ->
        fst (JS.utc offset (Json.transactionDate created)) =
          JS.yesterday (Transactions.b_transactionDate b))) /\
    Json.type created = Transactions.b_type b /\
    Json.category created =
      Json.mkCategoryRef (c_id c) (c_name c) (c_type c) (c_color c) /\
    (forall n, Transactions.b_notes b = Some n -> n <> "" ->
               Json.notes created = Some n) /\
    (Transactions.b_notes b = None \/ Transactions.b_notes b = Some "" ->
     Json.notes created = None).
Proof.
  intros Hf [Hcu Htu _ Hfresh Href] Hv Hamount Hdate Hin Hid Hus Huin Huid.
  pose proof (valid_amount_positive b Hv) as Hpos.
  destruct w as [d h f t]. cbn [faults db] in *. subst f.
  unfold Transactions.post, Transactions.get_id,
    Transactions.select_visible_category, Transactions.insert_transaction,
    Transactions.select_by_id, Transactions.select_by_id_and_user.
  rewrite Hv, Hamount, Hdate. cbn [negb]. run_handler.
  rewrite <- Hid. rewrite (usable_selected user_id c _ Hin Hus).
  cbn [faults db held today fst snd Nat.pred].
  rewrite (existsb_id c_id c _ Hin).
  rewrite <- Huid. rewrite (existsb_id u_id u _ Huin).
  cbn [andb faults db held today fst snd Nat.pred].
  set (new := mkTransaction (next_transaction_id d) _ _ _ _ _ _ _ _ _).
  unfold Transactions.joined_where.
  cbn [transactions set_transactions].
  rewrite filter_app.
  rewrite (filter_ext _ (fun t => (t_id t =? next_transaction_id d) && true))
    by (intros x; now rewrite andb_true_r).
  rewrite (fresh_id_not_selected _ _ _ Hfresh).
  cbn [filter app t_id new]. rewrite Z.eqb_refl.
  cbn [flat_map app].
  rewrite (join_one _ new c); [|exact Hcu|exact Hin|reflexivity].
  cbn [app].
  eexists. eexists. split; [reflexivity|].
  cbn [faults db held today fst snd Nat.pred Json.id
       Transactions.formatTransactionResponse Transactions.row t_id new].
  split.
  - cbn [transactions set_transactions].
    rewrite filter_app, (fresh_id_not_selected _ _ _ Hfresh).
    cbn [filter app t_id t_user_id new]. rewrite !Z.eqb_refl.
    cbn [andb flat_map app].
    rewrite (join_one _ new c); [|exact Hcu|exact Hin|reflexivity].
    reflexivity.
  - subst new.
    cbn [Transactions.formatTransactionResponse Transactions.row
         Json.amount Json.description Json.transactionDate Json.type
         Json.category Json.notes t_amount t_description t_transaction_date
         t_type t_notes t_category_id Transactions.category_name
         Transactions.category_type Transactions.category_color].
    split; [apply parseFloat_quotient; lia|].
    split; [reflexivity|]. split; [reflexivity|]. split.
    { intros Hyear offset. exact (date_column_in_utc _ offset Hyear). }
    split; [reflexivity|]. split; [reflexivity|]. split.
    + intros n Hn Hne. rewrite Hn. unfold JS.or_else, JS.truthy_string.
      destruct (String.eqb_spec n ""); [contradiction|reflexivity].
    + intros [Hn|Hn]; now rewrite Hn.
Qed.

Lemma ledger_consistent : consistent ledger.
Proof.
  split.
  - exact ledger_category_ids.
  - repeat constructor; simpl; intuition discriminate.
  - simpl. intros c [<-|[<-|[]]]; reflexivity.
  - simpl. intros t [<-|[<-|[<-|[<-|[]]]]]; reflexivity.
  - simpl. intros t [<-|[<-|[<-|[<-|[]]]]]; simpl; eauto.
Qed.

Lemma create_then_get_round_trip_witness :
  exists created w',
    Transactions.post 1 (groceries (Some "weekly")) (quiet ledger) =
      (Returned (mkResponse 201 (BTransaction created)), w') /\
    Transactions.get_id 1 (Json.id created) w' =
      (Returned (mkResponse 200 (BTransaction created)), w') /\
    Json.amount created = 42%float /\
    JS.toISOString (-300) (Json.transactionDate created) =
      "2024-04-03T05:00:00.000Z" /\
    Json.notes created = Some "weekly".
Proof.
  destruct (create_then_get_round_trip (quiet ledger) 1
              (groceries (Some "weekly")) food ana)
    as [created [w' [Hpost [Hget [Ha [_ [Hd [_ [_ [_ [Hn _]]]]]]]]]]].
  - reflexivity.
  - exact ledger_consistent.
  - reflexivity.
  - reflexivity.
  - reflexivity.
  - simpl. auto.
  - reflexivity.
  - now left.
  - simpl. auto.
  - reflexivity.
  - exists created, w'.
    split; [exact Hpost|]. split; [exact Hget|]. split; [|split].
    + rewrite Ha. reflexivity.
    + rewrite Hd. reflexivity.
    + apply Hn; [reflexivity|discriminate].
Defined.

(** C7 as stated fails in three ways.  A valid body whose notes are the empty
    string is stored with null notes.  The date is read back as an instant in
    UTC: on a server one hour east of UTC the third of April comes back as
    23:00 of the second, and a day of the year 50 comes back in 1950 in any
    zone.  And a body that passes validation with the thirtieth of February,
    or with an amount of 100000000.00, is refused by the columns of the table:
    it is answered 500 and nothing is stored. *)
Lemma created_transaction_is_not_read_back_as_sent :
  (Transactions.transactionValidation (groceries (Some "")) = [] /\
   exists created w',
     Transactions.post 1 (groceries (Some "")) (quiet ledger) =
       (Returned (mkResponse 201 (BTransaction created)), w') /\
     Transactions.get_id 1 (Json.id created) w' =
       (Returned (mkResponse 200 (BTransaction created)), w') /\
     Json.notes created = None /\
     Json.notes created <> Transactions.b_notes (groceries (Some "")))
  /\
  (exists created w',
     Transactions.post 1 (groceries None) (quiet ledger) =
       (Returned (mkResponse 201 (BTransaction created)), w') /\
     Transactions.get_id 1 (Json.id created) w' =
       (Returned (mkResponse 200 (BTransaction created)), w') /\
     JS.toISOString 60 (Json.transactionDate created) =
       "2024-04-02T23:00:00.000Z" /\
     fst (JS.utc 60 (Json.transactionDate created)) <>
       Transactions.b_transactionDate (groceries None))
  /\
  (Transactions.transactionValidation year_fifty = [] /\
   exists created w',
     Transactions.post 1 year_fifty (quiet ledger) =
       (Returned (mkResponse 201 (BTransaction created)), w') /\
     Transactions.get_id 1 (Json.id created) w' =
       (Returned (mkResponse 200 (BTransaction created)), w') /\
     JS.toISOString 0 (Json.transactionDate created) =
       "1950-06-15T00:00:00.000Z")
  /\
  (Transactions.transactionValidation february_30 = [] /\
   Transactions.transactionValidation hundred_million = [] /\
   exists message message',
     Transactions.post 1 february_30 (quiet ledger) =
       (Returned (mkResponse 500 (BError message)), quiet ledger) /\
     Transactions.post 1 hundred_million (quiet ledger) =
       (Returned (mkResponse 500 (BError message')), quiet ledger)).
Proof.
  split; [|split; [|split]].
  - split; [reflexivity|].
    eexists. eexists. split; [reflexivity|].
    split; [reflexivity|]. split; [reflexivity|]. discriminate.
  - eexists. eexists. split; [reflexivity|].
    split; [reflexivity|]. split; [reflexivity|]. discriminate.
  - split; [reflexivity|].
    eexists. eexists. split; [reflexivity|]. split; reflexivity.
  - split; [reflexivity|]. split; [reflexivity|].
    eexists. eexists. split; reflexivity.
Qed.

(* ------------------------------------------------------------------------- *)
(** ** Listing transactions, with and without pagination *)

Lemma date_compare_antisym (a b : Date) :
  date_compare b a = CompOpp (date_compare a b).
Proof.
  unfold date_compare.
  rewrite (Z.compare_antisym (d_year a)), (Z.compare_antisym (d_month a)),
          (Z.compare_antisym (d_day a)).
  destruct (d_year a ?= d_year b); simpl; try reflexivity.
  destruct (d_month a ?= d_month b); reflexivity.
Qed.

Lemma date_compare_eq (a b : Date) : date_compare a b = Eq -> a = b.
Proof.
  destruct a as [ya ma da], b as [yb mb db0]. unfold date_compare. simpl.
  destruct (Z.compare_spec ya yb); try discriminate.
  destruct (Z.compare_spec ma mb); try discriminate.
  destruct (Z.compare_spec da db0); try discriminate.
  intros _. congruence.
Qed.

Lemma date_compare_gt (a b : Date) : date_compare a b = Gt -> date_before b a.
Proof.
  unfold date_compare, date_before.
  destruct (Z.compare_spec (d_year a) (d_year b)); try discriminate.
  - destruct (Z.compare_spec (d_month a) (d_month b)); try discriminate.
    + destruct (Z.compare_spec (d_day a) (d_day b)); try discriminate.
      intros _. right. split; [lia|]. right. split; lia.
    + intros _. right. split; [lia|]. left. lia.
  - intros _. left. lia.
Qed.

Lemma newest_first_total (a b : Transactions.JoinedRow) :
  Transactions.newest_first a b = false -> Transactions.newest_first b a = true.
Proof.
  unfold Transactions.newest_first.
  rewrite (date_compare_antisym (t_transaction_date (Transactions.row a))).
  destruct (date_compare _ _); simpl; try discriminate; try reflexivity.
  intros H. apply Z.leb_gt in H. apply Z.leb_le. lia.
Qed.

Lemma newest_first_sound (a b : Transactions.JoinedRow) :
  Transactions.newest_first a b = true ->
  date_desc_created_desc (Transactions.row a) (Transactions.row b).
Proof.
  unfold Transactions.newest_first, date_desc_created_desc.
  destruct (date_compare _ _) eqn:E; try discriminate.
  - intros H. right. split; [now apply date_compare_eq|now apply Z.leb_le].
  - intros _. left. now apply date_compare_gt.
Qed.

Lemma date_desc_created_desc_trans (a b c : TransactionRow) :
  date_desc_created_desc a b -> date_desc_created_desc b c ->
  date_desc_created_desc a c.
Proof.
  unfold date_desc_created_desc, date_before.
  intros [Hab|[Eab Cab]] [Hbc|[Ebc Cbc]].
  - left. lia.
  - left. rewrite <- Ebc. exact Hab.
  - left. rewrite Eab. exact Hbc.
  - right. split; [congruence|lia].
Qed.

(** Every row precedes, in the order of the listing, all the rows after it. *)
Lemma sorted_rows (rows : list Transactions.JoinedRow) :
  Sorted (fun a b => Transactions.newest_first a b = true) rows ->
  StronglySorted date_desc_created_desc (map Transactions.row rows).
Proof.
  intros H. apply Sorted_StronglySorted.
  - intros a b c. apply date_desc_created_desc_trans.
  - induction H as [|a l Hs IH Hhd]; simpl; constructor.
    + exact IH.
    + destruct Hhd as [|b l' Hab]; simpl; constructor.
      now apply newest_first_sound.
Qed.

(** Under the foreign key and the primary key of categories the join keeps
    every selected transaction exactly once. *)
Lemma rows_of_join (d : Db) (l : list TransactionRow) :
  NoDup (map c_id (categories d)) ->
  (forall t, In t l ->
     exists c, In c (categories d) /\ c_id c = t_category_id t) ->
  map Transactions.row (flat_map (Transactions.join_categories d) l) = l.
Proof.
  intros Hnd. induction l as [|t l IH]; intros Href; [reflexivity|].
  cbn [flat_map]. rewrite map_app.
  destruct (Href t (or_introl eq_refl)) as [c [Hin Hid]].
  rewrite (join_one d t c Hnd Hin Hid). cbn [map app Transactions.row].
  f_equal. apply IH. intros t' Ht'. apply Href. now right.
Qed.

Lemma rows_of_joined_where (d : Db) (p : TransactionRow -> bool) :
  consistent d ->
  map Transactions.row (Transactions.joined_where p d) = filter p (transactions d).
Proof.
  intros [Hcu _ _ _ Href]. unfold Transactions.joined_where.
  apply rows_of_join; [exact Hcu|].
  intros t Ht. apply Href. now apply filter_In in Ht.
Qed.

Lemma ranks_as_limit_offset {A : Type} (p s : Z) (l : list A) :
  Sql.limit_offset s ((p - 1) * s) l = ranks ((p - 1) * s + 1) (p * s) l.
Proof.
  unfold Sql.limit_offset, ranks. f_equal; [f_equal; lia|].
  f_equal. f_equal. lia.
Qed.

(** C6 (amended). The rows listed for a user are the user's transactions,
    each once, ordered by transaction date descending then creation time
    descending.  With [page] >= 1 and [size] >= 1 both supplied, the route
    answers exactly the rows at ranks (page-1)*size+1 to page*size of that
    order; when [page] or [size] is not supplied it answers the full ordered
    list.  The world is left as it was. *)
Theorem list_is_ordered_and_paged
  (w : World) (user_id : Z) (page size : string) (p s : Z) :
  faults w = [] ->
  consistent (db w) ->
  JS.parseInt page = JS.Num p ->
  JS.parseInt size = JS.Num s ->
  1 <= p ->
  1 <= s ->
  exists rows,
    Permutation (map Transactions.row rows)
                (filter (fun t => t_user_id t =? user_id) (transactions (db w))) /\
    StronglySorted date_desc_created_desc (map Transactions.row rows) /\
    Transactions.get_all user_id (Some page) (Some size) w =
      (Returned (mkResponse 200 (BTransactions
         (map Transactions.formatTransactionResponse
              (ranks ((p - 1) * s + 1) (p * s) rows)))), w) /\
    (forall q,
       Transactions.get_all user_id None q w =
         (Returned (mkResponse 200 (BTransactions
            (map Transactions.formatTransactionResponse rows))), w) /\
       Transactions.get_all user_id q None w =
         (Returned (mkResponse 200 (BTransactions
            (map Transactions.formatTransactionResponse rows))), w)).
Proof.
  intros Hf Hc Hp Hs Hp1 Hs1.
  exists (Sql.order_by Transactions.newest_first
            (Transactions.joined_where (Transactions.owned_by user_id) (db w))).
  split; [|split; [|split]].
  - apply perm_trans with
      (map Transactions.row
         (Transactions.joined_where (Transactions.owned_by user_id) (db w))).
    + apply Permutation_map, order_by_perm.
    + rewrite (rows_of_joined_where _ _ Hc). apply Permutation_refl.
  - apply sorted_rows, order_by_sorted. exact newest_first_total.
  - destruct w as [d h f t]. cbn [faults db] in *. subst f.
    unfold Transactions.get_all, JS.parseInt_opt. rewrite Hp, Hs.
    unfold JS.truthy.
    destruct (Z.eqb_spec p 0); [lia|]. destruct (Z.eqb_spec s 0); [lia|].
    unfold Transactions.select_ordered_limit. run_handler.
    cbn [negb andb JS.sub JS.mul].
    destruct (Z.ltb_spec s 0); [lia|]. destruct (Z.ltb_spec ((p - 1) * s) 0); [nia|].
    cbn [orb faults db held today fst snd Nat.pred].
    now rewrite ranks_as_limit_offset.
  - intros q. destruct w as [d h f t]. cbn [faults db] in *. subst f.
    unfold Transactions.get_all, Transactions.select_ordered.
    change (JS.parseInt_opt None) with JS.NaN.
    unfold JS.truthy at 1 3. rewrite andb_false_r. cbn [andb].
    run_handler. split; reflexivity.
Qed.

Lemma list_is_ordered_and_paged_witness :
  exists rows,
    Permutation (map Transactions.row rows)
                (filter (fun t => t_user_id t =? 1) (transactions ledger)) /\
    StronglySorted date_desc_created_desc (map Transactions.row rows) /\
    Transactions.get_all 1 (Some "2") (Some "2") (quiet ledger) =
      (Returned (mkResponse 200 (BTransactions
         (map Transactions.formatTransactionResponse (ranks 3 4 rows)))),
       quiet ledger).
Proof.
  destruct (list_is_ordered_and_paged (quiet ledger) 1 "2" "2" 2 2)
    as [rows [Hperm [Hsorted [Hpage _]]]].
  - reflexivity.
  - exact ledger_consistent.
  - reflexivity.
  - reflexivity.
  - lia.
  - lia.
  - exists rows. repeat split; [exact Hperm|exact Hsorted|exact Hpage].
Defined.

(** The second page of two of the small ledger: the two oldest transactions,
    the later entry of the same day first. *)
Example page_two_of_the_ledger :
  exists l,
    fst (Transactions.get_all 1 (Some "2") (Some "2") (quiet ledger)) =
      Returned (mkResponse 200 (BTransactions l)) /\
    map Json.id l = [2; 1].
Proof.
  eexists. split; reflexivity.
Qed.

(** With 25 transactions, page 2 of size 10 is ranks 11 to 20: the
    transactions of the 15th down to the 6th of January. *)
Example page_two_of_twenty_five :
  List.length (transactions january) = 25%nat /\
  exists l,
    fst (Transactions.get_all 1 (Some "2") (Some "10") (quiet january)) =
      Returned (mkResponse 200 (BTransactions l)) /\
    map Json.id l = [15; 14; 13; 12; 11; 10; 9; 8; 7; 6].
Proof.
  split; [reflexivity|]. eexists. split; reflexivity.
Qed.

(** C6 as stated fails: with [page=1] and [size=0] both supplied the ranks 1
    to 0 are no row at all, yet the route lists every transaction of the
    user, since a size of 0 is falsy and no LIMIT is applied. *)
Lemma page_size_zero_lists_everything :
  ranks ((1 - 1) * 0 + 1) (1 * 0) (transactions ledger) = [] /\
  exists l,
    fst (Transactions.get_all 1 (Some "1") (Some "0") (quiet ledger)) =
      Returned (mkResponse 200 (BTransactions l)) /\
    map Json.id l = [4; 3; 2; 1].
Proof.
  split; [reflexivity|]. eexists. split; reflexivity.
Qed.

(* ------------------------------------------------------------------------- *)
(** ** Failed logins *)




(** A login with the right password succeeds on the same data, so the two
    failures above are failures of the credentials. *)
Example login_succeeds :
  fst (Auth.login toy_compare toy_sign (Auth.mkLoginBody "ana" "secret")
                  (quiet ledger)) =
  Returned (mkResponse 200 (BSession "token-ana" "ana" "ana@example.org" "Ana")).
Proof. reflexivity. Qed.

(* ------------------------------------------------------------------------- *)
(** ** The connection pool *)

Lemma pool_neutral_ret {A : Type} (a : A) : pool_neutral (ret a).
Proof. intros w. reflexivity. Qed.

Lemma pool_neutral_throw {A : Type} (e : Error) : pool_neutral (@throw A e).
Proof. intros w. reflexivity. Qed.

Lemma pool_neutral_lift {A : Type} (o : Outcome A) : pool_neutral (Auth.lift o).
Proof. intros w. reflexivity. Qed.

Lemma pool_neutral_new_Date : pool_neutral Transactions.new_Date.
Proof. intros w. reflexivity. Qed.

Lemma pool_neutral_execute {A : Type} (q : Statement A) :
  pool_neutral (execute q).
Proof.
  intros w. unfold execute.
  destruct (faults w) as [|[|] r]; try reflexivity;
    destruct (q (db w)) as [[a d]|e]; reflexivity.
Qed.

Lemma pool_neutral_bind {A B : Type} (m : M A) (k : A -> M B) :
  pool_neutral m -> (forall a, pool_neutral (k a)) -> pool_neutral (bind m k).
Proof.
  intros Hm Hk w. unfold bind. specialize (Hm w).
  destruct (m w) as [[a|e] w']; cbn [snd] in *.
  - now rewrite Hk.
  - exact Hm.
Qed.

Lemma pool_neutral_try_catch {A : Type} (m : M A) (h : Error -> M A) :
  pool_neutral m -> (forall e, pool_neutral (h e)) ->
  pool_neutral (try_catch m h).
Proof.
  intros Hm Hh w. unfold try_catch. specialize (Hm w).
  destruct (m w) as [[a|e] w']; cbn [snd] in *.
  - exact Hm.
  - now rewrite Hh.
Qed.

(** [const connection = await pool.getConnection(); try { body } finally
    { connection.release(); }] gives back what it took, however [body]
    ends and whether or not the connection could be had. *)
Lemma pool_neutral_with_connection {A : Type} (body : M A) :
  pool_neutral body ->
  pool_neutral (getConnection ;;; try_finally body release).
Proof.
  intros Hb w. unfold bind, getConnection, try_finally, release.
  destruct (faults w) as [|[|] r]; cbn [snd]; try reflexivity.
  - specialize (Hb (mkWorld (db w) (S (held w)) [] (today w))).
    destruct (body _) as [o w']. cbn [snd held] in *. now rewrite Hb.
  - specialize (Hb (mkWorld (db w) (S (held w)) r (today w))).
    destruct (body _) as [o w']. cbn [snd held] in *. now rewrite Hb.
Qed.

Ltac neutral :=
  unfold res_status, res_json, catch_500, Auth.catch_internal;
  repeat first
    [ progress cbv zeta
    | apply pool_neutral_ret
    | apply pool_neutral_throw
    | apply pool_neutral_lift
    | apply pool_neutral_new_Date
    | apply pool_neutral_execute
    | apply pool_neutral_with_connection
    | apply pool_neutral_try_catch; [|intros ?]
    | apply pool_neutral_bind; [|intros ?]
    | match goal with
      | |- pool_neutral (match ?x with _ => _ end) => destruct x
      end ].

(** Every protected route releases the connection it acquires on every
    exit path, under every fault schedule of the driver. *)
Lemma router_pool_neutral (user_id : Z) (r : App.Route) :
  pool_neutral (App.router user_id r).
Proof.
  destruct r; cbn [App.router];
    unfold Transactions.get_date_range, Transactions.get_type,
      Transactions.get_monthly, Transactions.get_summary,
      Transactions.get_summary_year_month, Transactions.get_all,
      Transactions.post, Transactions.get_id, Transactions.put_id,
      Transactions.delete_id, Categories.get_all, Categories.get_type,
      Categories.post, Categories.put_id, Categories.delete_id;
    neutral.
Qed.

(** So do the three routes of routes/auth.js. *)
Lemma auth_routes_pool_neutral
  (bcrypt_hash : string -> Z -> string)
  (bcrypt_compare : string -> string -> bool)
  (jwt_sign : Z -> string -> string -> string)
  (jwt_verify : string -> Outcome Z)
  (isEmail : string -> bool) (normalizeEmail : string -> string)
  (rb : Auth.RegisterBody) (lb : Auth.LoginBody) (authorization : option string) :
  pool_neutral (Auth.register bcrypt_hash isEmail normalizeEmail rb) /\
  pool_neutral (Auth.login bcrypt_compare jwt_sign lb) /\
  pool_neutral (Auth.validate jwt_verify authorization).
Proof.
  repeat split; unfold Auth.register, Auth.login, Auth.validate; neutral.
Qed.

(** [authenticateToken] itself releases only after the lookup returned: when
    the token is accepted, the connection is served and the lookup fails, one
    more connection is held after the request than before it. *)
Lemma middleware_holds_connection_after_failed_lookup
  (jwt_verify : string -> Outcome Z) (authorization : option string)
  (token : string) (id : Z) (next : UserRow -> M Response)
  (w : World) (rest : list bool) :
  Auth.bearer_token authorization = Some token ->
  JS.truthy_string token = true ->
  jwt_verify token = Returned id ->
  faults w = false :: true :: rest ->
  Auth.authenticateToken jwt_verify authorization next w =
    (Returned (mkResponse 500 (BError "Internal server error")),
     mkWorld (db w) (S (held w)) rest (today w)).
Proof.
  intros Hb Ht Hv Hf. destruct w as [d h f t]. cbn [faults] in Hf. subst f.
  unfold Auth.authenticateToken. rewrite Hb, Ht. cbn [negb].
  unfold Auth.lift. rewrite Hv. run_handler. reflexivity.
Qed.

(** C9. A request to a protected route with a valid token, on a driver that
    serves the connection and then fails the user lookup of
    [authenticateToken], is answered 500 and leaves one connection checked
    out: the pool does not return to zero held connections.  The same fault in
    GET /auth/validate, which wraps the same lookup in [try]/[finally], leaves
    none. *)
Theorem middleware_leaks_connection_on_failed_lookup :
  App.protected toy_verify (Some "Bearer token-1") App.CategoriesList
                (flaky ledger) =
    (Returned (mkResponse 500 (BError "Internal server error")),
     mkWorld ledger 1 [] (mkDate 2024 4 3)) /\
  held (flaky ledger) = 0%nat /\
  held (snd (App.protected toy_verify (Some "Bearer token-1") App.CategoriesList
                           (flaky ledger))) = 1%nat /\
  held (snd (Auth.validate toy_verify (Some "Bearer token-1") (flaky ledger))) = 0%nat.
Proof.
  repeat split.
Qed.

(* ------------------------------------------------------------------------- *)
(** ** Properties of the database carried through a request *)

Section Maintains.

Context (I : Db -> Prop).

Lemma maintains_ret {A : Type} (a : A) : maintains I (ret a).
Proof. intros w H. exact H. Qed.

Lemma maintains_throw {A : Type} (e : Error) : maintains I (@throw A e).
Proof. intros w H. exact H. Qed.

Lemma maintains_lift {A : Type} (o : Outcome A) : maintains I (Auth.lift o).
Proof. intros w H. exact H. Qed.

Lemma maintains_new_Date : maintains I Transactions.new_Date.
Proof. intros w H. exact H. Qed.

Lemma maintains_getConnection : maintains I getConnection.
Proof.
  intros w H. unfold getConnection. destruct (faults w) as [|[|] r]; exact H.
Qed.

Lemma maintains_release : maintains I release.
Proof. intros w H. exact H. Qed.

Lemma maintains_execute {A : Type} (q : Statement A) :
  statement_maintains I q -> maintains I (execute q).
Proof.
  intros Hq w H. unfold execute.
  destruct (faults w) as [|[|] r]; try exact H;
    destruct (q (db w)) as [[a d]|e] eqn:E; cbn [snd db]; try exact H;
    exact (Hq _ _ _ H E).
Qed.

Lemma maintains_bind {A B : Type} (m : M A) (k : A -> M B) :
  maintains I m -> (forall a, maintains I (k a)) -> maintains I (bind m k).
Proof.
  intros Hm Hk w H. unfold bind. specialize (Hm w H).
  destruct (m w) as [[a|e] w']; cbn [snd] in *.
  - now apply Hk.
  - exact Hm.
Qed.

Lemma maintains_try_catch {A : Type} (m : M A) (h : Error -> M A) :
  maintains I m -> (forall e, maintains I (h e)) -> maintains I (try_catch m h).
Proof.
  intros Hm Hh w H. unfold try_catch. specialize (Hm w H).
  destruct (m w) as [[a|e] w']; cbn [snd] in *.
  - exact Hm.
  - now apply Hh.
Qed.

Lemma maintains_try_finally {A : Type} (m : M A) (f : M unit) :
  maintains I m -> maintains I f -> maintains I (try_finally m f).
Proof.
  intros Hm Hf w H. unfold try_finally. specialize (Hm w H).
  destruct (m w) as [o w']. cbn [snd] in Hm. specialize (Hf w' Hm).
  destruct (f w') as [[u|e] w'']; exact Hf.
Qed.

Lemma statement_maintains_select {A : Type} (f : Db -> A) :
  statement_maintains I (select f).
Proof.
  intros d a d' H E. unfold select in E. now inversion E; subst.
Qed.

Lemma statement_maintains_limit (p : TransactionRow -> bool)
  (limit offset : JS.number) :
  statement_maintains I (Transactions.select_ordered_limit p limit offset).
Proof.
  intros d a d' H E. unfold Transactions.select_ordered_limit in E.
  destruct limit as [|l]; [discriminate|].
  destruct offset as [|o]; [discriminate|].
  destruct ((l <? 0) || (o <? 0)); [discriminate|]. now inversion E; subst.
Qed.

End Maintains.

Ltac carried :=
  unfold res_status, res_json, catch_500, Auth.catch_internal;
  repeat first
    [ progress cbv zeta
    | apply maintains_ret
    | apply maintains_throw
    | apply maintains_lift
    | apply maintains_new_Date
    | apply maintains_getConnection
    | apply maintains_release
    | apply maintains_try_catch; [|intros ?]
    | apply maintains_try_finally
    | apply maintains_bind; [|intros ?]
    | apply maintains_execute
    | apply statement_maintains_select
    | apply statement_maintains_limit
    | match goal with
      | |- maintains _ (match ?x with _ => _ end) => destruct x
      end ].

(** *** The constraints of the schema hold after every statement *)

Lemma NoDup_snoc {A : Type} (x : A) (l : list A) :
  NoDup l -> ~ In x l -> NoDup (l ++ [x]).
Proof.
  intros Hnd Hout. apply (Permutation_NoDup (l := x :: l)).
  - apply Permutation_cons_append.
  - now constructor.
Qed.

Lemma NoDup_map_filter {A : Type} (key : A -> Z) (p : A -> bool) (l : list A) :
  NoDup (map key l) -> NoDup (map key (filter p l)).
Proof.
  induction l as [|a l IH]; simpl; intros H; [constructor|].
  inversion H as [|k ks Hout Hrest]; subst.
  destruct (p a); simpl; [constructor|]; auto.
  intros Hin. apply Hout. apply in_map_iff in Hin as [y [Hy Hin]].
  apply in_map_iff. exists y. split; [exact Hy|]. now apply filter_In in Hin.
Qed.

Lemma fresh_key {A : Type} (key : A -> Z) (n : Z) (l : list A) :
  (forall x, In x l -> key x < n) -> ~ In n (map key l).
Proof.
  intros H Hin. apply in_map_iff in Hin as [x [Hk Hx]].
  specialize (H x Hx). lia.
Qed.

Lemma existsb_key {A : Type} (key : A -> Z) (k : Z) (l : list A) :
  existsb (fun y => key y =? k) l = true -> exists y, In y l /\ key y = k.
Proof.
  intros H. apply existsb_exists in H as [y [Hin Hy]].
  exists y. split; [exact Hin|now apply Z.eqb_eq].
Qed.

(** A statement that was accepted passed the checks of the columns: what is
    left of it is the check of the foreign keys and the change of the table. *)
Lemma insert_transaction_accepted (amount : Z) (description : string)
  (date : Date) (type : string) (categoryId user_id : Z) (notes : option string)
  (d d' : Db) (a : Z) :
  Transactions.insert_transaction amount description date type categoryId
                                  user_id notes d = Returned (a, d') ->
  (if existsb (fun c => c_id c =? categoryId) (categories d) &&
      existsb (fun u => u_id u =? user_id) (users d)
   then
     Returned
       (next_transaction_id d,
        set_transactions d
          (transactions d ++
             [mkTransaction (next_transaction_id d) amount description date
                            type categoryId user_id notes (now d) (now d)])
          (next_transaction_id d + 1))
   else Thrown Transactions.foreign_key_error) = Returned (a, d').
Proof.
  unfold Transactions.insert_transaction.
  destruct (Sql.decimal_10_2 amount); cbn [negb]; [|discriminate].
  destruct (Sql.valid_date date); cbn [negb]; [|discriminate].
  intros E. exact E.
Qed.

Lemma update_transaction_accepted (amount : Z) (description : string)
  (date : Date) (type : string) (categoryId : Z) (notes : option string)
  (id user_id : Z) (d d' : Db) (a : unit) :
  Transactions.update_transaction amount description date type categoryId
                                  notes id user_id d = Returned (a, d') ->
  (if existsb (fun t => (t_id t =? id) && (t_user_id t =? user_id))
              (transactions d) &&
      negb (existsb (fun c => c_id c =? categoryId) (categories d))
   then Thrown Transactions.foreign_key_error
   else
     Returned
       (tt,
        set_transactions d
          (map (fun t =>
                  if (t_id t =? id) && (t_user_id t =? user_id)
                  then mkTransaction (t_id t) amount description date type
                         categoryId (t_user_id t) notes (t_created_at t) (now d)
                  else t)
               (transactions d))
          (next_transaction_id d))) = Returned (a, d').
Proof.
  unfold Transactions.update_transaction.
  destruct (existsb (fun t => (t_id t =? id) && (t_user_id t =? user_id))
                    (transactions d));
    destruct (Sql.decimal_10_2 amount); cbn [andb negb]; try discriminate;
    destruct (Sql.valid_date date); cbn [andb negb]; try discriminate;
    intros E; exact E.
Qed.

Lemma consistent_insert_transaction (amount : Z) (description : string)
  (date : Date) (type : string) (categoryId user_id : Z) (notes : option string) :
  statement_maintains consistent
    (Transactions.insert_transaction amount description date type categoryId
                                     user_id notes).
Proof.
  intros d a d' [Hcu Htu Hcused Hused Href] E.
  apply insert_transaction_accepted in E.
  destruct (existsb (fun c => c_id c =? categoryId) (categories d)) eqn:Ec;
    [|discriminate].
  destruct (existsb (fun u => u_id u =? user_id) (users d)); [|discriminate].
  cbn [andb] in E. inversion E; subst; clear E.
  split; cbn [categories transactions set_transactions next_category_id
              next_transaction_id].
  - exact Hcu.
  - rewrite map_app. apply NoDup_snoc; [exact Htu|].
    now apply (fresh_key t_id).
  - exact Hcused.
  - intros t Ht. apply in_app_or in Ht as [Ht|[<-|[]]].
    + specialize (Hused t Ht). lia.
    + cbn. lia.
  - intros t Ht. apply in_app_or in Ht as [Ht|[<-|[]]].
    + now apply Href.
    + apply (existsb_key c_id) in Ec as [c [Hc Hid]]. now exists c.
Qed.

Lemma consistent_update_transaction (amount : Z) (description : string)
  (date : Date) (type : string) (categoryId : Z) (notes : option string)
  (id user_id : Z) :
  statement_maintains consistent
    (Transactions.update_transaction amount description date type categoryId
                                     notes id user_id).
Proof.
  intros d a d' [Hcu Htu Hcused Hused Href] E.
  apply update_transaction_accepted in E.
  destruct (existsb (fun t => (t_id t =? id) && (t_user_id t =? user_id))
                    (transactions d)) eqn:Em;
    destruct (existsb (fun c => c_id c =? categoryId) (categories d)) eqn:Ec;
    cbn [andb negb] in E; try discriminate;
    inversion E; subst; clear E;
    (split; cbn [categories transactions set_transactions next_category_id
                 next_transaction_id]; [exact Hcu| | exact Hcused | | ]).
  all: try (rewrite map_map; erewrite map_ext; [exact Htu|];
            intros t; now destruct ((t_id t =? id) && (t_user_id t =? user_id))).
  all: try (intros t' Ht'; apply in_map_iff in Ht' as [t [<- Ht]];
            specialize (Hused t Ht);
            now destruct ((t_id t =? id) && (t_user_id t =? user_id))).
  - intros t' Ht'. apply in_map_iff in Ht' as [t [<- Ht]].
    destruct ((t_id t =? id) && (t_user_id t =? user_id)); [|now apply Href].
    apply (existsb_key c_id) in Ec as [c [Hc Hid]]. now exists c.
  - intros t' Ht'. apply in_map_iff in Ht' as [t [<- Ht]].
    destruct ((t_id t =? id) && (t_user_id t =? user_id)); [|now apply Href].
    apply (existsb_key c_id) in Ec as [c [Hc Hid]]. now exists c.
  - intros t' Ht'. apply in_map_iff in Ht' as [t [<- Ht]].
    destruct ((t_id t =? id) && (t_user_id t =? user_id)) eqn:Et; [|now apply Href].
    exfalso. assert (Hex : existsb (fun t => (t_id t =? id) && (t_user_id t =? user_id))
                              (transactions d) = true).
    { apply existsb_exists. now exists t. }
    congruence.
Qed.

Lemma consistent_delete_transaction (id user_id : Z) :
  statement_maintains consistent (Transactions.delete_transaction id user_id).
Proof.
  intros d a d' [Hcu Htu Hcused Hused Href] E.
  unfold Transactions.delete_transaction in E. inversion E; subst; clear E.
  split; cbn [categories transactions set_transactions next_category_id
              next_transaction_id].
  - exact Hcu.
  - now apply NoDup_map_filter.
  - exact Hcused.
  - intros t Ht. apply filter_In in Ht as [Ht _]. now apply Hused.
  - intros t Ht. apply filter_In in Ht as [Ht _]. now apply Href.
Qed.

Lemma consistent_insert_category (name : string) (description color : option string)
  (type : string) (user_id : Z) :
  statement_maintains consistent
    (Categories.insert_category name description color type user_id).
Proof.
  intros d a d' [Hcu Htu Hcused Hused Href] E.
  unfold Categories.insert_category in E.
  destruct (existsb (fun u => u_id u =? user_id) (users d)); [|discriminate].
  inversion E; subst; clear E.
  split; cbn [categories transactions set_categories next_category_id
              next_transaction_id].
  - rewrite map_app. apply NoDup_snoc; [exact Hcu|].
    now apply (fresh_key c_id).
  - exact Htu.
  - intros c Hc. apply in_app_or in Hc as [Hc|[<-|[]]].
    + specialize (Hcused c Hc). lia.
    + cbn. lia.
  - exact Hused.
  - intros t Ht. destruct (Href t Ht) as [c [Hc Hid]].
    exists c. split; [|exact Hid]. apply in_or_app. now left.
Qed.

Lemma consistent_update_category (name : string) (description color : option string)
  (type : string) (id : Z) :
  statement_maintains consistent
    (Categories.update_category name description color type id).
Proof.
  intros d a d' [Hcu Htu Hcused Hused Href] E.
  unfold Categories.update_category in E. inversion E; subst; clear E.
  split; cbn [categories transactions set_categories next_category_id
              next_transaction_id].
  - rewrite map_map. erewrite map_ext; [exact Hcu|].
    intros c. now destruct (c_id c =? id).
  - exact Htu.
  - intros c' Hc'. apply in_map_iff in Hc' as [c [<- Hc]].
    specialize (Hcused c Hc). now destruct (c_id c =? id).
  - exact Hused.
  - intros t Ht. destruct (Href t Ht) as [c [Hc Hid]].
    eexists. split; [apply in_map; exact Hc|].
    now destruct (c_id c =? id).
Qed.

Lemma consistent_delete_category (id : Z) :
  statement_maintains consistent (Categories.delete_category id).
Proof.
  intros d a d' [Hcu Htu Hcused Hused Href] E.
  unfold Categories.delete_category in E.
  destruct (existsb (fun c => c_id c =? id) (categories d) &&
            existsb (fun t => t_category_id t =? id) (transactions d)) eqn:Eg;
    [discriminate|].
  inversion E; subst; clear E.
  split; cbn [categories transactions set_categories next_category_id
              next_transaction_id].
  - now apply NoDup_map_filter.
  - exact Htu.
  - intros c Hc. apply filter_In in Hc as [Hc _]. now apply Hcused.
  - exact Hused.
  - intros t Ht. destruct (Href t Ht) as [c [Hc Hid]].
    exists c. split; [|exact Hid]. apply filter_In. split; [exact Hc|].
    apply negb_true_iff, Z.eqb_neq. intros Heq.
    apply andb_false_iff in Eg as [Eg|Eg].
    + assert (Hex : existsb (fun c => c_id c =? id) (categories d) = true).
      { apply existsb_exists. exists c. split; [exact Hc|now apply Z.eqb_eq]. }
      congruence.
    + assert (Hex : existsb (fun t => t_category_id t =? id) (transactions d) = true).
      { apply existsb_exists. exists t. split; [exact Ht|]. apply Z.eqb_eq. congruence. }
      congruence.
Qed.

(** Every protected route carries the constraints of the schema from the
    database it finds to the database it leaves, under every fault schedule:
    the hypotheses on the database made above hold in every database the
    routes can produce from a consistent one. *)
Lemma router_maintains_consistency (user_id : Z) (r : App.Route) :
  maintains consistent (App.router user_id r).
Proof.
  destruct r; cbn [App.router];
    unfold Transactions.get_date_range, Transactions.get_type,
      Transactions.get_monthly, Transactions.get_summary,
      Transactions.get_summary_year_month, Transactions.get_all,
      Transactions.post, Transactions.get_id, Transactions.put_id,
      Transactions.delete_id, Categories.get_all, Categories.get_type,
      Categories.post, Categories.put_id, Categories.delete_id,
      Transactions.select_ordered, Transactions.select_total,
      Transactions.select_visible_category, Transactions.select_by_id,
      Transactions.select_by_id_and_user, Transactions.select_existing,
      Categories.select_visible, Categories.select_visible_of_type,
      Categories.select_by_id, Categories.count_transactions;
    carried;
    first [ apply consistent_insert_transaction
          | apply consistent_update_transaction
          | apply consistent_delete_transaction
          | apply consistent_insert_category
          | apply consistent_update_category
          | apply consistent_delete_category ].
Qed.

Lemma router_maintains_consistency_witness :
  consistent (db (snd (App.router 1 (App.TransactionsCreate (groceries None))
                                  (quiet ledger)))).
Proof.
  apply (router_maintains_consistency 1 (App.TransactionsCreate (groceries None))
           (quiet ledger)).
  exact ledger_consistent.
Defined.

(** *** Default rows stay in the category table *)

Lemma triple_after_select {A B : Type} (f : Db -> A) (k : A -> M B)
  (P R : Db -> Prop) :
  (forall d, P d -> R d) ->
  (forall d, P d -> triple (eq d) (k (f d)) R) ->
  triple P (bind (execute (select f)) k) R.
Proof.
  intros Hsub Hk w HP. unfold bind, execute, select.
  destruct (faults w) as [|[|] r]; cbn [snd db].
  - now apply (Hk (db w) HP).
  - now apply Hsub.
  - now apply (Hk (db w) HP).
Qed.

Lemma triple_execute_then {A B : Type} (q : Statement A) (k : A -> M B)
  (P I : Db -> Prop) :
  (forall d, P d -> I d) ->
  (forall d a d', P d -> q d = Returned (a, d') -> I d') ->
  (forall a, maintains I (k a)) ->
  triple P (bind (execute q) k) I.
Proof.
  intros Hsub Hq Hk w HP. unfold bind, execute.
  destruct (faults w) as [|[|] r]; cbn [snd db];
    try (now apply Hsub);
    destruct (q (db w)) as [[a d]|e] eqn:E; cbn [snd db];
    try (now apply Hsub);
    apply Hk; cbn [db]; exact (Hq _ _ _ HP E).
Qed.

Lemma triple_ret {A : Type} (a : A) (P R : Db -> Prop) :
  (forall d, P d -> R d) -> triple P (ret a) R.
Proof. intros Hsub w HP. now apply Hsub. Qed.

(** The row selected by id is the stored row of that id. *)
Lemma selected_is_stored (c x : CategoryRow) (rest : list CategoryRow) (d : Db) :
  stored_once c d ->
  filter (fun y => c_id y =? c_id c) (categories d) = x :: rest -> x = c.
Proof.
  intros [Hnd Hin] E. rewrite (filter_key_unique c_id c _ Hnd Hin) in E.
  congruence.
Qed.

Lemma stored_once_update (c x : CategoryRow) (rest : list CategoryRow)
  (id user_id : Z) (name : string) (description color : option string)
  (type : string) (d d' : Db) :
  c_is_default c = true ->
  stored_once c d ->
  filter (fun y => c_id y =? id) (categories d) = x :: rest ->
  Categories.default_or_foreign x user_id = false ->
  Categories.update_category name description color type id d = Returned (tt, d') ->
  stored_once c d'.
Proof.
  intros Hd Hs Hsel Hguard E.
  unfold Categories.update_category in E. inversion E; subst; clear E.
  destruct (Z.eqb_spec (c_id c) id) as [Hid|Hid].
  - exfalso. subst id. rewrite (selected_is_stored c x rest d Hs Hsel) in Hguard.
    now rewrite (default_may_not_change c user_id Hd) in Hguard.
  - destruct Hs as [Hnd Hin]. unfold stored_once. cbn [categories set_categories].
    split.
    + rewrite map_map. erewrite map_ext; [exact Hnd|].
      intros y. now destruct (c_id y =? id).
    + apply in_map_iff. exists c. split; [|exact Hin].
      destruct (Z.eqb_spec (c_id c) id); [contradiction|reflexivity].
Qed.

Lemma stored_once_delete (c x : CategoryRow) (rest : list CategoryRow)
  (id user_id : Z) (d d' : Db) :
  c_is_default c = true ->
  stored_once c d ->
  filter (fun y => c_id y =? id) (categories d) = x :: rest ->
  Categories.default_or_foreign x user_id = false ->
  Categories.delete_category id d = Returned (tt, d') ->
  stored_once c d'.
Proof.
  intros Hd Hs Hsel Hguard E.
  unfold Categories.delete_category in E.
  destruct (_ && _); [discriminate|]. inversion E; subst; clear E.
  destruct (Z.eqb_spec (c_id c) id) as [Hid|Hid].
  - exfalso. subst id. rewrite (selected_is_stored c x rest d Hs Hsel) in Hguard.
    now rewrite (default_may_not_change c user_id Hd) in Hguard.
  - destruct Hs as [Hnd Hin]. unfold stored_once. cbn [categories set_categories].
    split.
    + now apply NoDup_map_filter.
    + apply filter_In. split; [exact Hin|]. now apply negb_true_iff, Z.eqb_neq.
Qed.

(** PUT /categories/:id and DELETE /categories/:id, addressed to any id by any
    user under any fault schedule, leave a default row where it is. *)
Lemma put_id_keeps_default (user_id id : Z) (b : Categories.ReqBody)
  (c : CategoryRow) :
  c_is_default c = true ->
  maintains (stored_once c) (Categories.put_id user_id id b).
Proof.
  intros Hd. unfold Categories.put_id.
  apply maintains_try_catch; [|intros e; carried].
  destruct (Categories.categoryValidation b); [|carried].
  apply maintains_bind; [apply maintains_getConnection|intros _].
  apply maintains_try_finally; [|apply maintains_release].
  unfold Categories.select_by_id.
  apply triple_after_select; [auto|]. intros d Hs.
  destruct (filter (fun x => c_id x =? id) (categories d)) as [|x rest] eqn:Hsel.
  { apply triple_ret. now intros d' <-. }
  destruct (Categories.default_or_foreign x user_id) eqn:Hguard.
  { apply triple_ret. now intros d' <-. }
  apply triple_execute_then.
  - now intros d' <-.
  - intros d0 [] d' <- E. eapply stored_once_update; eauto.
  - intros _. carried.
Qed.

Lemma delete_id_keeps_default (user_id id : Z) (c : CategoryRow) :
  c_is_default c = true ->
  maintains (stored_once c) (Categories.delete_id user_id id).
Proof.
  intros Hd. unfold Categories.delete_id.
  apply maintains_try_catch; [|intros e; carried].
  apply maintains_bind; [apply maintains_getConnection|intros _].
  apply maintains_try_finally; [|apply maintains_release].
  unfold Categories.select_by_id, Categories.count_transactions.
  apply triple_after_select; [auto|]. intros d Hs.
  destruct (filter (fun x => c_id x =? id) (categories d)) as [|x rest] eqn:Hsel.
  { apply triple_ret. now intros d' <-. }
  destruct (Categories.default_or_foreign x user_id) eqn:Hguard.
  { apply triple_ret. now intros d' <-. }
  apply triple_after_select; [now intros d' <-|]. intros d0 <-.
  destruct (Nat.ltb 0 _).
  { apply triple_ret. now intros d' <-. }
  apply triple_execute_then.
  - now intros d' <-.
  - intros d0 [] d' <- E. eapply stored_once_delete; eauto.
  - intros _. carried.
Qed.

Lemma stored_insert_transaction (c : CategoryRow) (amount : Z)
  (description : string) (date : Date) (type : string) (categoryId user_id : Z)
  (notes : option string) :
  statement_maintains (stored c)
    (Transactions.insert_transaction amount description date type categoryId
                                     user_id notes).
Proof.
  intros d a d' H E. apply insert_transaction_accepted in E.
  destruct (_ && _); [|discriminate]. now inversion E; subst.
Qed.

Lemma stored_update_transaction (c : CategoryRow) (amount : Z)
  (description : string) (date : Date) (type : string) (categoryId : Z)
  (notes : option string) (id user_id : Z) :
  statement_maintains (stored c)
    (Transactions.update_transaction amount description date type categoryId
                                     notes id user_id).
Proof.
  intros d a d' H E. apply update_transaction_accepted in E.
  destruct (_ && _); [discriminate|]. now inversion E; subst.
Qed.

Lemma stored_delete_transaction (c : CategoryRow) (id user_id : Z) :
  statement_maintains (stored c) (Transactions.delete_transaction id user_id).
Proof.
  intros d a d' H E. unfold Transactions.delete_transaction in E.
  now inversion E; subst.
Qed.

Lemma stored_insert_category (c : CategoryRow) (name : string)
  (description color : option string) (type : string) (user_id : Z) :
  statement_maintains (stored c)
    (Categories.insert_category name description color type user_id).
Proof.
  intros d a d' H E. unfold Categories.insert_category in E.
  destruct (existsb _ _); [|discriminate]. inversion E; subst.
  unfold stored. cbn [categories set_categories]. apply in_or_app. now left.
Qed.

(** No route, for any user and under any fault schedule, removes or changes a
    default category row. *)
Lemma default_rows_survive_every_route
  (user_id : Z) (r : App.Route) (c : CategoryRow) (w : World) :
  c_is_default c = true ->
  NoDup (map c_id (categories (db w))) ->
  In c (categories (db w)) ->
  In c (categories (db (snd (App.router user_id r w)))).
Proof.
  intros Hd Hnd Hin.
  assert (Hrest : forall m : M Response, maintains (stored c) m ->
            In c (categories (db (snd (m w))))).
  { intros m Hm. now apply Hm. }
  assert (Honce : forall m : M Response, maintains (stored_once c) m ->
            In c (categories (db (snd (m w))))).
  { intros m Hm. now apply Hm. }
  destruct r; cbn [App.router];
    try (apply Honce; first [ now apply put_id_keeps_default
                            | now apply delete_id_keeps_default ]);
    apply Hrest;
    unfold Transactions.get_date_range, Transactions.get_type,
      Transactions.get_monthly, Transactions.get_summary,
      Transactions.get_summary_year_month, Transactions.get_all,
      Transactions.post, Transactions.get_id, Transactions.put_id,
      Transactions.delete_id, Categories.get_all, Categories.get_type,
      Categories.post,
      Transactions.select_ordered, Transactions.select_total,
      Transactions.select_visible_category, Transactions.select_by_id,
      Transactions.select_by_id_and_user, Transactions.select_existing,
      Categories.select_visible, Categories.select_visible_of_type,
      Categories.select_by_id;
    carried;
    first [ apply stored_insert_transaction
          | apply stored_update_transaction
          | apply stored_delete_transaction
          | apply stored_insert_category ].
Qed.

(* ------------------------------------------------------------------------- *)
(** ** Default categories: listed for everyone, changed by no one *)

(** C3 (amended). A default category is listed for every user, by GET / and
    by GET /type/:type for its own type.  PUT on it answers 403 when the body
    passes validation and 400 when it does not (validation runs first);
    DELETE on it answers 403; in each of these cases the world, and so the
    row, is left as it was.  And whatever route is requested by whatever
    user, the row is still in the category table afterwards. *)
Theorem default_category_listed_and_protected
  (w : World) (user_id : Z) (c : CategoryRow) :
  faults w = [] ->
  NoDup (map c_id (categories (db w))) ->
  In c (categories (db w)) ->
  c_is_default c = true ->
  JS.includes ["INCOME"; "EXPENSE"] (c_type c) = true ->
  (exists l, Categories.get_all user_id w =
               (Returned (mkResponse 200 (BCategories l)), w) /\ In c l)
  /\
  (exists l, Categories.get_type user_id (c_type c) w =
               (Returned (mkResponse 200 (BCategories l)), w) /\ In c l)
  /\
  (forall b, Categories.categoryValidation b = [] ->
     Categories.put_id user_id (c_id c) b w =
       (Returned (mkResponse 403 (BError "Cannot modify this category")), w))
  /\
  (forall b, Categories.categoryValidation b <> [] ->
     Categories.put_id user_id (c_id c) b w =
       (Returned (mkResponse 400 (BValidation (Categories.categoryValidation b))), w))
  /\
  Categories.delete_id user_id (c_id c) w =
    (Returned (mkResponse 403 (BError "Cannot delete this category")), w)
  /\
  (forall (any_user : Z) (r : App.Route),
     In c (categories (db (snd (App.router any_user r w))))).
Proof.
  intros Hf Hnd Hin Hd Hty.
  assert (Hall : forall (any_user : Z) (r : App.Route),
            In c (categories (db (snd (App.router any_user r w))))).
  { intros any_user r. now apply default_rows_survive_every_route. }
  destruct w as [d h f t]. cbn [faults db] in *. subst f.
  split; [|split; [|split; [|split; [|split; [|exact Hall]]]]].
  - eexists. split.
    + unfold Categories.get_all, Categories.select_visible. run_handler.
      reflexivity.
    + apply order_by_In, filter_In. split; [exact Hin|].
      now apply default_is_visible.
  - eexists. split.
    + unfold Categories.get_type, Categories.select_visible_of_type.
      rewrite Hty. run_handler. reflexivity.
    + apply order_by_In, filter_In. split; [exact Hin|].
      rewrite (default_is_visible _ _ Hd), String.eqb_refl. reflexivity.
  - intros b Hb. unfold Categories.put_id, Categories.select_by_id.
    rewrite Hb. run_handler.
    rewrite (filter_key_unique c_id c _ Hnd Hin).
    now rewrite (default_may_not_change c user_id Hd).
  - intros b Hb. unfold Categories.put_id.
    destruct (Categories.categoryValidation b); [now destruct Hb|reflexivity].
  - unfold Categories.delete_id, Categories.select_by_id. run_handler.
    rewrite (filter_key_unique c_id c _ Hnd Hin).
    now rewrite (default_may_not_change c user_id Hd).
Qed.

Lemma default_category_listed_and_protected_witness :
  Categories.put_id 7 1 (Categories.mkReqBody "Wages" None None "INCOME")
                    (quiet ledger) =
    (Returned (mkResponse 403 (BError "Cannot modify this category")), quiet ledger)
  /\
  Categories.delete_id 7 1 (quiet ledger) =
    (Returned (mkResponse 403 (BError "Cannot delete this category")), quiet ledger).
Proof.
  destruct (default_category_listed_and_protected (quiet ledger) 7 salary)
    as [_ [_ [Hput [_ [Hdel _]]]]].
  - reflexivity.
  - exact ledger_category_ids.
  - simpl. auto.
  - reflexivity.
  - reflexivity.
  - split; [|exact Hdel].
    apply (Hput (Categories.mkReqBody "Wages" None None "INCOME")). reflexivity.
Defined.

(** C3 as stated fails: an update attempt on the default category [salary]
    with an empty name is answered 400 by the validation, not 403. *)
Lemma default_category_update_answers_400 :
  c_is_default salary = true /\
  fst (Categories.put_id 1 (c_id salary)
         (Categories.mkReqBody "" None None "INCOME") (quiet ledger)) =
    Returned (mkResponse 400
      (BValidation ["Category name must be between 2 and 100 characters"])).
Proof.
  split; reflexivity.
Qed.

(* ------------------------------------------------------------------------- *)
(** ** The seeded database *)

Lemma distinct_NoDup (l : list Z) : distinct l = true -> NoDup l.
Proof.
  induction l as [|x r IH]; simpl; intros H; [constructor|].
  apply andb_true_iff in H as [Hx Hr]. constructor; [|now apply IH].
  intros Hin. apply negb_true_iff in Hx.
  assert (Hex : existsb (Z.eqb x) r = true).
  { apply existsb_exists. exists x. split; [exact Hin|apply Z.eqb_refl]. }
  congruence.
Qed.

(** On freshly created tables [initializeDatabase] stores twelve default
    categories, four of type INCOME and eight of type EXPENSE, owned by no
    user, gives the connection back, and stores nothing when run again. *)
Lemma seed_of_created_tables :
  Database.initializeDatabase (quiet Database.created) = (Returned tt, quiet seeded) /\
  List.length (categories seeded) = 12%nat /\
  forallb (fun c => c_is_default c &&
                    match c_user_id c with None => true | Some _ => false end)
          (categories seeded) = true /\
  List.length (filter (fun c => (c_type c =? "INCOME")%string)
                      (categories seeded)) = 4%nat /\
  List.length (filter (fun c => (c_type c =? "EXPENSE")%string)
                      (categories seeded)) = 8%nat /\
  Database.initializeDatabase (quiet seeded) = (Returned tt, quiet seeded).
Proof.
  repeat split; vm_compute; reflexivity.
Qed.

Lemma seeded_database_consistent : consistent seeded.
Proof.
  split.
  - apply distinct_NoDup. vm_compute. reflexivity.
  - constructor.
  - intros c Hc. apply (proj1 (Forall_forall (fun c => c_id c < 13) (categories seeded)));
      [|exact Hc].
    repeat constructor.
  - intros t [].
  - intros t [].
Qed.

(* ------------------------------------------------------------------------- *)
(** ** No exception escapes a handler *)

Lemma answers_within_ret (codes : list Z) (r : Response) :
  In (status r) codes -> answers_within codes (ret r).
Proof. intros H w. exact H. Qed.

Lemma answers_within_throw (codes : list Z) (e : Error) :
  answers_within codes (throw e).
Proof. intros w. exact I. Qed.

Lemma answers_within_bind {A : Type} (codes : list Z) (m : M A)
  (k : A -> M Response) :
  (forall a, answers_within codes (k a)) -> answers_within codes (bind m k).
Proof.
  intros Hk w. unfold bind. destruct (m w) as [[a|e] w']; [apply Hk|exact I].
Qed.

Lemma answers_within_try_finally (codes : list Z) (m : M Response) :
  answers_within codes m -> answers_within codes (try_finally m release).
Proof.
  intros Hm w. unfold try_finally, release. specialize (Hm w).
  destruct (m w) as [o w']. exact Hm.
Qed.

Lemma answers_within_try_catch (codes : list Z) (m : M Response)
  (h : Error -> M Response) :
  answers_within codes m -> (forall e, answers_within codes (h e)) ->
  answers_within codes (try_catch m h).
Proof.
  intros Hm Hh w. unfold try_catch. specialize (Hm w).
  destruct (m w) as [[r|e] w']; [exact Hm|apply Hh].
Qed.

(** A handler whose [catch] always answers never lets an error escape. *)
Lemma always_answers_try_catch (codes : list Z) (m : M Response)
  (h : Error -> M Response) :
  answers_within codes m -> (forall e, always_answers codes (h e)) ->
  always_answers codes (try_catch m h).
Proof.
  intros Hm Hh w. unfold try_catch. specialize (Hm w).
  destruct (m w) as [[r|e] w'] eqn:E; cbn [fst] in *.
  - now exists r.
  - apply Hh.
Qed.

Lemma always_answers_ret (codes : list Z) (r : Response) :
  In (status r) codes -> always_answers codes (ret r).
Proof. intros H w. now exists r. Qed.

Ltac answered :=
  unfold res_status, res_json;
  repeat first
    [ progress cbv zeta
    | apply answers_within_throw
    | apply answers_within_ret; cbn; tauto
    | apply answers_within_try_finally
    | apply answers_within_bind; intros ?
    | match goal with
      | |- answers_within _ (match ?x with _ => _ end) => destruct x
      end ].

Lemma router_always_answers (user_id : Z) (r : App.Route) :
  always_answers route_statuses (App.router user_id r).
Proof.
  destruct r; cbn [App.router];
    unfold Transactions.get_date_range, Transactions.get_type,
      Transactions.get_monthly, Transactions.get_summary,
      Transactions.get_summary_year_month, Transactions.get_all,
      Transactions.post, Transactions.get_id, Transactions.put_id,
      Transactions.delete_id, Categories.get_all, Categories.get_type,
      Categories.post, Categories.put_id, Categories.delete_id;
    (apply always_answers_try_catch;
     [ answered
     | intros e; unfold catch_500, res_status; apply always_answers_ret;
       cbn; tauto ]).
Qed.

(** Whatever the user, the request and the faults of the driver, no protected
    route lets an exception escape its handler, and a response it sends has
    one of the statuses 200, 201, 400, 403, 404 and 500. *)
Theorem no_exception_escapes_a_route (user_id : Z) (r : App.Route) (w : World) :
  (forall e, fst (App.router user_id r w) <> Thrown e) /\
  (forall response,
     fst (App.router user_id r w) = Returned response ->
     status response = 200 \/ status response = 201 \/ status response = 400 \/
     status response = 403 \/ status response = 404 \/ status response = 500).
Proof.
  destruct (router_always_answers user_id r w) as [sent [Hreturned Hstatus]].
  split.
  - intros e He. rewrite Hreturned in He. discriminate He.
  - intros response Hresponse. rewrite Hreturned in Hresponse.
    injection Hresponse as <-.
    unfold route_statuses in Hstatus. cbn [In] in Hstatus.
    repeat (destruct Hstatus as [Hstatus|Hstatus]; [auto 10|]).
    destruct Hstatus.
Qed.

Lemma no_exception_escapes_a_route_witness :
  status (mkResponse 500 (BError "database driver failure")) = 200 \/
  status (mkResponse 500 (BError "database driver failure")) = 201 \/
  status (mkResponse 500 (BError "database driver failure")) = 400 \/
  status (mkResponse 500 (BError "database driver failure")) = 403 \/
  status (mkResponse 500 (BError "database driver failure")) = 404 \/
  status (mkResponse 500 (BError "database driver failure")) = 500.
Proof.
  apply (proj2 (no_exception_escapes_a_route 1 App.CategoriesList
                  (flaky ledger))).
  reflexivity.
Defined.

(* ------------------------------------------------------------------------- *)
(** ** A request changes no transaction of another user *)

Section OthersTransactions.

Context (user_id : Z) (l : list TransactionRow).

Let others_are (d : Db) : Prop := of_others user_id (transactions d) = l.

Lemma of_others_map (f : TransactionRow -> TransactionRow)
  (rows : list TransactionRow) :
  (forall t, t_user_id (f t) = t_user_id t) ->
  (forall t, t_user_id t <> user_id -> f t = t) ->
  of_others user_id (map f rows) = of_others user_id rows.
Proof.
  intros Hu Hf. unfold of_others.
  induction rows as [|t rows IH]; [reflexivity|]. cbn [map filter].
  rewrite Hu. destruct (Z.eqb_spec (t_user_id t) user_id) as [E|E]; cbn [negb].
  - exact IH.
  - rewrite (Hf t E). now f_equal.
Qed.

Lemma of_others_filter (hit : TransactionRow -> bool) (rows : list TransactionRow) :
  (forall t, hit t = true -> t_user_id t = user_id) ->
  of_others user_id (filter (fun t => negb (hit t)) rows) = of_others user_id rows.
Proof.
  intros Hh. unfold of_others.
  induction rows as [|t rows IH]; [reflexivity|]. cbn [filter].
  destruct (hit t) eqn:E; cbn [negb filter].
  - rewrite (Hh t E), Z.eqb_refl. exact IH.
  - destruct (negb (t_user_id t =? user_id)); [now f_equal|exact IH].
Qed.

Lemma others_insert_transaction (amount : Z) (description : string)
  (date : Date) (type : string) (categoryId : Z) (notes : option string) :
  statement_maintains others_are
    (Transactions.insert_transaction amount description date type categoryId
                                     user_id notes).
Proof.
  intros d a d' H E. apply insert_transaction_accepted in E.
  destruct (_ && _); [|discriminate]. inversion E; subst; clear E.
  unfold others_are, of_others in *. cbn [transactions set_transactions].
  rewrite filter_app. cbn [filter t_user_id]. rewrite Z.eqb_refl. cbn [negb].
  now rewrite app_nil_r.
Qed.

Lemma others_update_transaction (amount : Z) (description : string)
  (date : Date) (type : string) (categoryId : Z) (notes : option string)
  (id : Z) :
  statement_maintains others_are
    (Transactions.update_transaction amount description date type categoryId
                                     notes id user_id).
Proof.
  intros d a d' H E. apply update_transaction_accepted in E.
  destruct (_ && _); [discriminate|]. inversion E; subst; clear E.
  unfold others_are in *. cbn [transactions set_transactions].
  rewrite of_others_map; [exact H| |].
  - intros t. now destruct ((t_id t =? id) && (t_user_id t =? user_id)).
  - intros t Ht. destruct (Z.eqb_spec (t_user_id t) user_id); [contradiction|].
    now rewrite andb_false_r.
Qed.

Lemma others_delete_transaction (id : Z) :
  statement_maintains others_are (Transactions.delete_transaction id user_id).
Proof.
  intros d a d' H E. unfold Transactions.delete_transaction in E.
  inversion E; subst; clear E.
  unfold others_are in *. cbn [transactions set_transactions].
  rewrite of_others_filter; [exact H|].
  intros t Ht. apply andb_true_iff in Ht as [_ Ht]. now apply Z.eqb_eq.
Qed.

Lemma others_insert_category (name : string) (description color : option string)
  (type : string) (owner : Z) :
  statement_maintains others_are
    (Categories.insert_category name description color type owner).
Proof.
  intros d a d' H E. unfold Categories.insert_category in E.
  destruct (existsb _ _); [|discriminate]. now inversion E; subst.
Qed.

Lemma others_update_category (name : string) (description color : option string)
  (type : string) (id : Z) :
  statement_maintains others_are
    (Categories.update_category name description color type id).
Proof.
  intros d a d' H E. unfold Categories.update_category in E.
  now inversion E; subst.
Qed.

Lemma others_delete_category (id : Z) :
  statement_maintains others_are (Categories.delete_category id).
Proof.
  intros d a d' H E. unfold Categories.delete_category in E.
  destruct (_ && _); [discriminate|]. now inversion E; subst.
Qed.

Lemma router_maintains_others (r : App.Route) :
  maintains others_are (App.router user_id r).
Proof.
  destruct r; cbn [App.router];
    unfold Transactions.get_date_range, Transactions.get_type,
      Transactions.get_monthly, Transactions.get_summary,
      Transactions.get_summary_year_month, Transactions.get_all,
      Transactions.post, Transactions.get_id, Transactions.put_id,
      Transactions.delete_id, Categories.get_all, Categories.get_type,
      Categories.post, Categories.put_id, Categories.delete_id,
      Transactions.select_ordered, Transactions.select_total,
      Transactions.select_visible_category, Transactions.select_by_id,
      Transactions.select_by_id_and_user, Transactions.select_existing,
      Categories.select_visible, Categories.select_visible_of_type,
      Categories.select_by_id, Categories.count_transactions;
    carried;
    first [ apply others_insert_transaction
          | apply others_update_transaction
          | apply others_delete_transaction
          | apply others_insert_category
          | apply others_update_category
          | apply others_delete_category ].
Qed.

End OthersTransactions.

(** Whatever a user requests from the protected routes, and whatever faults
    the driver raises, the transactions of all other users are afterwards the
    same rows in the same order as before. *)
Theorem requests_leave_other_users_transactions
  (user_id : Z) (r : App.Route) (w : World) :
  of_others user_id (transactions (db (snd (App.router user_id r w)))) =
  of_others user_id (transactions (db w)).
Proof.
  apply (router_maintains_others user_id
           (of_others user_id (transactions (db w))) r w).
  reflexivity.
Qed.

(* ------------------------------------------------------------------------- *)
(** ** A request changes no category of another user *)

Section OthersCategories.

Context (user_id : Z) (c : CategoryRow).

Hypothesis not_own : Categories.default_or_foreign c user_id = true.

Lemma foreign_kept_by_update (x : CategoryRow) (rest : list CategoryRow)
  (id : Z) (name : string) (description color : option string)
  (type : string) (d d' : Db) :
  stored_once c d ->
  filter (fun y => c_id y =? id) (categories d) = x :: rest ->
  Categories.default_or_foreign x user_id = false ->
  Categories.update_category name description color type id d = Returned (tt, d') ->
  stored_once c d'.
Proof.
  intros Hs Hsel Hguard E.
  unfold Categories.update_category in E. inversion E; subst; clear E.
  destruct (Z.eqb_spec (c_id c) id) as [Hid|Hid].
  - exfalso. subst id. rewrite (selected_is_stored c x rest d Hs Hsel) in Hguard.
    congruence.
  - destruct Hs as [Hnd Hin]. unfold stored_once. cbn [categories set_categories].
    split.
    + rewrite map_map. erewrite map_ext; [exact Hnd|].
      intros y. now destruct (c_id y =? id).
    + apply in_map_iff. exists c. split; [|exact Hin].
      destruct (Z.eqb_spec (c_id c) id); [contradiction|reflexivity].
Qed.

Lemma foreign_kept_by_delete (x : CategoryRow) (rest : list CategoryRow)
  (id : Z) (d d' : Db) :
  stored_once c d ->
  filter (fun y => c_id y =? id) (categories d) = x :: rest ->
  Categories.default_or_foreign x user_id = false ->
  Categories.delete_category id d = Returned (tt, d') ->
  stored_once c d'.
Proof.
  intros Hs Hsel Hguard E.
  unfold Categories.delete_category in E.
  destruct (_ && _); [discriminate|]. inversion E; subst; clear E.
  destruct (Z.eqb_spec (c_id c) id) as [Hid|Hid].
  - exfalso. subst id. rewrite (selected_is_stored c x rest d Hs Hsel) in Hguard.
    congruence.
  - destruct Hs as [Hnd Hin]. unfold stored_once. cbn [categories set_categories].
    split.
    + now apply NoDup_map_filter.
    + apply filter_In. split; [exact Hin|]. now apply negb_true_iff, Z.eqb_neq.
Qed.

Lemma put_id_keeps_foreign (id : Z) (b : Categories.ReqBody) :
  maintains (stored_once c) (Categories.put_id user_id id b).
Proof.
  unfold Categories.put_id.
  apply maintains_try_catch; [|intros e; carried].
  destruct (Categories.categoryValidation b); [|carried].
  apply maintains_bind; [apply maintains_getConnection|intros _].
  apply maintains_try_finally; [|apply maintains_release].
  unfold Categories.select_by_id.
  apply triple_after_select; [auto|]. intros d Hs.
  destruct (filter (fun x => c_id x =? id) (categories d)) as [|x rest] eqn:Hsel.
  { apply triple_ret. now intros d' <-. }
  destruct (Categories.default_or_foreign x user_id) eqn:Hguard.
  { apply triple_ret. now intros d' <-. }
  apply triple_execute_then.
  - now intros d' <-.
  - intros d0 [] d' <- E. eapply foreign_kept_by_update; eauto.
  - intros _. carried.
Qed.

Lemma delete_id_keeps_foreign (id : Z) :
  maintains (stored_once c) (Categories.delete_id user_id id).
Proof.
  unfold Categories.delete_id.
  apply maintains_try_catch; [|intros e; carried].
  apply maintains_bind; [apply maintains_getConnection|intros _].
  apply maintains_try_finally; [|apply maintains_release].
  unfold Categories.select_by_id, Categories.count_transactions.
  apply triple_after_select; [auto|]. intros d Hs.
  destruct (filter (fun x => c_id x =? id) (categories d)) as [|x rest] eqn:Hsel.
  { apply triple_ret. now intros d' <-. }
  destruct (Categories.default_or_foreign x user_id) eqn:Hguard.
  { apply triple_ret. now intros d' <-. }
  apply triple_after_select; [now intros d' <-|]. intros d0 <-.
  destruct (Nat.ltb 0 _).
  { apply triple_ret. now intros d' <-. }
  apply triple_execute_then.
  - now intros d' <-.
  - intros d0 [] d' <- E. eapply foreign_kept_by_delete; eauto.
  - intros _. carried.
Qed.

End OthersCategories.

(** Whatever a user requests from the protected routes, and whatever faults
    the driver raises, a category row that is default or owned by someone else
    is afterwards still in the category table, unchanged. *)
Theorem requests_leave_other_users_categories
  (user_id : Z) (r : App.Route) (c : CategoryRow) (w : World) :
  Categories.default_or_foreign c user_id = true ->
  NoDup (map c_id (categories (db w))) ->
  In c (categories (db w)) ->
  In c (categories (db (snd (App.router user_id r w)))).
Proof.
  intros Hc Hnd Hin.
  assert (Hrest : forall m : M Response, maintains (stored c) m ->
            In c (categories (db (snd (m w))))).
  { intros m Hm. now apply Hm. }
  assert (Honce : forall m : M Response, maintains (stored_once c) m ->
            In c (categories (db (snd (m w))))).
  { intros m Hm. now apply Hm. }
  destruct r; cbn [App.router];
    try (apply Honce; first [ now apply put_id_keeps_foreign
                            | now apply delete_id_keeps_foreign ]);
    apply Hrest;
    unfold Transactions.get_date_range, Transactions.get_type,
      Transactions.get_monthly, Transactions.get_summary,
      Transactions.get_summary_year_month, Transactions.get_all,
      Transactions.post, Transactions.get_id, Transactions.put_id,
      Transactions.delete_id, Categories.get_all, Categories.get_type,
      Categories.post,
      Transactions.select_ordered, Transactions.select_total,
      Transactions.select_visible_category, Transactions.select_by_id,
      Transactions.select_by_id_and_user, Transactions.select_existing,
      Categories.select_visible, Categories.select_visible_of_type,
      Categories.select_by_id;
    carried;
    first [ apply stored_insert_transaction
          | apply stored_update_transaction
          | apply stored_delete_transaction
          | apply stored_insert_category ].
Qed.

Lemma requests_leave_other_users_categories_witness :
  In food (categories (db (snd (App.router 7 (App.CategoriesDelete 2)
                                           (quiet (without_references 2 ledger)))))) /\
  In food (categories (db (snd (App.router 7
     (App.CategoriesUpdate 2 (Categories.mkReqBody "Mine" None None "INCOME"))
     (quiet ledger))))).
Proof.
  split.
  - apply (requests_leave_other_users_categories 7 (App.CategoriesDelete 2) food
             (quiet (without_references 2 ledger))).
    + reflexivity.
    + exact ledger_category_ids.
    + simpl. auto.
  - apply (requests_leave_other_users_categories 7
             (App.CategoriesUpdate 2 (Categories.mkReqBody "Mine" None None "INCOME"))
             food (quiet ledger)).
    + reflexivity.
    + exact ledger_category_ids.
    + simpl. auto.
Defined.

(* ------------------------------------------------------------------------- *)
(** ** A listing shows only the transactions of the user *)

Section Responds.

Context (P : Response -> Prop).

Lemma responds_ret (r : Response) : P r -> responds P (ret r).
Proof. intros H w. exact H. Qed.

Lemma responds_throw (e : Error) : responds P (throw e).
Proof. intros w. exact I. Qed.

Lemma responds_bind {A : Type} (m : M A) (k : A -> M Response) :
  (forall a, responds P (k a)) -> responds P (bind m k).
Proof.
  intros Hk w. unfold bind. destruct (m w) as [[a|e] w']; [apply Hk|exact I].
Qed.

Lemma responds_try_finally (m : M Response) :
  responds P m -> responds P (try_finally m release).
Proof.
  intros Hm w. unfold try_finally, release. specialize (Hm w).
  destruct (m w) as [o w']. exact Hm.
Qed.

Lemma responds_try_catch (m : M Response) (h : Error -> M Response) :
  responds P m -> (forall e, responds P (h e)) -> responds P (try_catch m h).
Proof.
  intros Hm Hh w. unfold try_catch. specialize (Hm w).
  destruct (m w) as [[r|e] w']; [exact Hm|apply Hh].
Qed.

End Responds.

Ltac not_a_listing :=
  unfold res_status, res_json, catch_500;
  repeat first
    [ progress cbv zeta
    | apply responds_throw
    | apply responds_ret; intros ? ?; discriminate
    | apply responds_try_finally
    | apply responds_try_catch; [|intros ?]
    | apply responds_bind; intros ?
    | match goal with
      | |- responds _ (match ?x with _ => _ end) => destruct x
      end
    | match goal with
      | |- context [Categories.first_row ?x] => destruct x
      end ].

Lemma In_limit_offset {A : Type} (limit offset : Z) (x : A) (l : list A) :
  In x (Sql.limit_offset limit offset l) -> In x l.
Proof.
  unfold Sql.limit_offset. intros H.
  assert (H1 : In x (skipn (Z.to_nat offset) l)).
  { rewrite <- (firstn_skipn (Z.to_nat limit) (skipn (Z.to_nat offset) l)).
    apply in_or_app. now left. }
  rewrite <- (firstn_skipn (Z.to_nat offset) l). apply in_or_app. now right.
Qed.

Lemma joined_row_selected (p : TransactionRow -> bool) (d : Db)
  (j : Transactions.JoinedRow) :
  In j (Transactions.joined_where p d) ->
  In (Transactions.row j) (transactions d) /\ p (Transactions.row j) = true.
Proof.
  unfold Transactions.joined_where, Transactions.join_categories. intros H.
  apply in_flat_map in H as [t [Ht Hj]].
  apply in_map_iff in Hj as [c [<- _]]. cbn [Transactions.row].
  now apply filter_In in Ht.
Qed.

Lemma select_ordered_where (p : TransactionRow -> bool) :
  selects_where p (Transactions.select_ordered p).
Proof.
  intros d rows d' E j Hj. unfold Transactions.select_ordered, select in E.
  inversion E; subst; clear E.
  apply order_by_In in Hj. now apply joined_row_selected.
Qed.

Lemma select_ordered_limit_where (p : TransactionRow -> bool)
  (limit offset : JS.number) :
  selects_where p (Transactions.select_ordered_limit p limit offset).
Proof.
  intros d rows d' E j Hj. unfold Transactions.select_ordered_limit in E.
  destruct limit as [|l]; [discriminate|].
  destruct offset as [|o]; [discriminate|].
  destruct ((l <? 0) || (o <? 0)); [discriminate|].
  inversion E; subst; clear E.
  apply In_limit_offset, order_by_In in Hj. now apply joined_row_selected.
Qed.

(** The shape shared by the listing routes, under any fault schedule. *)
Lemma listing_answer (p : TransactionRow -> bool)
  (q : Statement (list Transactions.JoinedRow)) (w : World) (s : Z)
  (l : list Json.Transaction) :
  selects_where p q ->
  fst (try_catch
         (getConnection ;;;
          try_finally
            (transactions <- execute q ;;
             res_json (BTransactions
               (map Transactions.formatTransactionResponse transactions)))
            release)
         catch_500 w) = Returned (mkResponse s (BTransactions l)) ->
  forall x, In x l ->
    exists t, In t (transactions (db w)) /\ p t = true /\ t_id t = Json.id x.
Proof.
  intros Hq. unfold try_catch, bind, try_finally, getConnection, execute,
    release, res_json, ret, catch_500, res_status.
  destruct w as [d h f t].
  cbn [faults db held today fst snd].
  destruct f as [|[|] f]; cbn [faults db held today fst snd];
    try discriminate;
    try (destruct f as [|[|] f]; cbn [faults db held today fst snd];
         try discriminate);
    destruct (q d) as [[rows d']|e] eqn:E;
    cbn [faults db held today fst snd]; try discriminate;
    intros H x Hx; inversion H; subst; clear H;
    apply in_map_iff in Hx as [j [<- Hj]];
    destruct (Hq d rows d' E j Hj) as [Hin Hp];
    exists (Transactions.row j); repeat split; assumption.
Qed.

Lemma other_routes_list_nothing (user_id : Z) (r : App.Route) :
  match r with
  | App.TransactionsDateRange _ _ | App.TransactionsType _
  | App.TransactionsMonthly _ _ | App.TransactionsList _ _ => True
  | _ => responds no_listing (App.router user_id r)
  end.
Proof.
  destruct r; try exact I; cbn [App.router];
    unfold Transactions.get_summary,
      Transactions.get_summary_year_month,
      Transactions.post, Transactions.get_id, Transactions.put_id,
      Transactions.delete_id, Categories.get_all, Categories.get_type,
      Categories.post, Categories.put_id, Categories.delete_id;
    not_a_listing.
Qed.

Lemma owned_conjunct (user_id : Z) (t : TransactionRow) (rest : bool) :
  Transactions.owned_by user_id t && rest = true -> t_user_id t = user_id.
Proof.
  intros H. apply andb_true_iff in H as [H _]. now apply Z.eqb_eq.
Qed.

(** Whatever route a user requests and whatever faults the driver raises, if
    the answer is a list of transactions then every entry of it is, by its id,
    a transaction of that user in the database. *)
Theorem listings_show_only_own_transactions
  (user_id : Z) (r : App.Route) (w : World) (s : Z) (l : list Json.Transaction) :
  fst (App.router user_id r w) = Returned (mkResponse s (BTransactions l)) ->
  forall x, In x l ->
    exists t, In t (transactions (db w)) /\ t_user_id t = user_id /\
              t_id t = Json.id x.
Proof.
  intros H x Hx.
  pose proof (other_routes_list_nothing user_id r) as Hother.
  destruct r; cbn [App.router] in *;
    try (specialize (Hother w); rewrite H in Hother; now destruct (Hother l)).
  - unfold Transactions.get_date_range in H. cbv zeta in H.
    destruct (check (isISO8601 startDate) _ ++ check (isISO8601 endDate) _);
      [|discriminate H].
    destruct (listing_answer _ _ _ _ _ (select_ordered_where _) H x Hx)
      as [t [Hin [Hp Hid]]].
    exists t. repeat split; try assumption.
    apply andb_true_iff in Hp as [Hp _]. now apply owned_conjunct in Hp.
  - unfold Transactions.get_type in H.
    destruct (negb (JS.includes _ type)); [discriminate H|].
    destruct (listing_answer _ _ _ _ _ (select_ordered_where _) H x Hx)
      as [t [Hin [Hp Hid]]].
    exists t. repeat split; try assumption. now apply owned_conjunct in Hp.
  - unfold Transactions.get_monthly in H.
    destruct (Transactions.invalid_year_or_month year month); [discriminate H|].
    destruct (listing_answer _ _ _ _ _ (select_ordered_where _) H x Hx)
      as [t [Hin [Hp Hid]]].
    exists t. repeat split; try assumption.
    apply andb_true_iff in Hp as [Hp _]. now apply owned_conjunct in Hp.
  - unfold Transactions.get_all in H. cbv zeta in H.
    destruct (JS.truthy (JS.parseInt_opt page) && JS.truthy (JS.parseInt_opt size)).
    + destruct (listing_answer _ _ _ _ _ (select_ordered_limit_where _ _ _) H x Hx)
        as [t [Hin [Hp Hid]]].
      exists t. repeat split; try assumption. now apply Z.eqb_eq.
    + destruct (listing_answer _ _ _ _ _ (select_ordered_where _) H x Hx)
        as [t [Hin [Hp Hid]]].
      exists t. repeat split; try assumption. now apply Z.eqb_eq.
Qed.

Lemma listings_show_only_own_transactions_witness :
  exists t, In t (transactions ledger) /\ t_user_id t = 1 /\ t_id t = 3.
Proof.
  apply (listings_show_only_own_transactions 1 (App.TransactionsList None None)
           (quiet ledger) 200
           (map Transactions.formatTransactionResponse
              (Sql.order_by Transactions.newest_first
                 (Transactions.joined_where (Transactions.owned_by 1) ledger)))
           eq_refl
           (Transactions.formatTransactionResponse
              (Transactions.mkJoined
                 (mkTransaction 3 830 "Coffee" (mkDate 2024 3 20) "EXPENSE" 2 1
                                None 12 12)
                 "Food" "EXPENSE" (Some "#FF5722")))).
  simpl. auto.
Defined.

(* ------------------------------------------------------------------------- *)
(** ** Transactions the user does not own *)

Lemma set_transactions_same (d : Db) :
  set_transactions d (transactions d) (next_transaction_id d) = d.
Proof. now destruct d. Qed.

Lemma filter_all {A : Type} (p : A -> bool) (l : list A) :
  (forall x, In x l -> p x = true) -> filter p l = l.
Proof.
  intros H. induction l as [|a l IH]; [reflexivity|]. simpl.
  rewrite (H a (or_introl eq_refl)). f_equal. apply IH.
  intros x Hx. apply H. now right.
Qed.

Lemma not_owned_none_joined (user_id id : Z) (d : Db) :
  (forall t, In t (transactions d) -> t_id t = id -> t_user_id t <> user_id) ->
  Transactions.joined_where
    (fun t => (t_id t =? id) && (t_user_id t =? user_id)) d = [].
Proof.
  intros H. unfold Transactions.joined_where.
  now rewrite (not_owned_not_selected _ _ _ H).
Qed.

(** An id under which the user owns no transaction, whether the id is unused
    or belongs to a transaction of somebody else, is answered 404 by GET,
    DELETE and (for a valid body) PUT, with the same message, and the world is
    left as it was. *)
Theorem foreign_transaction_not_found (w : World) (user_id id : Z) :
  faults w = [] ->
  (forall t, In t (transactions (db w)) -> t_id t = id -> t_user_id t <> user_id) ->
  Transactions.get_id user_id id w =
    (Returned (mkResponse 404 (BError "Transaction not found")), w) /\
  Transactions.delete_id user_id id w =
    (Returned (mkResponse 404 (BError "Transaction not found")), w) /\
  (forall b, Transactions.transactionValidation b = [] ->
     Transactions.put_id user_id id b w =
       (Returned (mkResponse 404 (BError "Transaction not found")), w)).
Proof.
  intros Hf Hnone. destruct w as [d h f t]. cbn [faults db] in *. subst f.
  repeat split.
  - unfold Transactions.get_id, Transactions.select_by_id_and_user. run_handler.
    now rewrite (not_owned_none_joined _ _ _ Hnone).
  - unfold Transactions.delete_id, Transactions.delete_transaction. run_handler.
    rewrite (not_owned_not_selected _ _ _ Hnone).
    cbn [List.length Nat.eqb faults db held today fst snd Nat.pred].
    rewrite filter_all.
    + now rewrite set_transactions_same.
    + intros x Hx. apply negb_true_iff.
      destruct (Z.eqb_spec (t_id x) id) as [E|E]; [|reflexivity]. simpl.
      apply Z.eqb_neq. now apply Hnone.
  - intros b Hv. unfold Transactions.put_id, Transactions.select_existing.
    rewrite Hv. run_handler.
    now rewrite (not_owned_not_selected _ _ _ Hnone).
Qed.

Lemma foreign_transaction_not_found_witness :
  Transactions.get_id 7 2 (quiet ledger) =
    (Returned (mkResponse 404 (BError "Transaction not found")), quiet ledger) /\
  Transactions.get_id 7 99 (quiet ledger) = Transactions.get_id 7 2 (quiet ledger).
Proof.
  destruct (foreign_transaction_not_found (quiet ledger) 7 2) as [H2 _].
  - reflexivity.
  - simpl. intros t [<-|[<-|[<-|[<-|[]]]]] _; discriminate.
  - destruct (foreign_transaction_not_found (quiet ledger) 7 99) as [H99 _].
    + reflexivity.
    + simpl. intros t [<-|[<-|[<-|[<-|[]]]]]; discriminate.
    + split; [exact H2|]. now rewrite H2, H99.
Defined.

(* ------------------------------------------------------------------------- *)
(** ** Deleting a transaction *)

Lemma same_key_same_row {A : Type} (key : A -> Z) (x y : A) (l : list A) :
  NoDup (map key l) -> In x l -> In y l -> key x = key y -> x = y.
Proof.
  intros Hnd Hx Hy Hk.
  assert (H : In y (filter (fun z => key z =? key x) l)).
  { apply filter_In. split; [exact Hy|]. apply Z.eqb_eq. congruence. }
  rewrite (filter_key_unique key x l Hnd Hx) in H. now destruct H as [->|[]].
Qed.

(** DELETE /transactions/:id on a transaction of the user answers 200 and
    removes that row and no other; afterwards GET and a second DELETE on the
    same id answer 404. *)
Theorem delete_transaction_then_gone (w : World) (user_id : Z) (t : TransactionRow) :
  faults w = [] ->
  NoDup (map t_id (transactions (db w))) ->
  In t (transactions (db w)) ->
  t_user_id t = user_id ->
  exists w',
    Transactions.delete_id user_id (t_id t) w =
      (Returned (mkResponse 200 (BMessage "Transaction deleted successfully")), w') /\
    transactions (db w') =
      filter (fun x => negb (t_id x =? t_id t)) (transactions (db w)) /\
    categories (db w') = categories (db w) /\
    Transactions.get_id user_id (t_id t) w' =
      (Returned (mkResponse 404 (BError "Transaction not found")), w') /\
    Transactions.delete_id user_id (t_id t) w' =
      (Returned (mkResponse 404 (BError "Transaction not found")), w').
Proof.
  intros Hf Hnd Hin Hu. destruct w as [d h f td]. cbn [faults db] in *. subst f.
  assert (Hhit : forall x, In x (transactions d) ->
            (t_id x =? t_id t) && (t_user_id x =? user_id) = (t_id x =? t_id t)).
  { intros x Hx. destruct (Z.eqb_spec (t_id x) (t_id t)) as [E|E]; [|reflexivity].
    rewrite (same_key_same_row t_id x t _ Hnd Hx Hin E), Hu, Z.eqb_refl.
    reflexivity. }
  eexists. split.
  - unfold Transactions.delete_id, Transactions.delete_transaction. run_handler.
    rewrite (filter_ext_in _ (fun x => t_id x =? t_id t)) by exact Hhit.
    rewrite (filter_key_unique t_id t _ Hnd Hin).
    cbn [List.length Nat.eqb faults db held today fst snd Nat.pred].
    reflexivity.
  - cbn [db transactions categories set_transactions].
    assert (Hrows :
      filter (fun x => negb ((t_id x =? t_id t) && (t_user_id x =? user_id)))
             (transactions d) =
      filter (fun x => negb (t_id x =? t_id t)) (transactions d)).
    { apply filter_ext_in. intros x Hx. now rewrite (Hhit x Hx). }
    split; [exact Hrows|]. split; [reflexivity|].
    rewrite Hrows.
    set (d' := set_transactions d
                 (filter (fun x => negb (t_id x =? t_id t)) (transactions d))
                 (next_transaction_id d)).
    assert (Hnone : forall x, In x (transactions d') -> t_id x = t_id t ->
                      t_user_id x <> user_id).
    { intros x Hx Hid. apply filter_In in Hx as [_ Hx].
      rewrite Hid, Z.eqb_refl in Hx. discriminate. }
    split.
    + unfold Transactions.get_id, Transactions.select_by_id_and_user. run_handler.
      now rewrite (not_owned_none_joined _ _ _ Hnone).
    + unfold Transactions.delete_id, Transactions.delete_transaction. run_handler.
      rewrite (not_owned_not_selected _ _ _ Hnone).
      cbn [List.length Nat.eqb faults db held today fst snd Nat.pred].
      rewrite filter_all.
      * now rewrite set_transactions_same.
      * intros x Hx. apply negb_true_iff.
        destruct (Z.eqb_spec (t_id x) (t_id t)) as [E|E]; [|reflexivity]. simpl.
        apply Z.eqb_neq. now apply Hnone.
Qed.

Lemma delete_transaction_then_gone_witness :
  exists w',
    Transactions.delete_id 1 2 (quiet ledger) =
      (Returned (mkResponse 200 (BMessage "Transaction deleted successfully")), w') /\
    map t_id (transactions (db w')) = [1; 3; 4].
Proof.
  destruct (delete_transaction_then_gone (quiet ledger) 1
              (mkTransaction 2 1250 "Lunch" march "EXPENSE" 2 1 (Some "team") 11 11))
    as [w' [E [Hrows _]]].
  - reflexivity.
  - exact (transaction_ids_unique _ ledger_consistent).
  - simpl. auto.
  - reflexivity.
  - exists w'. split; [exact E|]. rewrite Hrows. reflexivity.
Defined.

(* ------------------------------------------------------------------------- *)
(** ** Updating a transaction *)

Lemma owned_after_update (f : TransactionRow -> TransactionRow)
  (user_id : Z) (t : TransactionRow) (l : list TransactionRow) :
  (forall y, t_id (f y) = t_id y) ->
  NoDup (map t_id l) -> In t l ->
  t_user_id (f t) = user_id ->
  filter (fun y => (t_id y =? t_id t) && (t_user_id y =? user_id)) (map f l) = [f t].
Proof.
  intros Hkey Hnd Hin Hu.
  rewrite (filter_ext_in _ (fun y => t_id y =? t_id t)).
  - now apply filter_key_after_update.
  - intros y Hy. apply in_map_iff in Hy as [x [<- Hx]].
    rewrite Hkey. destruct (Z.eqb_spec (t_id x) (t_id t)) as [E|E]; [|reflexivity].
    rewrite (same_key_same_row t_id x t l Hnd Hx Hin E), Hu, Z.eqb_refl.
    reflexivity.
Qed.

(** PUT /transactions/:id on a transaction of the user, with a valid body that
    the columns accept and a category the user may use, answers 200 with the
    updated transaction: the amount is the double nearest to the amount of the
    request, description, type, category and notes are those of the request
    (empty notes become null), id and creation time are kept, the update time
    is the clock of the database, and the date is the [Date] object of the
    requested day at local midnight, which JSON shows in UTC on that day at or
    west of UTC and on the day before east of it.  GET on the id then returns
    the same object, and every other transaction is as it was. *)
Theorem update_transaction_then_get
  (w : World) (user_id : Z) (t : TransactionRow) (b : Transactions.ReqBody)
  (c : CategoryRow) :
  faults w = [] ->
  consistent (db w) ->
  Transactions.transactionValidation b = [] ->
  Sql.decimal_10_2 (Transactions.b_amount b) = true ->
  Sql.valid_date (Transactions.b_transactionDate b) = true ->
  In t (transactions (db w)) ->
  t_user_id t = user_id ->
  In c (categories (db w)) ->
  c_id c = Transactions.b_categoryId b ->
  usable user_id c ->
  exists updated w',
    Transactions.put_id user_id (t_id t) b w =
      (Returned (mkResponse 200 (BTransaction updated)), w') /\
    Transactions.get_id user_id (t_id t) w' =
      (Returned (mkResponse 200 (BTransaction updated)), w') /\
    updated =
      Json.mkTransaction (t_id t)
        (PrimFloat.div
           (PrimFloat.of_uint63 (Uint63.of_Z (Transactions.b_amount b)))
           100%float)
        (Transactions.b_description b)
        (Mysql2.date_column (Transactions.b_transactionDate b))
        (Transactions.b_type b) (JS.or_else (Transactions.b_notes b) None)
        (t_created_at t) (now (db w))
        (Json.mkCategoryRef (c_id c) (c_name c) (c_type c) (c_color c)) /\
    (100 <= d_year (Transactions.b_transactionDate b) ->
     forall offset,
       (-1440 < offset <= 0 ->
        fst (JS.utc offset (Json.transactionDate updated)) =
          Transactions.b_transactionDate b) /\
       (0 < offset < 1440 ->
        fst (JS.utc offset (Json.transactionDate updated)) =
          JS.yesterday (Transactions.b_transactionDate b))) /\
    (forall x, In x (transactions (db w)) -> t_id x <> t_id t ->
               In x (transactions (db w'))) /\
    map t_id (transactions (db w')) = map t_id (transactions (db w)) /\
    categories (db w') = categories (db w).
Proof.
  intros Hf [Hcu Htu _ _ _] Hv Hamount Hdate Hin Hu Hcin Hcid Hus.
  pose proof (valid_amount_positive b Hv) as Hpos.
  destruct w as [d h f td]. cbn [faults db] in *. subst f.
  unfold Transactions.put_id, Transactions.get_id, Transactions.select_existing,
    Transactions.select_visible_category, Transactions.update_transaction,
    Transactions.select_by_id, Transactions.select_by_id_and_user.
  rewrite Hv, Hamount, Hdate. cbn [negb]. run_handler.
  rewrite (owned_selected user_id (t_id t) (transactions d))
    by (exists t; repeat split; assumption).
  cbn [faults db held today fst snd Nat.pred].
  rewrite <- Hcid. rewrite (usable_selected user_id c _ Hcin Hus).
  cbn [faults db held today fst snd Nat.pred].
  cbv zeta. rewrite (existsb_id c_id c _ Hcin). cbn [negb].
  rewrite !andb_false_r.
  cbn [faults db held today fst snd Nat.pred].
  unfold Transactions.joined_where. cbn [transactions set_transactions].
  set (f := fun x : TransactionRow =>
              if (t_id x =? t_id t) && (t_user_id x =? user_id)
              then mkTransaction (t_id x) (Transactions.b_amount b)
                     (Transactions.b_description b)
                     (Transactions.b_transactionDate b) (Transactions.b_type b)
                     (c_id c) (t_user_id x)
                     (JS.or_else (Transactions.b_notes b) None)
                     (t_created_at x) (now d)
              else x).
  assert (Hkey : forall y, t_id (f y) = t_id y).
  { intros y. unfold f. now destruct ((t_id y =? t_id t) && (t_user_id y =? user_id)). }
  assert (Hft : f t = mkTransaction (t_id t) (Transactions.b_amount b)
                     (Transactions.b_description b)
                     (Transactions.b_transactionDate b) (Transactions.b_type b)
                     (c_id c) (t_user_id t)
                     (JS.or_else (Transactions.b_notes b) None)
                     (t_created_at t) (now d)).
  { unfold f. now rewrite Hu, !Z.eqb_refl. }
  rewrite (filter_key_after_update t_id f t _ Hkey Htu Hin).
  cbn [flat_map app].
  rewrite (join_one _ (f t) c); [|exact Hcu|exact Hcin|now rewrite Hft].
  cbn [app].
  eexists. eexists. split; [reflexivity|].
  cbn [faults db held today fst snd Nat.pred transactions categories
       set_transactions].
  split; [|split; [|split; [|split; [|split]]]].
  - rewrite (owned_after_update f user_id t _ Hkey Htu Hin)
      by (rewrite Hft; exact Hu).
    cbn [flat_map app].
    rewrite (join_one _ (f t) c); [|exact Hcu|exact Hcin|now rewrite Hft].
    reflexivity.
  - rewrite Hft. unfold Transactions.formatTransactionResponse.
    cbn [Transactions.row Transactions.category_name Transactions.category_type
         Transactions.category_color t_id t_amount t_description
         t_transaction_date t_type t_notes t_created_at t_updated_at
         t_category_id].
    rewrite (parseFloat_quotient (Transactions.b_amount b)) by lia.
    reflexivity.
  - intros Hyear offset. rewrite Hft.
    cbn [Transactions.formatTransactionResponse Transactions.row
         Json.transactionDate t_transaction_date].
    exact (date_column_in_utc _ offset Hyear).
  - intros x Hx Hne. apply in_map_iff. exists x. split; [|exact Hx].
    unfold f. destruct (Z.eqb_spec (t_id x) (t_id t)); [contradiction|reflexivity].
  - rewrite map_map. apply map_ext. exact Hkey.
  - reflexivity.
Qed.

Lemma update_transaction_then_get_witness :
  exists updated w',
    Transactions.put_id 1 3 (groceries (Some "")) (quiet ledger) =
      (Returned (mkResponse 200 (BTransaction updated)), w') /\
    Json.id updated = 3 /\
    Json.amount updated = 42%float /\
    Json.description updated = "Groceries" /\
    JS.toISOString 60 (Json.transactionDate updated) =
      "2024-04-02T23:00:00.000Z" /\
    Json.notes updated = None /\
    Json.createdAt updated = 12 /\
    Json.updatedAt updated = 100.
Proof.
  destruct (update_transaction_then_get (quiet ledger) 1
              (mkTransaction 3 830 "Coffee" (mkDate 2024 3 20) "EXPENSE" 2 1
                             None 12 12)
              (groceries (Some "")) food)
    as [updated [w' [E [_ [Hshape _]]]]].
  - reflexivity.
  - exact ledger_consistent.
  - reflexivity.
  - reflexivity.
  - reflexivity.
  - simpl. auto.
  - reflexivity.
  - simpl. auto.
  - reflexivity.
  - now left.
  - exists updated, w'. split; [exact E|]. rewrite Hshape. repeat split.
Defined.

(* ------------------------------------------------------------------------- *)
(** ** What a user sees of the category table *)

Lemma visible_iff_usable (user_id : Z) (c : CategoryRow) :
  Categories.visible_to user_id c = true <-> usable user_id c.
Proof.
  unfold Categories.visible_to, usable, Sql.eq_nullable. split.
  - intros H. apply orb_true_iff in H as [H|H]; [left|now right].
    destruct (c_user_id c) as [o|]; [|discriminate].
    apply Z.eqb_eq in H. now subst.
  - intros [H|H]; [rewrite H, Z.eqb_refl; reflexivity|].
    rewrite H. apply orb_true_r.
Qed.

(** GET /categories answers exactly the stored rows that the user owns or that
    are default, each as often as it is stored; GET /categories/type/:type
    with a valid type answers exactly those of them that have this type, and
    400 for any other type.  Nothing is changed. *)
Theorem category_lists_are_the_usable_rows (w : World) (user_id : Z) :
  faults w = [] ->
  (exists l,
     Categories.get_all user_id w = (Returned (mkResponse 200 (BCategories l)), w) /\
     Permutation l (filter (Categories.visible_to user_id) (categories (db w))) /\
     (forall c, In c l <-> In c (categories (db w)) /\ usable user_id c))
  /\
  (forall type,
     JS.includes ["INCOME"; "EXPENSE"] type = true ->
     exists l,
       Categories.get_type user_id type w =
         (Returned (mkResponse 200 (BCategories l)), w) /\
       (forall c, In c l <->
          In c (categories (db w)) /\ usable user_id c /\ c_type c = type))
  /\
  (forall type,
     JS.includes ["INCOME"; "EXPENSE"] type = false ->
     Categories.get_type user_id type w =
       (Returned (mkResponse 400 (BError "Invalid category type")), w)).
Proof.
  intros Hf. destruct w as [d h f t]. cbn [faults db] in *. subst f.
  split; [|split].
  - eexists. split; [|split].
    + unfold Categories.get_all, Categories.select_visible. run_handler.
      reflexivity.
    + apply order_by_perm.
    + intros c. rewrite order_by_In, filter_In, visible_iff_usable. tauto.
  - intros type Hty. eexists. split.
    + unfold Categories.get_type, Categories.select_visible_of_type.
      rewrite Hty. run_handler. reflexivity.
    + intros c. rewrite order_by_In, filter_In, andb_true_iff,
        visible_iff_usable, String.eqb_eq. tauto.
  - intros type Hty. unfold Categories.get_type. now rewrite Hty.
Qed.

Lemma category_lists_are_the_usable_rows_witness :
  exists l,
    Categories.get_all 7 (quiet ledger) =
      (Returned (mkResponse 200 (BCategories l)), quiet ledger) /\
    In salary l /\ ~ In food l.
Proof.
  destruct (category_lists_are_the_usable_rows (quiet ledger) 7 eq_refl)
    as [[l [E [_ Hl]]] _].
  exists l. split; [exact E|]. split.
  - apply Hl. split; [simpl; auto|now right].
  - intros Hin. apply Hl in Hin as [_ [Ho|Hd]]; discriminate.
Defined.

(* ------------------------------------------------------------------------- *)
(** ** Creating a category *)

(** POST /categories with a valid body by an existing user answers 201 with
    the stored row: a fresh id, the name and type of the request, the
    description of the request or null when it is absent or empty, the color
    of the request or #FF6B6B when it is absent, owned by the user and not
    default.  The row is appended to the table, is listed for its owner and
    is listed for no other user. *)
Theorem create_category_then_listed
  (w : World) (user_id : Z) (b : Categories.ReqBody) (u : UserRow) :
  faults w = [] ->
  consistent (db w) ->
  Categories.categoryValidation b = [] ->
  In u (users (db w)) ->
  u_id u = user_id ->
  exists created w',
    Categories.post user_id b w =
      (Returned (mkResponse 201 (BCategory created)), w') /\
    created =
      mkCategory (next_category_id (db w)) (Categories.b_name b)
        (JS.or_else (Categories.b_description b) None) (Categories.b_type b)
        (JS.or_else (Categories.b_color b) (Some "#FF6B6B"))
        (Some user_id) false (now (db w)) (now (db w)) /\
    ~ In (c_id created) (map c_id (categories (db w))) /\
    categories (db w') = categories (db w) ++ [created] /\
    transactions (db w') = transactions (db w) /\
    (exists l, Categories.get_all user_id w' =
                 (Returned (mkResponse 200 (BCategories l)), w') /\ In created l) /\
    (forall other, other <> user_id ->
       exists l, Categories.get_all other w' =
                   (Returned (mkResponse 200 (BCategories l)), w') /\
                 ~ In created l).
Proof.
  intros Hf [Hcu _ Hcused _ _] Hv Huin Huid.
  destruct w as [d h f t]. cbn [faults db] in *. subst f.
  assert (Hfresh : ~ In (next_category_id d) (map c_id (categories d))).
  { now apply (fresh_key c_id). }
  unfold Categories.post, Categories.insert_category, Categories.select_by_id.
  rewrite Hv. run_handler. subst user_id.
  rewrite (existsb_id u_id u _ Huin).
  cbn [faults db held today fst snd Nat.pred categories set_categories].
  rewrite filter_app, (filter_key_absent c_id _ _ Hfresh).
  cbn [filter app c_id]. rewrite Z.eqb_refl. cbn [Categories.first_row].
  eexists. eexists. split; [reflexivity|].
  split; [reflexivity|]. split; [exact Hfresh|].
  cbn [db categories transactions set_categories].
  split; [reflexivity|]. split; [reflexivity|].
  split.
  - eexists. split.
    + unfold Categories.get_all, Categories.select_visible. run_handler.
      reflexivity.
    + apply order_by_In, filter_In. cbn [categories set_categories]. split.
      * apply in_or_app. right. now left.
      * apply visible_iff_usable. now left.
  - intros other Hother. eexists. split.
    + unfold Categories.get_all, Categories.select_visible. run_handler.
      reflexivity.
    + intros Hin. apply order_by_In, filter_In in Hin as [_ Hin].
      apply visible_iff_usable in Hin as [Ho|Hd]; [cbn in Ho|cbn in Hd];
        congruence.
Qed.

Lemma create_category_then_listed_witness :
  exists created w',
    Categories.post 1 (Categories.mkReqBody "Travel" (Some "") None "EXPENSE")
                    (quiet ledger) =
      (Returned (mkResponse 201 (BCategory created)), w') /\
    created = mkCategory 3 "Travel" None "EXPENSE" (Some "#FF6B6B") (Some 1)
                         false 100 100.
Proof.
  destruct (create_category_then_listed (quiet ledger) 1
              (Categories.mkReqBody "Travel" (Some "") None "EXPENSE") ana)
    as [created [w' [E [Hshape _]]]].
  - reflexivity.
  - exact ledger_consistent.
  - reflexivity.
  - simpl. auto.
  - reflexivity.
  - exists created, w'. split; [exact E|]. rewrite Hshape. reflexivity.
Defined.

(* ------------------------------------------------------------------------- *)
(** ** Categories the user may not change *)

(** PUT (with a valid body) and DELETE on a category id that is not in the
    table answer 404; on a category that is default or owned by another user
    they answer 403.  Either way the world is left as it was. *)
Theorem category_changes_are_guarded (w : World) (user_id : Z) :
  faults w = [] ->
  NoDup (map c_id (categories (db w))) ->
  (forall id, ~ In id (map c_id (categories (db w))) ->
     Categories.delete_id user_id id w =
       (Returned (mkResponse 404 (BError "Category not found")), w) /\
     (forall b, Categories.categoryValidation b = [] ->
        Categories.put_id user_id id b w =
          (Returned (mkResponse 404 (BError "Category not found")), w)))
  /\
  (forall c, In c (categories (db w)) ->
     Categories.default_or_foreign c user_id = true ->
     Categories.delete_id user_id (c_id c) w =
       (Returned (mkResponse 403 (BError "Cannot delete this category")), w) /\
     (forall b, Categories.categoryValidation b = [] ->
        Categories.put_id user_id (c_id c) b w =
          (Returned (mkResponse 403 (BError "Cannot modify this category")), w))).
Proof.
  intros Hf Hnd. destruct w as [d h f t]. cbn [faults db] in *. subst f.
  split.
  - intros id Hout. split.
    + unfold Categories.delete_id, Categories.select_by_id. run_handler.
      now rewrite (filter_key_absent c_id _ _ Hout).
    + intros b Hv. unfold Categories.put_id, Categories.select_by_id.
      rewrite Hv. run_handler.
      now rewrite (filter_key_absent c_id _ _ Hout).
  - intros c Hin Hc. split.
    + unfold Categories.delete_id, Categories.select_by_id. run_handler.
      rewrite (filter_key_unique c_id c _ Hnd Hin). now rewrite Hc.
    + intros b Hv. unfold Categories.put_id, Categories.select_by_id.
      rewrite Hv. run_handler.
      rewrite (filter_key_unique c_id c _ Hnd Hin). now rewrite Hc.
Qed.

Lemma category_changes_are_guarded_witness :
  Categories.delete_id 7 99 (quiet ledger) =
    (Returned (mkResponse 404 (BError "Category not found")), quiet ledger) /\
  Categories.delete_id 7 2 (quiet ledger) =
    (Returned (mkResponse 403 (BError "Cannot delete this category")), quiet ledger).
Proof.
  destruct (category_changes_are_guarded (quiet ledger) 7 eq_refl
              ledger_category_ids) as [Hmissing Hforeign].
  split.
  - apply (Hmissing 99). simpl. intros [H|[H|[]]]; discriminate.
  - apply (Hforeign food); [simpl; auto|reflexivity].
Defined.

(* ------------------------------------------------------------------------- *)
(** ** Registration and login *)

Lemma check_passed (ok : bool) (message : string) :
  check ok message = [] -> ok = true.
Proof. destruct ok; [reflexivity|discriminate]. Qed.

Lemma long_enough_not_empty (n : nat) (s : string) :
  Nat.leb (S n) (String.length s) = true -> JS.truthy_string s = true.
Proof. destruct s; [discriminate|reflexivity]. Qed.

Lemma registered_credentials_pass_login
  (isEmail : string -> bool) (b : Auth.RegisterBody) :
  Auth.registerValidation isEmail b = [] ->
  Auth.loginValidation (Auth.mkLoginBody (Auth.r_username b) (Auth.r_password b)) = [].
Proof.
  unfold Auth.registerValidation, Auth.loginValidation. intros H.
  apply app_eq_nil in H as [Hu H]. apply app_eq_nil in H as [_ H].
  apply app_eq_nil in H as [_ H]. apply app_eq_nil in H as [Hp _].
  apply check_passed in Hu, Hp. cbn [Auth.l_username Auth.l_password].
  unfold isLength in Hu. apply andb_true_iff in Hu as [Hu _].
  rewrite (long_enough_not_empty 2 _ Hu), (long_enough_not_empty 5 _ Hp).
  reflexivity.
Qed.

Lemma new_identity_not_selected (username email : string) (l : list UserRow) :
  (forall u, In u l -> u_username u <> username /\ u_email u <> email) ->
  filter (fun u => (u_username u =? username)%string || (u_email u =? email)%string)
         l = [] /\
  existsb (fun u => (u_username u =? username)%string || (u_email u =? email)%string)
          l = false /\
  filter (fun u => (u_username u =? username)%string) l = [].
Proof.
  intros H. repeat split.
  - apply filter_none. intros u Hu. destruct (H u Hu) as [H1 H2].
    apply String.eqb_neq in H1, H2. now rewrite H1, H2.
  - destruct (existsb _ l) eqn:E; [|reflexivity].
    apply existsb_exists in E as [u [Hu E]]. destruct (H u Hu) as [H1 H2].
    apply String.eqb_neq in H1, H2. rewrite H1, H2 in E. discriminate.
  - apply filter_none. intros u Hu. destruct (H u Hu) as [H1 _].
    now apply String.eqb_neq.
Qed.

(** A valid registration under a username and (normalized) email that no
    stored user has answers 201 and appends one user holding the hash of the
    password, not the password.  If the hash verifies against the password, a
    login with the same username and password then answers 200 with a token
    signed for the new user and the registered profile. *)
Theorem register_then_login
  (bcrypt_hash : string -> Z -> string)
  (bcrypt_compare : string -> string -> bool)
  (jwt_sign : Z -> string -> string -> string)
  (isEmail : string -> bool) (normalizeEmail : string -> string)
  (w : World) (b : Auth.RegisterBody) :
  faults w = [] ->
  Auth.registerValidation isEmail b = [] ->
  (forall u, In u (users (db w)) ->
     u_username u <> Auth.r_username b /\
     u_email u <> normalizeEmail (Auth.r_email b)) ->
  bcrypt_compare (Auth.r_password b) (bcrypt_hash (Auth.r_password b) 12) = true ->
  exists w',
    Auth.register bcrypt_hash isEmail normalizeEmail b w =
      (Returned (mkResponse 201 (BMessage "User registered successfully!")), w') /\
    users (db w') =
      users (db w) ++
      [mkUser (next_user_id (db w)) (Auth.r_username b)
              (normalizeEmail (Auth.r_email b))
              (bcrypt_hash (Auth.r_password b) 12) (Auth.r_fullName b)] /\
    categories (db w') = categories (db w) /\
    transactions (db w') = transactions (db w) /\
    Auth.login bcrypt_compare jwt_sign
      (Auth.mkLoginBody (Auth.r_username b) (Auth.r_password b)) w' =
      (Returned (mkResponse 200
         (BSession (jwt_sign (next_user_id (db w)) (Auth.r_username b)
                             (normalizeEmail (Auth.r_email b)))
                   (Auth.r_username b) (normalizeEmail (Auth.r_email b))
                   (Auth.r_fullName b))), w').
Proof.
  intros Hf Hv Hnew Hhash. destruct w as [d h f t]. cbn [faults db] in *. subst f.
  destruct (new_identity_not_selected _ _ _ Hnew) as [Hsel [Hex Hname]].
  eexists. split.
  - unfold Auth.register, Auth.select_user_by_username_or_email, Auth.insert_user.
    rewrite Hv. cbv zeta. run_handler. rewrite Hsel.
    cbn [List.length Nat.ltb Nat.leb faults db held today fst snd Nat.pred].
    rewrite Hex. reflexivity.
  - cbn [db users categories transactions set_users].
    repeat split.
    unfold Auth.login, Auth.select_user_by_username.
    rewrite (registered_credentials_pass_login isEmail b Hv). run_handler.
    cbn [users set_users Auth.l_username Auth.l_password].
    rewrite filter_app, Hname. cbn [filter app u_username].
    rewrite String.eqb_refl. cbn [u_password]. rewrite Hhash.
    reflexivity.
Qed.

Lemma register_then_login_witness :
  exists w',
    Auth.register toy_hash (fun _ => true) (fun e => e)
      (Auth.mkRegisterBody "bob_7" "bob@example.org" "hunter22" "Bob")
      (quiet ledger) =
      (Returned (mkResponse 201 (BMessage "User registered successfully!")), w') /\
    Auth.login toy_compare toy_sign (Auth.mkLoginBody "bob_7" "hunter22") w' =
      (Returned (mkResponse 200
         (BSession "token-bob_7" "bob_7" "bob@example.org" "Bob")), w').
Proof.
  destruct (register_then_login toy_hash toy_compare toy_sign
              (fun _ => true) (fun e => e) (quiet ledger)
              (Auth.mkRegisterBody "bob_7" "bob@example.org" "hunter22" "Bob"))
    as [w' [Hreg [_ [_ [_ Hlogin]]]]].
  - reflexivity.
  - reflexivity.
  - simpl. intros u [<-|[]]. split; discriminate.
  - reflexivity.
  - exists w'. split; [exact Hreg|exact Hlogin].
Defined.

(** A registration under a username or a (normalized) email that a stored
    user already has answers 400 and stores nothing. *)
Theorem register_rejects_taken_identity
  (bcrypt_hash : string -> Z -> string)
  (isEmail : string -> bool) (normalizeEmail : string -> string)
  (w : World) (b : Auth.RegisterBody) (u : UserRow) :
  faults w = [] ->
  Auth.registerValidation isEmail b = [] ->
  In u (users (db w)) ->
  u_username u = Auth.r_username b \/ u_email u = normalizeEmail (Auth.r_email b) ->
  Auth.register bcrypt_hash isEmail normalizeEmail b w =
    (Returned (mkResponse 400 (BError "Username or email already exists")), w).
Proof.
  intros Hf Hv Hin Htaken. destruct w as [d h f t]. cbn [faults db] in *. subst f.
  unfold Auth.register, Auth.select_user_by_username_or_email.
  rewrite Hv. cbv zeta. run_handler.
  assert (Hsel : In u (filter
            (fun x => (u_username x =? Auth.r_username b)%string ||
                      (u_email x =? normalizeEmail (Auth.r_email b))%string)
            (users d))).
  { apply filter_In. split; [exact Hin|]. apply orb_true_iff.
    destruct Htaken as [E|E]; [left|right]; now apply String.eqb_eq. }
  destruct (filter _ (users d)); [destruct Hsel|]. reflexivity.
Qed.

Lemma register_rejects_taken_identity_witness :
  Auth.register toy_hash (fun _ => true) (fun e => e)
    (Auth.mkRegisterBody "ana" "other@example.org" "hunter22" "Ana B")
    (quiet ledger) =
    (Returned (mkResponse 400 (BError "Username or email already exists")),
     quiet ledger).
Proof.
  apply (register_rejects_taken_identity toy_hash
           (fun _ => true) (fun e => e) (quiet ledger)
           (Auth.mkRegisterBody "ana" "other@example.org" "hunter22" "Ana B") ana).
  - reflexivity.
  - reflexivity.
  - simpl. auto.
  - now left.
Defined.

(* ------------------------------------------------------------------------- *)
(** ** The authentication middleware *)

(** A request is turned away before any route handler runs, and without the
    database or the pool being touched, when it carries no bearer token (401),
    when the token does not verify (403, "Invalid token") and when it has
    expired (403, "Token expired"); this holds under every fault schedule.
    When the token verifies but its user is no longer stored, the request is
    turned away with 401 and the connection is given back. *)
Theorem unauthenticated_requests_are_turned_away
  (jwt_verify : string -> Outcome Z) (authorization : option string)
  (next : UserRow -> M Response) (w : World) :
  (Auth.bearer_token authorization = None \/
   Auth.bearer_token authorization = Some "" ->
   Auth.authenticateToken jwt_verify authorization next w =
     (Returned (mkResponse 401 (BError "Access token required")), w))
  /\
  (forall token message,
     Auth.bearer_token authorization = Some token ->
     JS.truthy_string token = true ->
     (jwt_verify token = Thrown (mkError "JsonWebTokenError" message) ->
      Auth.authenticateToken jwt_verify authorization next w =
        (Returned (mkResponse 403 (BError "Invalid token")), w)) /\
     (jwt_verify token = Thrown (mkError "TokenExpiredError" message) ->
      Auth.authenticateToken jwt_verify authorization next w =
        (Returned (mkResponse 403 (BError "Token expired")), w)))
  /\
  (forall token id,
     Auth.bearer_token authorization = Some token ->
     JS.truthy_string token = true ->
     jwt_verify token = Returned id ->
     faults w = [] ->
     (forall u, In u (users (db w)) -> u_id u <> id) ->
     Auth.authenticateToken jwt_verify authorization next w =
       (Returned (mkResponse 401 (BError "User not found")), w)).
Proof.
  split; [|split].
  - intros [H|H]; unfold Auth.authenticateToken; rewrite H; reflexivity.
  - intros token message Hb Ht. unfold Auth.authenticateToken, Auth.lift.
    rewrite Hb, Ht. cbn [negb].
    split; intros Hv; unfold try_catch, bind; rewrite Hv; reflexivity.
  - intros token id Hb Ht Hv Hf Hnone.
    destruct w as [d h f t]. cbn [faults db] in *. subst f.
    unfold Auth.authenticateToken, Auth.lift, Auth.select_user_by_id.
    rewrite Hb, Ht. cbn [negb]. unfold try_catch at 1, bind at 1.
    rewrite Hv. run_handler.
    rewrite filter_none; [reflexivity|].
    intros u Hu. apply Z.eqb_neq. now apply Hnone.
Qed.

Lemma unauthenticated_requests_are_turned_away_witness :
  App.protected toy_verify (Some "Bearer") (App.TransactionsDelete 2)
                (flaky ledger) =
    (Returned (mkResponse 401 (BError "Access token required")), flaky ledger) /\
  App.protected toy_verify (Some "Bearer forged") (App.TransactionsDelete 2)
                (flaky ledger) =
    (Returned (mkResponse 403 (BError "Invalid token")), flaky ledger).
Proof.
  destruct (unauthenticated_requests_are_turned_away toy_verify (Some "Bearer")
              (fun user => App.router (u_id user) (App.TransactionsDelete 2))
              (flaky ledger)) as [Hnone _].
  destruct (unauthenticated_requests_are_turned_away toy_verify
              (Some "Bearer forged")
              (fun user => App.router (u_id user) (App.TransactionsDelete 2))
              (flaky ledger)) as [_ [Hbad _]].
  split.
  - apply Hnone. now left.
  - apply (Hbad "forged" "invalid token"); reflexivity.
Defined.

Lemma middleware_passes_to_route
  (jwt_verify : string -> Outcome Z) (authorization : option string)
  (token : string) (u : UserRow) (r : App.Route) (w : World) :
  Auth.bearer_token authorization = Some token ->
  JS.truthy_string token = true ->
  jwt_verify token = Returned (u_id u) ->
  faults w = [] ->
  NoDup (map u_id (users (db w))) ->
  In u (users (db w)) ->
  App.protected jwt_verify authorization r w = App.router (u_id u) r w.
Proof.
  intros Hb Ht Hv Hf Hnd Hin.
  destruct (router_always_answers (u_id u) r w) as [resp [Hresp _]].
  destruct w as [d h f t]. cbn [faults db] in *. subst f.
  unfold App.protected, Auth.authenticateToken, Auth.lift, Auth.select_user_by_id.
  rewrite Hb, Ht. cbn [negb]. unfold try_catch at 1, bind at 1.
  rewrite Hv. unfold bind at 1, getConnection.
  cbn [faults db held today fst snd].
  unfold bind at 1, execute at 1, select at 1.
  cbn [faults db held today fst snd].
  rewrite (filter_key_unique u_id u _ Hnd Hin).
  unfold bind at 1, release at 1.
  cbn [faults db held today fst snd Nat.pred].
  destruct (App.router (u_id u) r (mkWorld d h [] t)) as [[resp'|e] w'] eqn:E.
  - reflexivity.
  - cbn [fst] in Hresp. discriminate.
Qed.

(** With a verified token whose user is stored (user ids being unique) and a
    driver that raises no fault, the middleware hands the request to the route
    for exactly that user and adds nothing of its own: the response and the
    world are those of the route run for the user of the token. *)
Theorem authenticated_request_is_the_route_of_the_user
  (jwt_verify : string -> Outcome Z) (authorization : option string)
  (token : string) (u : UserRow) (r : App.Route) (w : World) :
  Auth.bearer_token authorization = Some token ->
  JS.truthy_string token = true ->
  jwt_verify token = Returned (u_id u) ->
  faults w = [] ->
  NoDup (map u_id (users (db w))) ->
  In u (users (db w)) ->
  App.protected jwt_verify authorization r w = App.router (u_id u) r w.
Proof.
  exact (middleware_passes_to_route jwt_verify authorization token u r w).
Qed.

Lemma authenticated_request_is_the_route_of_the_user_witness :
  App.protected toy_verify (Some "Bearer token-1") App.TransactionsSummary
                (quiet ledger) =
  App.router 1 App.TransactionsSummary (quiet ledger).
Proof.
  apply (authenticated_request_is_the_route_of_the_user toy_verify
           (Some "Bearer token-1") "token-1" ana App.TransactionsSummary
           (quiet ledger)).
  - reflexivity.
  - reflexivity.
  - reflexivity.
  - reflexivity.
  - repeat constructor. simpl. tauto.
  - simpl. auto.
Defined.

(* ------------------------------------------------------------------------- *)
(** ** The summary of the current month *)

(** GET /summary is GET /summary/:year/:month for the year and month of the
    application clock: when the two route segments are the integer literals of
    today's year and month, both routes give the same response and leave the
    same world. *)
Theorem current_month_summary_agrees
  (w : World) (user_id : Z) (year month : string) :
  faults w = [] ->
  JS.int_literal year = Some (d_year (today w)) ->
  JS.int_literal month = Some (d_month (today w)) ->
  1 <= d_month (today w) <= 12 ->
  Transactions.get_summary user_id w =
  Transactions.get_summary_year_month user_id year month w.
Proof.
  intros Hf Hy Hm Hr.
  unfold Transactions.get_summary, Transactions.get_summary_year_month.
  rewrite (month_in_range_accepted _ _ _ _ Hy Hm Hr).
  rewrite (int_literal_number_of_string _ _ Hy),
          (int_literal_number_of_string _ _ Hm),
          (int_literal_parseInt _ _ Hy), (int_literal_parseInt _ _ Hm).
  destruct w as [d h f t]. cbn [faults today] in *. subst f.
  unfold Transactions.new_Date. run_handler. reflexivity.
Qed.

Lemma current_month_summary_agrees_witness :
  Transactions.get_summary 1 (quiet ledger) =
  Transactions.get_summary_year_month 1 "2024" "04" (quiet ledger).
Proof.
  apply (current_month_summary_agrees (quiet ledger) 1 "2024" "04").
  - reflexivity.
  - reflexivity.
  - reflexivity.
  - simpl. lia.
Defined.

(* ------------------------------------------------------------------------- *)
(** ** The filtered listings *)

Lemma date_leb_not_before (a b : Date) :
  date_leb a b = true <-> ~ date_before b a.
Proof.
  unfold date_leb, date_compare, date_before.
  destruct (Z.compare_spec (d_year a) (d_year b)) as [Ey|Ey|Ey];
    destruct (Z.compare_spec (d_month a) (d_month b)) as [Em|Em|Em];
    destruct (Z.compare_spec (d_day a) (d_day b)) as [Ed|Ed|Ed];
    split; intros Hx; try reflexivity; try discriminate; try lia;
    exfalso; apply Hx; lia.
Qed.

(** The shape shared by the listing routes on a driver without faults. *)
Lemma listing_run (p : TransactionRow -> bool) (w : World) :
  faults w = [] ->
  consistent (db w) ->
  exists rows,
    try_catch
      (getConnection ;;;
       try_finally
         (transactions <- execute (Transactions.select_ordered p) ;;
          res_json (BTransactions
            (map Transactions.formatTransactionResponse transactions)))
         release)
      catch_500 w =
      (Returned (mkResponse 200 (BTransactions
         (map Transactions.formatTransactionResponse rows))), w) /\
    Permutation (map Transactions.row rows) (filter p (transactions (db w))) /\
    StronglySorted date_desc_created_desc (map Transactions.row rows).
Proof.
  intros Hf Hc.
  exists (Sql.order_by Transactions.newest_first
            (Transactions.joined_where p (db w))).
  split; [|split].
  - destruct w as [d h f t]. cbn [faults db] in *. subst f.
    unfold Transactions.select_ordered. run_handler. reflexivity.
  - apply perm_trans with
      (map Transactions.row (Transactions.joined_where p (db w))).
    + apply Permutation_map, order_by_perm.
    + rewrite (rows_of_joined_where _ _ Hc). apply Permutation_refl.
  - apply sorted_rows, order_by_sorted. exact newest_first_total.
Qed.

(** GET /transactions/date-range with two valid dates lists exactly the
    transactions of the user dated from the start date to the end date, both
    days included, newest first; when the start date is after the end date the
    list is empty. *)
Theorem date_range_is_inclusive
  (w : World) (user_id : Z) (startDate endDate : Date) :
  faults w = [] ->
  consistent (db w) ->
  isISO8601 startDate = true ->
  isISO8601 endDate = true ->
  exists rows,
    Transactions.get_date_range user_id startDate endDate w =
      (Returned (mkResponse 200 (BTransactions
         (map Transactions.formatTransactionResponse rows))), w) /\
    StronglySorted date_desc_created_desc (map Transactions.row rows) /\
    (forall t, In t (map Transactions.row rows) <->
       In t (transactions (db w)) /\ t_user_id t = user_id /\
       ~ date_before (t_transaction_date t) startDate /\
       ~ date_before endDate (t_transaction_date t)) /\
    (date_before endDate startDate -> rows = []).
Proof.
  intros Hf Hc Hs He.
  destruct (listing_run
              (fun t => Transactions.owned_by user_id t &&
                        date_leb startDate (t_transaction_date t) &&
                        date_leb (t_transaction_date t) endDate) w Hf Hc)
    as [rows [Hrun [Hperm Hsorted]]].
  assert (Hin : forall t, In t (map Transactions.row rows) <->
       In t (transactions (db w)) /\ t_user_id t = user_id /\
       ~ date_before (t_transaction_date t) startDate /\
       ~ date_before endDate (t_transaction_date t)).
  { intros t. split.
    - intros H. apply (Permutation_in _ Hperm) in H.
      apply filter_In in H as [H1 H2].
      apply andb_true_iff in H2 as [H2 H4]. apply andb_true_iff in H2 as [H2 H3].
      apply Z.eqb_eq in H2. apply date_leb_not_before in H3, H4. tauto.
    - intros [H1 [H2 [H3 H4]]].
      apply (Permutation_in _ (Permutation_sym Hperm)).
      apply filter_In. split; [exact H1|].
      unfold Transactions.owned_by.
      rewrite H2, Z.eqb_refl. cbn [andb].
      apply andb_true_iff. split; now apply date_leb_not_before. }
  exists rows. split; [|split; [exact Hsorted|split; [exact Hin|]]].
  - unfold Transactions.get_date_range. cbv zeta. rewrite Hs, He. exact Hrun.
  - intros Hbad. destruct rows as [|j rest]; [reflexivity|]. exfalso.
    destruct (proj1 (Hin (Transactions.row j)) (or_introl eq_refl))
      as [_ [_ [H3 H4]]].
    unfold date_before in *. lia.
Qed.

Lemma date_range_is_inclusive_witness :
  exists rows,
    Transactions.get_date_range 1 march (mkDate 2024 3 20) (quiet ledger) =
      (Returned (mkResponse 200 (BTransactions
         (map Transactions.formatTransactionResponse rows))), quiet ledger) /\
    In (mkTransaction 3 830 "Coffee" (mkDate 2024 3 20) "EXPENSE" 2 1 None 12 12)
       (map Transactions.row rows) /\
    In (mkTransaction 1 250000 "March salary" march "INCOME" 1 1 None 10 10)
       (map Transactions.row rows).
Proof.
  destruct (date_range_is_inclusive (quiet ledger) 1 march (mkDate 2024 3 20))
    as [rows [E [_ [Hin _]]]].
  - reflexivity.
  - exact ledger_consistent.
  - reflexivity.
  - reflexivity.
  - exists rows. split; [exact E|].
    split; apply Hin; (split; [simpl; auto|]); split; try reflexivity;
      unfold date_before; simpl; lia.
Defined.

(** GET /transactions/type/:type lists, for INCOME and for EXPENSE, exactly
    the transactions of the user that have this type, newest first; any other
    type segment is answered 400. *)
Theorem type_listing_is_exact (w : World) (user_id : Z) (type : string) :
  faults w = [] ->
  consistent (db w) ->
  (JS.includes ["INCOME"; "EXPENSE"] type = true ->
   exists rows,
     Transactions.get_type user_id type w =
       (Returned (mkResponse 200 (BTransactions
          (map Transactions.formatTransactionResponse rows))), w) /\
     StronglySorted date_desc_created_desc (map Transactions.row rows) /\
     Permutation (map Transactions.row rows)
       (filter (fun t => (t_user_id t =? user_id) && (t_type t =? type)%string)
               (transactions (db w))))
  /\
  (JS.includes ["INCOME"; "EXPENSE"] type = false ->
   Transactions.get_type user_id type w =
     (Returned (mkResponse 400 (BError "Invalid transaction type")), w)).
Proof.
  intros Hf Hc. split; intros Hty.
  - destruct (listing_run
                (fun t => Transactions.owned_by user_id t &&
                          (t_type t =? type)%string) w Hf Hc)
      as [rows [Hrun [Hperm Hsorted]]].
    exists rows. split; [|split; [exact Hsorted|exact Hperm]].
    unfold Transactions.get_type. rewrite Hty. exact Hrun.
  - unfold Transactions.get_type. now rewrite Hty.
Qed.

Lemma type_listing_is_exact_witness :
  exists rows,
    Transactions.get_type 1 "INCOME" (quiet ledger) =
      (Returned (mkResponse 200 (BTransactions
         (map Transactions.formatTransactionResponse rows))), quiet ledger) /\
    Permutation (map Transactions.row rows)
      [mkTransaction 1 250000 "March salary" march "INCOME" 1 1 None 10 10].
Proof.
  destruct (type_listing_is_exact (quiet ledger) 1 "INCOME" eq_refl
              ledger_consistent) as [Hvalid _].
  destruct (Hvalid eq_refl) as [rows [E [_ Hperm]]].
  exists rows. split; [exact E|exact Hperm].
Defined.

(* ------------------------------------------------------------------------- *)
(** ** The monthly listing and the monthly summary *)

Lemma total_permutation (l l' : list TransactionRow) :
  Permutation l l' -> total l = total l'.
Proof.
  induction 1 as [|x l l' _ IH|x y l|l l' l'' _ IH1 _ IH2]; simpl; lia.
Qed.

Lemma filter_permutation {A : Type} (p : A -> bool) (l l' : list A) :
  Permutation l l' -> Permutation (filter p l) (filter p l').
Proof.
  induction 1 as [|x l l' _ IH|x y l|l l' l'' _ IH1 _ IH2]; simpl.
  - constructor.
  - destruct (p x); [now constructor|exact IH].
  - destruct (p x), (p y); try apply perm_swap; apply Permutation_refl.
  - now apply perm_trans with (filter p l').
Qed.

Lemma of_month_by_type (user_id : Z) (type : string) (y m : Z)
  (l : list TransactionRow) :
  of_month user_id type y m l =
  filter (fun t => (t_type t =? type)%string)
    (filter (fun t => Transactions.owned_by user_id t &&
                      (d_year (t_transaction_date t) =? y) &&
                      (d_month (t_transaction_date t) =? m)) l).
Proof.
  unfold of_month, Transactions.owned_by.
  induction l as [|t l IH]; [reflexivity|]. cbn [filter].
  destruct (t_user_id t =? user_id) eqn:Eu,
    (d_year (t_transaction_date t) =? y) eqn:Ey,
    (d_month (t_transaction_date t) =? m) eqn:Em,
    (t_type t =? type)%string eqn:Et;
    cbn [andb filter]; rewrite ?Et; rewrite IH; reflexivity.
Qed.

(** For a year of a magnitude up to 2^53 and a month in 1-12, given as integer
    literals, the monthly listing shows exactly the transactions of the user
    dated in that month, newest first, and the monthly summary is made of the
    sums over the INCOME rows and over the EXPENSE rows of that very listing
    and echoes the year and the month. *)
Theorem summary_sums_the_monthly_listing
  (w : World) (user_id : Z) (year month : string) (y m : Z) :
  faults w = [] ->
  consistent (db w) ->
  JS.int_literal year = Some y ->
  JS.int_literal month = Some m ->
  1 <= m <= 12 ->
  Z.abs y <= 2 ^ 53 ->
  exists rows,
    Transactions.get_monthly user_id year month w =
      (Returned (mkResponse 200 (BTransactions
         (map Transactions.formatTransactionResponse rows))), w) /\
    StronglySorted date_desc_created_desc (map Transactions.row rows) /\
    (forall t, In t (map Transactions.row rows) <->
       In t (transactions (db w)) /\ t_user_id t = user_id /\
       d_year (t_transaction_date t) = y /\ d_month (t_transaction_date t) = m) /\
    let income :=
      JS.parseFloat (total (filter (fun t => (t_type t =? "INCOME")%string)
                                   (map Transactions.row rows))) in
    let expense :=
      JS.parseFloat (total (filter (fun t => (t_type t =? "EXPENSE")%string)
                                   (map Transactions.row rows))) in
    Transactions.get_summary_year_month user_id year month w =
      (Returned (mkResponse 200
         (BSummary income expense (PrimFloat.sub income expense)
                   (JS.Num y) (JS.Num m))), w).
Proof.
  intros Hf Hc Hy Hm Hr Hsafe.
  destruct (listing_run
              (fun t => Transactions.owned_by user_id t &&
                        (d_year (t_transaction_date t) =? y) &&
                        (d_month (t_transaction_date t) =? m)) w Hf Hc)
    as [rows [Hrun [Hperm Hsorted]]].
  exists rows. split; [|split; [exact Hsorted|split]].
  - unfold Transactions.get_monthly.
    rewrite (month_in_range_accepted _ _ _ _ Hy Hm Hr),
            (int_literal_number_of_string _ _ Hy),
            (int_literal_number_of_string _ _ Hm).
    exact Hrun.
  - intros t. split.
    + intros H. apply (Permutation_in _ Hperm) in H.
      apply filter_In in H as [H1 H2]. unfold Transactions.owned_by in H2.
      bool_hyps. tauto.
    + intros [H1 [H2 [H3 H4]]].
      apply (Permutation_in _ (Permutation_sym Hperm)).
      apply filter_In. split; [exact H1|]. unfold Transactions.owned_by.
      now rewrite H2, H3, H4, !Z.eqb_refl.
  - cbv zeta.
    rewrite (total_permutation _ _ (filter_permutation _ _ _ Hperm)).
    rewrite (total_permutation _ _
               (filter_permutation (fun t => (t_type t =? "EXPENSE")%string)
                                   _ _ Hperm)).
    rewrite <- !of_month_by_type.
    unfold Transactions.get_summary_year_month.
    rewrite (month_in_range_accepted _ _ _ _ Hy Hm Hr).
    rewrite (int_literal_number_of_string _ _ Hy),
            (int_literal_number_of_string _ _ Hm),
            (int_literal_parseInt _ _ Hy), (int_literal_parseInt _ _ Hm).
    destruct w as [d h f t]. cbn [faults db] in *. subst f.
    unfold Transactions.select_total. run_handler.
    rewrite !of_month_as_where, !coalesce_sum_total. reflexivity.
Qed.

Lemma summary_sums_the_monthly_listing_witness :
  exists rows,
    Transactions.get_monthly 1 "2024" "3" (quiet ledger) =
      (Returned (mkResponse 200 (BTransactions
         (map Transactions.formatTransactionResponse rows))), quiet ledger) /\
    let income :=
      JS.parseFloat (total (filter (fun t => (t_type t =? "INCOME")%string)
                                   (map Transactions.row rows))) in
    let expense :=
      JS.parseFloat (total (filter (fun t => (t_type t =? "EXPENSE")%string)
                                   (map Transactions.row rows))) in
    Transactions.get_summary_year_month 1 "2024" "3" (quiet ledger) =
      (Returned (mkResponse 200
         (BSummary income expense (PrimFloat.sub income expense)
                   (JS.Num 2024) (JS.Num 3))), quiet ledger).
Proof.
  destruct (summary_sums_the_monthly_listing (quiet ledger) 1 "2024" "3" 2024 3)
    as [rows [E [_ [_ Hsum]]]].
  - reflexivity.
  - exact ledger_consistent.
  - reflexivity.
  - reflexivity.
  - lia.
  - vm_compute. discriminate.
  - exists rows. split; [exact E|exact Hsum].
Defined.

(* ------------------------------------------------------------------------- *)
(** ** Initialisation of any database *)

(** The loop over the seeds appends one default row per seed, in order, under
    fresh consecutive ids. *)
Lemma insert_each_run (l : list Database.Seed) :
  forall (d : Db) (h : nat) (t : Date),
  exists rows,
    Database.insert_each l (mkWorld d h [] t) =
      (Returned tt,
       mkWorld (set_categories d (categories d ++ rows)
                  (next_category_id d + Z.of_nat (List.length l))) h [] t) /\
    NoDup (map c_id rows) /\
    (forall c, In c rows ->
       next_category_id d <= c_id c <
         next_category_id d + Z.of_nat (List.length l) /\
       c_is_default c = true /\ c_user_id c = None) /\
    map (fun c => (c_name c, c_type c)) rows =
      map (fun s => (Database.name s, Database.type s)) l.
Proof.
  induction l as [|s rest IH]; intros d h t.
  - exists []. destruct d. cbn. rewrite app_nil_r, Z.add_0_r.
    split; [reflexivity|].
    split; [constructor|]. split; [intros c []|reflexivity].
  - cbn [Database.insert_each].
    set (c0 := mkCategory (next_category_id d) (Database.name s)
                 (Some (Database.description s)) (Database.type s)
                 (Some (Database.color s)) None true (now d) (now d)).
    destruct (IH (set_categories d (categories d ++ [c0])
                    (next_category_id d + 1)) h t)
      as [rows [Hrun [Hnd [Hrows Hnames]]]].
    cbn [set_categories categories next_category_id] in Hrun, Hrows.
    exists (c0 :: rows). split; [|split; [|split]].
    + unfold bind, execute, Database.insert_default.
      cbn [faults db held today fst snd]. fold c0. rewrite Hrun.
      unfold set_categories.
      cbn [users categories transactions next_user_id next_category_id
           next_transaction_id now].
      rewrite <- app_assoc. cbn [app List.length].
      replace (next_category_id d + 1 + Z.of_nat (List.length rest))
        with (next_category_id d + Z.of_nat (S (List.length rest))) by lia.
      reflexivity.
    + cbn [map]. constructor; [|exact Hnd].
      intros Hin. apply in_map_iff in Hin as [c [Hid Hc]].
      apply Hrows in Hc as [Hc _]. subst c0. cbn in Hid. lia.
    + intros c [Hc|Hc].
      * subst c. cbn [c_id c_is_default c_user_id c0 List.length].
        repeat split; lia.
      * apply Hrows in Hc as [Hc Hd]. cbn [List.length].
        split; [lia|exact Hd].
    + cbn [map]. now rewrite Hnames.
Qed.

(** On any consistent database, [initializeDatabase] keeps every user,
    transaction and category there is, gives its connection back and leaves a
    consistent database with a default category in it.  Where a default
    category exists it stores nothing; where none exists it appends the twelve
    defaults, in order, owned by no user.  Run again on its own result it
    stores nothing. *)
Theorem initializeDatabase_seeds_once (w : World) :
  faults w = [] ->
  consistent (db w) ->
  exists (d' : Db) (added : list CategoryRow),
    Database.initializeDatabase w =
      (Returned tt, mkWorld d' (held w) [] (today w)) /\
    Database.initializeDatabase (mkWorld d' (held w) [] (today w)) =
      (Returned tt, mkWorld d' (held w) [] (today w)) /\
    users d' = users (db w) /\
    transactions d' = transactions (db w) /\
    categories d' = categories (db w) ++ added /\
    consistent d' /\
    existsb c_is_default (categories d') = true /\
    (existsb c_is_default (categories (db w)) = true -> d' = db w) /\
    (existsb c_is_default (categories (db w)) = false ->
       map (fun c => (c_name c, c_type c)) added =
         map (fun s => (Database.name s, Database.type s))
             Database.defaultCategories /\
       forall c, In c added -> c_is_default c = true /\ c_user_id c = None).
Proof.
  intros Hf Hc. destruct w as [d h f t]. cbn [faults db held today] in *.
  subst f.
  assert (Hagain : forall d0 : Db,
            existsb c_is_default (categories d0) = true ->
            Database.initializeDatabase (mkWorld d0 h [] t) =
              (Returned tt, mkWorld d0 h [] t)).
  { intros d0 H0. unfold Database.initializeDatabase, Database.count_defaults.
    run_handler.
    destruct (filter c_is_default (categories d0)) as [|c l] eqn:E.
    - exfalso. apply existsb_exists in H0 as [c [Hin Hd]].
      assert (Hin' : In c (filter c_is_default (categories d0)))
        by (apply filter_In; split; assumption).
      rewrite E in Hin'. exact Hin'.
    - reflexivity. }
  destruct (existsb c_is_default (categories d)) eqn:Hex.
  - exists d, []. rewrite app_nil_r.
    repeat split; try (apply Hc); try (apply Hagain; exact Hex);
      try reflexivity; try discriminate; try exact Hex.
  - destruct (insert_each_run Database.defaultCategories d (S h) t)
      as [rows [Hrun [Hnd [Hrows Hnames]]]].
    assert (Hnone : filter c_is_default (categories d) = []).
    { destruct (filter c_is_default (categories d)) as [|c l] eqn:E;
        [reflexivity|].
      assert (Hin : In c (filter c_is_default (categories d)))
        by (rewrite E; left; reflexivity).
      apply filter_In in Hin as [Hin Hd].
      assert (existsb c_is_default (categories d) = true)
        by (apply existsb_exists; exists c; split; assumption).
      congruence. }
    assert (Hsome : existsb c_is_default (categories d ++ rows) = true).
    { destruct rows as [|c0 rows']; [discriminate Hnames|].
      apply existsb_exists. exists c0. split.
      - apply in_or_app. right. left. reflexivity.
      - apply (Hrows c0). left. reflexivity. }
    set (d' := set_categories d (categories d ++ rows)
                 (next_category_id d +
                  Z.of_nat (List.length Database.defaultCategories))).
    assert (Hfirst : Database.initializeDatabase (mkWorld d h [] t) =
                     (Returned tt, mkWorld d' h [] t)).
    { unfold Database.initializeDatabase, Database.count_defaults.
      unfold bind at 1. unfold getConnection at 1. cbn [faults db held today].
      unfold bind at 1. unfold execute at 1, select.
      cbn [faults db held today]. rewrite Hnone. cbn [List.length Nat.eqb].
      unfold bind at 1. rewrite Hrun. unfold release.
      cbn [faults db held today Nat.pred]. reflexivity. }
    exists d', rows.
    split; [exact Hfirst|].
    split; [apply Hagain; exact Hsome|].
    split; [reflexivity|]. split; [reflexivity|]. split; [reflexivity|].
    split; [|split; [exact Hsome|split; [discriminate|]]].
    + destruct Hc as [Hu Ht Hcu Htu Href]. split; unfold d';
        cbn [set_categories categories transactions next_category_id
             next_transaction_id].
      * rewrite map_app. apply NoDup_app; [exact Hu|exact Hnd|].
        intros a Ha Hb.
        apply in_map_iff in Ha as [c [Hid Hin]].
        apply in_map_iff in Hb as [c' [Hid' Hin']].
        apply Hcu in Hin. apply Hrows in Hin' as [Hin' _]. lia.
      * exact Ht.
      * intros c Hin. apply in_app_or in Hin as [Hin|Hin].
        -- apply Hcu in Hin. lia.
        -- apply Hrows in Hin as [Hin _]. lia.
      * exact Htu.
      * intros tr Hin. destruct (Href tr Hin) as [c [Hin' Hid]].
        exists c. split; [apply in_or_app; left; exact Hin'|exact Hid].
    + intros _. split; [exact Hnames|].
      intros c Hin. apply Hrows in Hin as [_ Hin]. exact Hin.
Qed.

Lemma initializeDatabase_seeds_once_witness :
  exists (d' : Db) (added : list CategoryRow),
    Database.initializeDatabase (quiet ledger) = (Returned tt, quiet d') /\
    Database.initializeDatabase (quiet d') = (Returned tt, quiet d') /\
    transactions d' = transactions ledger /\
    categories d' = categories ledger ++ added /\
    consistent d'.
Proof.
  destruct (initializeDatabase_seeds_once (quiet ledger) eq_refl
              ledger_consistent)
    as [d' [added [H1 [H2 [_ [H3 [H4 [H5 _]]]]]]]].
  exists d', added.
  split; [exact H1|]. split; [exact H2|]. split; [exact H3|].
  split; [exact H4|exact H5].
Defined.

(* ------------------------------------------------------------------------- *)
(** ** From login to the protected routes *)

Lemma split_space_without_space (s : string) :
  (forall c, In c (list_ascii_of_string s) -> c <> " "%char) ->
  Auth.split_space s = [s].
Proof.
  induction s as [|c r IH]; intros H; [reflexivity|].
  cbn [Auth.split_space].
  destruct (Ascii.eqb_spec c " "%char) as [E|_].
  - exfalso. apply (H c); [left; reflexivity|exact E].
  - rewrite IH; [reflexivity|]. intros x Hx. apply H. right. exact Hx.
Qed.

Lemma bearer_header (token : string) :
  (forall c, In c (list_ascii_of_string token) -> c <> " "%char) ->
  Auth.bearer_token (Some ("Bearer " ++ token)%string) = Some token.
Proof.
  intros H. unfold Auth.bearer_token.
  change (JS.truthy_string ("Bearer " ++ token)%string) with true. cbv iota.
  cbn [append Auth.split_space Ascii.eqb Bool.eqb].
  rewrite (split_space_without_space token H). reflexivity.
Qed.

(** A token handed out by a successful login is accepted afterwards.  When
    [jwt.verify] recovers from the token the id it was signed for, user ids are unique
    and the driver raises no fault: if POST /login answers 200 with a token
    (non-empty and without a space), then it changed nothing, GET /validate
    with the header "Bearer <token>" answers 200 with the same token and
    profile, and every protected route requested with that header is run for
    a stored user who has the username that logged in. *)
Theorem login_token_is_accepted
  (bcrypt_compare : string -> string -> bool)
  (jwt_sign : Z -> string -> string -> string)
  (jwt_verify : string -> Outcome Z)
  (w w' : World) (b : Auth.LoginBody) (token username email fullName : string) :
  faults w = [] ->
  NoDup (map u_id (users (db w))) ->
  (forall id name mail,
     jwt_sign id name mail = token -> jwt_verify token = Returned id) ->
  JS.truthy_string token = true ->
  (forall c, In c (list_ascii_of_string token) -> c <> " "%char) ->
  Auth.login bcrypt_compare jwt_sign b w =
    (Returned (mkResponse 200 (BSession token username email fullName)), w') ->
  w' = w /\
  Auth.validate jwt_verify (Some ("Bearer " ++ token)%string) w =
    (Returned (mkResponse 200 (BSession token username email fullName)), w) /\
  exists u,
    In u (users (db w)) /\ u_username u = Auth.l_username b /\
    u_username u = username /\ u_email u = email /\ u_full_name u = fullName /\
    forall r,
      App.protected jwt_verify (Some ("Bearer " ++ token)%string) r w =
      App.router (u_id u) r w.
Proof.
  intros Hf Hnd Hvs Htruthy Hspace Hlogin.
  pose proof (bearer_header token Hspace) as Hbearer.
  destruct w as [d h f t]. cbn [faults db] in *. subst f.
  unfold Auth.login, Auth.select_user_by_username in Hlogin.
  destruct (Auth.loginValidation b) as [|m ms];
    [|unfold try_catch, res_status in Hlogin; cbn in Hlogin; discriminate].
  revert Hlogin. run_handler.
  destruct (filter (fun u => (u_username u =? Auth.l_username b)%string)
                   (users d)) as [|user rest] eqn:E;
    [cbn; discriminate|].
  destruct (bcrypt_compare (Auth.l_password b) (u_password user));
    cbn [negb]; [|cbn; discriminate].
  cbn [faults db held today fst snd Nat.pred]. intros Hlogin.
  injection Hlogin as Htoken Hname Hmail Hfull Hw.
  assert (Hin : In user (filter (fun u => (u_username u =? Auth.l_username b)%string)
                                (users d)))
    by (rewrite E; left; reflexivity).
  apply filter_In in Hin as [Hin Huser]. apply String.eqb_eq in Huser.
  assert (Hverify : jwt_verify token = Returned (u_id user)).
  { exact (Hvs _ _ _ Htoken). }
  split; [symmetry; exact Hw|]. split.
  - unfold Auth.validate, Auth.lift, Auth.select_user_by_id.
    rewrite Hbearer, Htruthy. cbn [negb]. run_handler. rewrite Hverify.
    cbn [faults db held today fst snd Nat.pred].
    rewrite (filter_key_unique u_id user _ Hnd Hin).
    cbn [faults db held today fst snd Nat.pred].
    now rewrite Hname, Hmail, Hfull.
  - exists user. repeat split; try assumption.
    intros r.
    exact (middleware_passes_to_route jwt_verify _ token user r
             (mkWorld d h [] t) Hbearer Htruthy Hverify eq_refl Hnd Hin).
Qed.

Lemma login_token_is_accepted_witness :
  Auth.login toy_compare
    (fun id _ _ => if id =? 1 then "token-1" else "token-0")
    (Auth.mkLoginBody "ana" "secret") (quiet ledger) =
    (Returned (mkResponse 200 (BSession "token-1" "ana" "ana@example.org" "Ana")),
     quiet ledger) /\
  Auth.validate toy_verify (Some "Bearer token-1") (quiet ledger) =
    (Returned (mkResponse 200 (BSession "token-1" "ana" "ana@example.org" "Ana")),
     quiet ledger).
Proof.
  split; [reflexivity|].
  refine (proj1 (proj2
    (login_token_is_accepted toy_compare
       (fun id _ _ => if id =? 1 then "token-1" else "token-0") toy_verify
       (quiet ledger) (quiet ledger) (Auth.mkLoginBody "ana" "secret")
       "token-1" "ana" "ana@example.org" "Ana" _ _ _ _ _ _))).
  - reflexivity.
  - repeat constructor. simpl. tauto.
  - intros id name mail. destruct (id =? 1) eqn:E; [|discriminate].
    apply Z.eqb_eq in E. subst id. reflexivity.
  - reflexivity.
  - intros c Hc Hs. subst c. vm_compute in Hc. intuition discriminate.
  - reflexivity.
Defined.
